(** * vbox-shutdown: a shallow embedding of [vbox-shutdown.py]

    The tray service keeps VirtualBox machines from being killed by a host
    shutdown.  This development embeds the parts of the script that carry
    logic: [RecursionGuard], [ShutdownBlocker], [VBSession], [VBContext]
    and [VBCController].

    Conventions.
    - Python objects that are mutated become records that are threaded
      through explicitly; a method is a function from the state before the
      call to an outcome and the state after it.
    - A Python exception is an [outcome] of the form [Raise e]; the state
      reached when the exception was raised is kept, as in Python.
    - The VirtualBox COM binding ([vboxapi]) is not part of the script.  It
      is an interface ([VBoxApi]) over an abstract world, so every theorem
      holds for every behaviour of the binding, including faults at any
      call.
    - [logging] and the calls made on the binding are recorded, oldest
      first, so that "is logged" and "issues a command" are statements
      about those records. *)

From Stdlib Require Import ZArith String List Bool Lia Sorted.
Import ListNotations.

Set Implicit Arguments.

(** ** Python values, exceptions and outcomes *)

(** The exceptions the script can meet.  All of them derive from
    [Exception], so [except Exception] catches each one. *)
Inductive exn : Type :=
| RuntimeError (msg : string)
| IndexError
| TypeError
| AttributeError (attr : string)
| ImportError
| ApiError (msg : string).

Inductive outcome (A : Type) : Type :=
| Ret (a : A)
| Raise (e : exn).

Arguments Ret {A} a.
Arguments Raise {A} e.

(** A method over a mutable state [S]. *)
Definition M (S A : Type) : Type := S -> outcome A * S.

Definition ret {S A} (a : A) : M S A := fun s => (Ret a, s).

Definition raise {S A} (e : exn) : M S A := fun s => (Raise e, s).

Definition bind {S A B} (m : M S A) (k : A -> M S B) : M S B :=
  fun s =>
    match m s with
    | (Ret a, s1) => k a s1
    | (Raise e, s1) => (Raise e, s1)
    end.

Declare Scope py_scope.
Delimit Scope py_scope with py.

Notation "x <- m ;; k" := (bind m (fun x => k))
  (at level 100, m at next level, right associativity) : py_scope.
Notation "m ;; k" := (bind m (fun _ => k))
  (at level 100, right associativity) : py_scope.

Local Open Scope py_scope.

(** [try: body  except Exception as exc: handler]. *)
Definition try_except {S A} (body : M S A) (handler : exn -> M S A) : M S A :=
  fun s =>
    match body s with
    | (Ret a, s1) => (Ret a, s1)
    | (Raise e, s1) => handler e s1
    end.

(** [with cm as target: body], for a context manager whose [__exit__]
    returns a falsy value (every manager of the script does).  When
    [__enter__] raises, [__exit__] is not called.  Otherwise [__exit__] runs
    on every way out of the body (fall through, [return], exception); the
    outcome of the body is kept unless [__exit__] itself raises. *)
Definition with_stmt {S E A}
    (enter : M S E) (exit : M S unit) (body : E -> M S A) : M S A :=
  fun s =>
    match enter s with
    | (Raise e, s1) => (Raise e, s1)
    | (Ret v, s1) =>
        let (r, s2) := body v s1 in
        match exit s2 with
        | (Raise e', s3) => (Raise e', s3)
        | (Ret _, s3) => (r, s3)
        end
    end.

(** Running a method of a component on a larger state: [get] reads the
    component, [set] writes it back. *)
Definition lift {S T A} (get : T -> S) (set : S -> T -> T) (m : M S A) : M T A :=
  fun t => let (r, s') := m (get t) in (r, set s' t).

(** ** RecursionGuard *)

Module RecursionGuard.

(** The object is its [_value]. *)
Definition t : Type := Z.

Definition __init__ : t := 0%Z.

Definition __enter__ : M t unit :=
  fun _value =>
    let _value := (_value + 1)%Z in
    if (1 <? _value)%Z
    then (Raise (RuntimeError "Recursion detected!"), _value)
    else (Ret tt, _value).

Definition __exit__ : M t unit :=
  fun _value => (Ret tt, (_value - 1)%Z).

End RecursionGuard.

(** ** ShutdownBlocker *)

Module ShutdownBlocker.

(** The two user32 entry points the class calls.  Their BOOL results are
    ignored by the script. *)
Inductive os_call : Type :=
| ShutdownBlockReasonCreate (hWnd : Z) (sReason : string)
| ShutdownBlockReasonDestroy (hWnd : Z).

Record t : Type := mk {
  hWnd : Z;
  sReason : string;
  counter : Z;
  os_calls : list os_call   (* calls issued so far, oldest first *)
}.

Definition __init__ (hWnd : Z) (sReason : string) : t :=
  {| hWnd := hWnd; sReason := sReason; counter := 0; os_calls := [] |}.

Definition issue (c : os_call) (b : t) : t :=
  {| hWnd := hWnd b; sReason := sReason b; counter := counter b;
     os_calls := os_calls b ++ [c] |}.

Definition set_counter (n : Z) (b : t) : t :=
  {| hWnd := hWnd b; sReason := sReason b; counter := n;
     os_calls := os_calls b |}.

Definition enable (b : t) : t :=
  let b := if (counter b =? 0)%Z
           then issue (ShutdownBlockReasonCreate (hWnd b) (sReason b)) b
           else b in
  set_counter (counter b + 1)%Z b.

Definition disable (b : t) : t :=
  let b := if (counter b =? 1)%Z
           then issue (ShutdownBlockReasonDestroy (hWnd b)) b
           else b in
  if (0 <? counter b)%Z then set_counter (counter b - 1)%Z b else b.

Inductive op : Type := Enable | Disable.

Definition step (b : t) (o : op) : t :=
  match o with
  | Enable => enable b
  | Disable => disable b
  end.

Definition run (ops : list op) (b : t) : t := fold_left step ops b.

(** What the operating system holds after a sequence of calls: a veto is
    registered by Create and removed by Destroy. *)
Definition veto_after (active : bool) (c : os_call) : bool :=
  match c with
  | ShutdownBlockReasonCreate _ _ => true
  | ShutdownBlockReasonDestroy _ => false
  end.

Definition veto_active (calls : list os_call) : bool :=
  fold_left veto_after calls false.

(** No Destroy is issued while no veto is registered (so none is issued
    twice in a row), and no Create while one is. *)
Fixpoint well_paired (active : bool) (calls : list os_call) : bool :=
  match calls with
  | [] => true
  | ShutdownBlockReasonCreate _ _ :: rest => negb active && well_paired true rest
  | ShutdownBlockReasonDestroy _ :: rest => active && well_paired false rest
  end.

Definition is_create (c : os_call) : bool :=
  match c with
  | ShutdownBlockReasonCreate _ _ => true
  | ShutdownBlockReasonDestroy _ => false
  end.

Definition count_create (calls : list os_call) : nat :=
  length (filter is_create calls).

Definition count_destroy (calls : list os_call) : nat :=
  length (filter (fun c => negb (is_create c)) calls).

(** What every reachable blocker satisfies. *)
Record invariant (b : t) : Prop := {
  inv_nonneg : (0 <= counter b)%Z;
  inv_paired : well_paired false (os_calls b) = true;
  inv_active : veto_active (os_calls b) = (0 <? counter b)%Z;
  inv_count : count_create (os_calls b) =
              count_destroy (os_calls b) +
              (if veto_active (os_calls b) then 1 else 0)
}.

End ShutdownBlocker.

(** ** The data model of the VirtualBox binding *)

(** [MachineState] values.  In the script they are the integers of the
    binding's constant table, read through [Enum]; the script tells apart
    the four off-states and [Paused], every other state is handled alike.
    Every state the binding reports is in its table, so the look-ups
    [self.MachineState[machine.state]] made for the log lines do not
    fail. *)
Inductive MachineState : Type :=
| PoweredOff
| Saved
| Teleported
| Aborted
| Paused
| Running
| OtherState (code : Z).

Definition MachineState_eqb (a b : MachineState) : bool :=
  match a, b with
  | PoweredOff, PoweredOff | Saved, Saved | Teleported, Teleported
  | Aborted, Aborted | Paused, Paused | Running, Running => true
  | OtherState x, OtherState y => (x =? y)%Z
  | _, _ => false
  end.

Definition OffMachineStates : list MachineState :=
  [PoweredOff; Saved; Teleported; Aborted].

(** [state in self.OffMachineStates]. *)
Definition is_off (st : MachineState) : bool :=
  existsb (MachineState_eqb st) OffMachineStates.

Inductive LockType : Type := Shared | WriteLock | VMLock.

(** [VBContext.Machine]: the surrogate handed to the other threads. *)
Record Machine : Type := {
  index : nat;
  name : string;
  state : MachineState
}.

(** What a context method hands back through [VBCController.call]. *)
Inductive Value : Type :=
| VNone
| VBool (b : bool)
| VMachines (ms : list Machine).

(** Python truth value ([if not self.vbcc.call(...)]). *)
Definition truthy (v : Value) : bool :=
  match v with
  | VNone => false
  | VBool b => b
  | VMachines [] => false
  | VMachines (_ :: _) => true
  end.

Inductive level : Type := DEBUG | INFO | ERROR.

(** A logging call: its level and its format string. *)
Definition LogRecord : Type := (level * string)%type.

(** A call made on the binding (or on [time]). *)
Inductive ApiCall : Type :=
| Connect                                (* vboxapi.VirtualBoxManager() ... *)
| Deinit                                 (* VBM.deinit() *)
| GetMachines                            (* VBM.getArray(VB, 'machines') *)
| GetName                                (* machine.name *)
| GetState (seen : option MachineState)  (* machine.state and what it gave *)
| GetSessionObject                       (* VBM.getSessionObject(VB) *)
| LockMachine (k : LockType)             (* machine.lockMachine(sess, k) *)
| SessionMachine                         (* sess.machine *)
| UnlockMachine                          (* sess.unlockMachine() *)
| Resume                                 (* sess.console.resume() *)
| PowerButton                            (* sess.console.PowerButton() *)
| SaveState                              (* machine.saveState() *)
| Sleep.                                 (* time.sleep(1) *)

(** The binding, over a world [W], machine handles [H] and sessions [S].
    Every call may change the world and may fault. *)
Class VBoxApi (W H S : Type) : Type := {
  connect : W -> outcome unit * W;
  deinit : W -> outcome unit * W;
  getArray_machines : W -> outcome (list H) * W;
  machine_name : H -> W -> outcome string * W;
  machine_state : H -> W -> outcome MachineState * W;
  getSessionObject : W -> outcome S * W;
  lockMachine : H -> S -> LockType -> W -> outcome unit * W;
  session_machine : S -> W -> outcome H * W;
  unlockMachine : S -> W -> outcome unit * W;
  console_resume : S -> W -> outcome unit * W;
  console_PowerButton : S -> W -> outcome unit * W;
  saveState : H -> W -> outcome unit * W;
  sleep : W -> W
}.

(** What lies outside the objects of the script: the world behind the
    binding, the calls made on it and the log. *)
Record Env (W : Type) : Type := {
  world : W;
  api_calls : list ApiCall;
  log : list LogRecord
}.

Definition env_call {W A} (ev : outcome A -> ApiCall)
    (f : W -> outcome A * W) : M (Env W) A :=
  fun e =>
    let (r, w) := f (world e) in
    (r, {| world := w; api_calls := api_calls e ++ [ev r]; log := log e |}).

Definition env_log {W} (l : level) (msg : string) : M (Env W) unit :=
  fun e =>
    (Ret tt, {| world := world e; api_calls := api_calls e;
                log := log e ++ [(l, msg)] |}).

Definition env_sleep {W} (f : W -> W) : M (Env W) unit :=
  fun e =>
    (Ret tt, {| world := f (world e); api_calls := api_calls e ++ [Sleep];
                log := log e |}).

(** The attributes of a [VBContext] that change or differ between
    instances: the guard, and whether [vboxapi] could be imported ([VBM]
    and the tables exist) or the stub of the [except ImportError] branch
    is in place. *)
Record VBContext : Type := {
  _recursion_guard : RecursionGuard.t;
  VBM : bool
}.

(** A context together with its surroundings: the state its methods run
    on. *)
Record St (W : Type) : Type := {
  self : VBContext;
  env : Env W
}.

Definition set_env {W} (e : Env W) (st : St W) : St W :=
  {| self := self st; env := e |}.

Definition guard_of {W} (st : St W) : RecursionGuard.t :=
  _recursion_guard (self st).

Definition set_guard {W} (g : RecursionGuard.t) (st : St W) : St W :=
  {| self := {| _recursion_guard := g; VBM := VBM (self st) |};
     env := env st |}.

Definition in_env {W A} (m : M (Env W) A) : M (St W) A :=
  lift (@env W) set_env m.

Definition logging {W} (l : level) (msg : string) : M (St W) unit :=
  in_env (env_log l msg).

Section Context_methods.

Context {W H S : Type} {api : VBoxApi W H S}.

(** *** Attribute reads and calls on the binding *)

Definition seen (r : outcome MachineState) : option MachineState :=
  match r with
  | Ret st => Some st
  | Raise _ => None
  end.

Definition get_name (m : H) : M (St W) string :=
  in_env (env_call (fun _ => GetName) (machine_name m)).

Definition get_state (m : H) : M (St W) MachineState :=
  in_env (env_call (fun r => GetState (seen r)) (machine_state m)).

Definition do_lockMachine (m : H) (s : S) (k : LockType) : M (St W) unit :=
  in_env (env_call (fun _ => LockMachine k) (lockMachine m s k)).

Definition get_session_machine (s : S) : M (St W) H :=
  in_env (env_call (fun _ => SessionMachine) (session_machine s)).

Definition do_unlockMachine (s : S) : M (St W) unit :=
  in_env (env_call (fun _ => UnlockMachine) (unlockMachine s)).

Definition do_resume (s : S) : M (St W) unit :=
  in_env (env_call (fun _ => Resume) (console_resume s)).

Definition do_PowerButton (s : S) : M (St W) unit :=
  in_env (env_call (fun _ => PowerButton) (console_PowerButton s)).

Definition do_saveState (m : H) : M (St W) unit :=
  in_env (env_call (fun _ => SaveState) (saveState m)).

Definition time_sleep : M (St W) unit :=
  in_env (env_sleep sleep).

(** [self.VBM]: missing on the stub context. *)
Definition get_VBM : M (St W) unit :=
  fun st =>
    if VBM (self st) then (Ret tt, st)
    else (Raise (AttributeError "VBM"), st).

(** *** VBSession *)

(** [sess] is [None] when [__init__] failed to set the attribute. *)
Record VBSession : Type := {
  machine : H;
  locktype : LockType;
  sess : option S
}.

Definition VBSession__init__ (machine : H) (locktype : LockType)
    : M (St W) VBSession :=
  try_except
    (get_VBM;;
     s <- in_env (env_call (fun _ => GetSessionObject) getSessionObject);;
     ret {| machine := machine; locktype := locktype; sess := Some s |})
    (fun exc =>
       logging DEBUG "Failed to get session object: %s";;
       ret {| machine := machine; locktype := locktype; sess := None |}).

(** Returns [None] when the lock could not be taken. *)
Definition VBSession__enter__ (v : VBSession) : M (St W) (option (S * H)) :=
  try_except
    (match sess v with
     | None => raise (AttributeError "sess")
     | Some s =>
         do_lockMachine (machine v) s (locktype v);;
         m <- get_session_machine s;;
         ret (Some (s, m))
     end)
    (fun exc =>
       logging DEBUG "Failed to lock machine: %s";;
       ret None).

Definition VBSession__exit__ (v : VBSession) : M (St W) unit :=
  try_except
    (match sess v with
     | None => raise (AttributeError "sess")
     | Some s => do_unlockMachine s
     end)
    (fun exc => logging DEBUG "Failed to unlock session: %s").

(** [with VBSession(self, machine, locktype) as (sess, machine): body].
    Unpacking the [None] of a failed [__enter__] raises inside the
    statement, so [__exit__] still runs. *)
Definition with_VBSession {A} (machine : H) (locktype : LockType)
    (body : S * H -> M (St W) A) : M (St W) A :=
  v <- VBSession__init__ machine locktype;;
  with_stmt (VBSession__enter__ v) (VBSession__exit__ v)
    (fun target =>
       match target with
       | Some p => body p
       | None => raise TypeError
       end).

(** *** VBContext *)

(** [with self._recursion_guard: body]. *)
Definition with_recursion_guard {A} (body : M (St W) A) : M (St W) A :=
  with_stmt
    (lift guard_of set_guard RecursionGuard.__enter__)
    (lift guard_of set_guard RecursionGuard.__exit__)
    (fun _ => body).

Definition _machines : M (St W) (list H) :=
  get_VBM;;
  in_env (env_call (fun _ => GetMachines) getArray_machines).

(** [VBContext.Machine(index, vb_machine)]. *)
Definition Machine__init__ (index : nat) (vb_machine : H) : M (St W) Machine :=
  n <- get_name vb_machine;;
  st <- get_state vb_machine;;
  ret {| index := index; name := n; state := st |}.

(** The body of [for m in self._machines()] in [machines], from the
    machines still to visit, the counter [i] and the list [res]. *)
Fixpoint machines_loop (ms : list H) (i : nat) (res : list Machine)
    : M (St W) (list Machine) :=
  match ms with
  | [] => ret res
  | m :: ms' =>
      let i := i + 1 in
      res <- try_except
               (mk <- Machine__init__ (i - 1) m;;
                ret (res ++ [mk]))
               (fun exc => ret res);;
      machines_loop ms' i res
  end.

Definition machines : M (St W) (list Machine) :=
  ms <- _machines;;
  machines_loop ms 0 [].

Definition machines_running : M (St W) (list Machine) :=
  ms <- machines;;
  ret (filter (fun m => negb (is_off (state m))) ms).

(** [self._machines()[machine_surrogate.index]]. *)
Definition resolve (machine_surrogate : Machine) : M (St W) H :=
  ms <- _machines;;
  match nth_error ms (index machine_surrogate) with
  | Some m => ret m
  | None => raise IndexError
  end.

(** [for i in range(n)] of [shutdown_machine]; [VNone] when the loop is
    exhausted and the method falls off its end. *)
Fixpoint shutdown_loop (n : nat) (sess : S) (machine : H) : M (St W) Value :=
  match n with
  | O => ret VNone
  | Datatypes.S n' =>
      _ <- get_name machine;;
      _ <- get_state machine;;
      logging INFO "Machine `%s` is in state: %s";;
      st <- get_state machine;;
      if MachineState_eqb st Paused then
        do_resume sess;;
        time_sleep;;
        shutdown_loop n' sess machine
      else
        st <- get_state machine;;
        if is_off st then
          _ <- get_name machine;;
          _ <- get_state machine;;
          logging INFO "Machine `%s` is in state: %s. Were done !";;
          ret (VBool true)
        else
          do_PowerButton sess;;
          time_sleep;;
          shutdown_loop n' sess machine
  end.

Definition shutdown_machine (machine_surrogate : Machine) : M (St W) Value :=
  with_recursion_guard
    (try_except
       (machine <- resolve machine_surrogate;;
        _ <- get_name machine;;
        logging INFO "Attempting ACPI shutdown for `%s`.";;
        with_VBSession machine Shared
          (fun '(sess, machine) =>
             try_except
               (shutdown_loop 20 sess machine)
               (fun exc =>
                  _ <- get_name machine;;
                  logging ERROR "Failed to ACPI shutdown `%s`: %s";;
                  ret VNone)))
       (fun exc =>
          logging ERROR "Failed to access machine member: %s";;
          ret VNone)).

(** [for i in range(n): ... else: ...] of [save_machine]. *)
Fixpoint save_loop (n : nat) (machine : H) : M (St W) Value :=
  match n with
  | O =>
      _ <- get_name machine;;
      logging ERROR "Failed to save `%s`: Took too much time to save !";;
      ret VNone
  | Datatypes.S n' =>
      _ <- get_name machine;;
      _ <- get_state machine;;
      logging INFO "Machine `%s` is in state: %s";;
      st <- get_state machine;;
      if is_off st then ret (VBool true)
      else
        time_sleep;;
        save_loop n' machine
  end.

Definition save_machine (machine_surrogate : Machine) : M (St W) Value :=
  with_recursion_guard
    (try_except
       (machine <- resolve machine_surrogate;;
        _ <- get_name machine;;
        logging INFO "Checking machine `%s` ... ";;
        st <- get_state machine;;
        if negb (is_off st) then
          _ <- get_name machine;;
          logging INFO "Saving machine `%s` ... ";;
          with_VBSession machine Shared
            (fun '(_, machine) =>
               try_except
                 (do_saveState machine;;
                  save_loop 20 machine)
                 (fun exc =>
                    _ <- get_name machine;;
                    logging ERROR "Failed to save `%s`: %s";;
                    ret VNone))
        else ret VNone)
       (fun exc =>
          logging ERROR "Failed to access machine member: %s";;
          ret VNone)).

End Context_methods.

(** ** VBCController *)

(** A [threading.Thread] or [threading.Timer] object, as far as the script
    looks at it: through [is_alive()]. *)
Inductive Thread : Type := ThreadAlive | ThreadDead.

Inductive Timer : Type := TimerAlive | TimerDone.

(** How a blocking method ends for the thread that called it. *)
Inductive completion (A : Type) : Type :=
| Returned (a : A)
| Raised (e : exn)
| Blocked.          (* waits on an event that no thread is left to set *)

Arguments Returned {A} a.
Arguments Raised {A} e.
Arguments Blocked {A}.

Section Controller.

Context {W H S : Type} {api : VBoxApi W H S}.

(** The attributes of the controller.  [ctx] is [None] while the
    attribute holds [None] or is deleted.  [_call_args] is folded into
    [_call_method]: the pending call is the method applied to its
    arguments, still waiting for the context. *)
Record VBCController : Type := {
  ctx : option VBContext;
  _enabled : bool;
  _acquire_cnt : Z;
  _ev_result : bool;
  _ev_started : bool;
  _stop_timer : option Timer;
  _thread : option Thread;
  _call_method : option (M (St W) Value);
  _call_result : Value
}.

Definition VBCController__init__ : VBCController :=
  {| ctx := None; _enabled := false; _acquire_cnt := 0;
     _ev_result := false; _ev_started := false; _stop_timer := None;
     _thread := None; _call_method := None; _call_result := VNone |}.

Definition set_ctx (x : option VBContext) (c : VBCController) :=
  {| ctx := x; _enabled := _enabled c; _acquire_cnt := _acquire_cnt c;
     _ev_result := _ev_result c; _ev_started := _ev_started c;
     _stop_timer := _stop_timer c; _thread := _thread c;
     _call_method := _call_method c; _call_result := _call_result c |}.

Definition set_enabled (x : bool) (c : VBCController) :=
  {| ctx := ctx c; _enabled := x; _acquire_cnt := _acquire_cnt c;
     _ev_result := _ev_result c; _ev_started := _ev_started c;
     _stop_timer := _stop_timer c; _thread := _thread c;
     _call_method := _call_method c; _call_result := _call_result c |}.

Definition set_acquire_cnt (x : Z) (c : VBCController) :=
  {| ctx := ctx c; _enabled := _enabled c; _acquire_cnt := x;
     _ev_result := _ev_result c; _ev_started := _ev_started c;
     _stop_timer := _stop_timer c; _thread := _thread c;
     _call_method := _call_method c; _call_result := _call_result c |}.

Definition set_ev_result (x : bool) (c : VBCController) :=
  {| ctx := ctx c; _enabled := _enabled c; _acquire_cnt := _acquire_cnt c;
     _ev_result := x; _ev_started := _ev_started c;
     _stop_timer := _stop_timer c; _thread := _thread c;
     _call_method := _call_method c; _call_result := _call_result c |}.

Definition set_ev_started (x : bool) (c : VBCController) :=
  {| ctx := ctx c; _enabled := _enabled c; _acquire_cnt := _acquire_cnt c;
     _ev_result := _ev_result c; _ev_started := x;
     _stop_timer := _stop_timer c; _thread := _thread c;
     _call_method := _call_method c; _call_result := _call_result c |}.

Definition set_stop_timer (x : option Timer) (c : VBCController) :=
  {| ctx := ctx c; _enabled := _enabled c; _acquire_cnt := _acquire_cnt c;
     _ev_result := _ev_result c; _ev_started := _ev_started c;
     _stop_timer := x; _thread := _thread c;
     _call_method := _call_method c; _call_result := _call_result c |}.

Definition set_thread (x : option Thread) (c : VBCController) :=
  {| ctx := ctx c; _enabled := _enabled c; _acquire_cnt := _acquire_cnt c;
     _ev_result := _ev_result c; _ev_started := _ev_started c;
     _stop_timer := _stop_timer c; _thread := x;
     _call_method := _call_method c; _call_result := _call_result c |}.

Definition set_call_method (x : option (M (St W) Value)) (c : VBCController) :=
  {| ctx := ctx c; _enabled := _enabled c; _acquire_cnt := _acquire_cnt c;
     _ev_result := _ev_result c; _ev_started := _ev_started c;
     _stop_timer := _stop_timer c; _thread := _thread c;
     _call_method := x; _call_result := _call_result c |}.

Definition set_call_result (x : Value) (c : VBCController) :=
  {| ctx := ctx c; _enabled := _enabled c; _acquire_cnt := _acquire_cnt c;
     _ev_result := _ev_result c; _ev_started := _ev_started c;
     _stop_timer := _stop_timer c; _thread := _thread c;
     _call_method := _call_method c; _call_result := x |}.

(** The process: the controller and what lies outside it. *)
Record Proc : Type := {
  vbcc : VBCController;
  outside : Env W
}.

Definition on_vbcc (f : VBCController -> VBCController) : M Proc unit :=
  fun p => (Ret tt, {| vbcc := f (vbcc p); outside := outside p |}).

Definition on_outside {A} (m : M (Env W) A) : M Proc A :=
  lift outside (fun e p => {| vbcc := vbcc p; outside := e |}) m.

(** *** The worker thread

    The caller and the worker meet at the condition [_wq] and the two
    events.  The model follows one caller at a time and runs the worker
    from the point where it is woken (or started) to the point where it
    waits again or ends; that stretch is what the caller waits for. *)

(** [VBContext()]: only [ImportError] is caught, leaving the stub. *)
Definition VBContext__init__ : M (Env W) VBContext :=
  fun e =>
    match env_call (fun _ => Connect) connect e with
    | (Ret _, e1) =>
        let (_, e2) := env_log DEBUG "VBContext initialized" e1 in
        (Ret {| _recursion_guard := RecursionGuard.__init__; VBM := true |}, e2)
    | (Raise ImportError, e1) =>
        (Ret {| _recursion_guard := RecursionGuard.__init__; VBM := false |}, e1)
    | (Raise exc, e1) => (Raise exc, e1)
    end.

(** [VBContext.deinit]. *)
Definition VBContext_deinit : M (St W) unit :=
  get_VBM;;
  in_env (env_call (fun _ => Deinit) deinit);;
  logging DEBUG "VBContext released".

(** The [try] block of the worker for a pending call [f]. *)
Definition worker_serve (f : M (St W) Value) : M Proc unit :=
  fun p =>
    let c := vbcc p in
    match ctx c with
    | None =>
        (* self.ctx is missing: the AttributeError is caught like any other *)
        on_outside (env_log ERROR "Call to VB context failed: %s") p
    | Some x =>
        match f {| self := x; env := outside p |} with
        | (Ret v, st) =>
            (Ret tt, {| vbcc := set_call_result v (set_ctx (Some (self st)) c);
                        outside := env st |})
        | (Raise exc, st) =>
            on_outside (env_log ERROR "Call to VB context failed: %s")
              {| vbcc := set_ctx (Some (self st)) c; outside := env st |}
        end
    end.

(** What the worker does after its loop: the part after [while]. *)
Definition worker_exit : M Proc unit :=
  on_vbcc (fun c => set_call_result VNone (set_call_method None c));;
  fun p =>
    match ctx (vbcc p) with
    | None => (Raise (AttributeError "ctx"), p)
    | Some x =>
        match VBContext_deinit {| self := x; env := outside p |} with
        | (Ret _, st) =>
            (Ret tt, {| vbcc := set_ctx None (vbcc p); outside := env st |})
        | (Raise exc, st) =>
            (Raise exc, {| vbcc := set_ctx (Some (self st)) (vbcc p);
                           outside := env st |})
        end
    end.

(** One turn of [while self._enabled], entered with [_wq] held, up to the
    next [wait] ([true]) or through the lines after the loop to the end
    of the thread ([false]). *)
Definition worker_turn : M Proc bool :=
  fun p =>
    if _enabled (vbcc p) then
      match _call_method (vbcc p) with
      | Some f =>
          (worker_serve f;;
           on_vbcc (fun c => set_ev_result true (set_call_method None c));;
           ret true) p
      | None => (Ret true, p)
      end
    else
      (worker_exit;; ret false) p.

(** A stretch of the worker: the thread stays alive if the stretch ends
    in a wait, and is dead if it ran to its end or an exception left it.
    No other thread sees that exception. *)
Definition run_worker (m : M Proc bool) : M Proc unit :=
  fun p =>
    match m p with
    | (Ret true, p1) => (Ret tt, p1)
    | (_, p1) => on_vbcc (set_thread (Some ThreadDead)) p1
    end.

(** [_worker] from its first line to its first wait. *)
Definition _worker : M Proc bool :=
  on_vbcc (set_ev_started true);;
  x <- on_outside VBContext__init__;;
  on_vbcc (set_ctx (Some x));;
  worker_turn.

(** [_wq.notify()]: a live worker takes its next turn. *)
Definition notify : M Proc unit :=
  fun p =>
    match _thread (vbcc p) with
    | Some ThreadAlive => run_worker worker_turn p
    | _ => (Ret tt, p)
    end.

(** *** The methods called from other threads *)

Definition _timer_stop : M Proc unit :=
  on_vbcc (fun c =>
             match _stop_timer c with
             | Some TimerAlive => set_stop_timer None c   (* after cancel() *)
             | _ => c
             end).

Definition _start : M Proc unit :=
  fun p =>
    if negb (_enabled (vbcc p)) then
      (on_vbcc (set_enabled true);;
       on_vbcc (set_thread (Some ThreadAlive));;
       run_worker _worker) p
    else (Ret tt, p).

(** [self._thread.join()]; on [None] it would be an attribute error. *)
Definition join : M Proc unit :=
  fun p =>
    match _thread (vbcc p) with
    | None => (Raise (AttributeError "join"), p)
    | Some _ => (Ret tt, p)
    end.

Definition stop : M Proc unit :=
  on_vbcc (set_enabled false);;
  notify;;
  (fun p =>
     match _thread (vbcc p) with
     | Some _ => join p
     | None => (Ret tt, p)
     end);;
  on_vbcc (set_ev_started false).

Definition _timer_start : M Proc unit :=
  fun p =>
    if (0 <? _acquire_cnt (vbcc p))%Z then (Ret tt, p)
    else
      (_timer_stop;;
       on_vbcc (set_stop_timer (Some TimerAlive))) p.

(** The timer thread when the 15 seconds are over. *)
Definition on_timer : M Proc unit :=
  _timer_stop;;
  stop.

Definition __enter__ : M Proc unit :=
  _timer_stop;;
  on_vbcc (fun c => set_acquire_cnt (_acquire_cnt c + 1)%Z c);;
  _start.

Definition __exit__ : M Proc unit :=
  on_vbcc (fun c => set_acquire_cnt (_acquire_cnt c - 1)%Z c);;
  fun p =>
    if (_acquire_cnt (vbcc p) =? 0)%Z then _timer_start p
    else (Ret tt, p).

Definition _call_async (context_method : M (St W) Value) : M Proc unit :=
  fun p =>
    match _thread (vbcc p) with
    | Some ThreadAlive =>
        (on_vbcc (fun c => set_ev_result false
                             (set_call_method (Some context_method) c));;
         notify) p
    | _ => on_outside (env_log ERROR "VBController thread is not running!") p
    end.

(** [call]: the wait on [_ev_result] ends only if the event is set. *)
Definition call (context_method : M (St W) Value) : Proc -> completion Value * Proc :=
  fun p =>
    match (_timer_stop;; _start;; _call_async context_method) p with
    | (Raise exc, p1) => (Raised exc, p1)
    | (Ret _, p1) =>
        if _ev_result (vbcc p1) then
          match _timer_start p1 with
          | (Raise exc, p2) => (Raised exc, p2)
          | (Ret _, p2) => (Returned (_call_result (vbcc p2)), p2)
          end
        else (Blocked, p1)
    end.

(** [k] times [__enter__], then [k] times [__exit__]. *)
Fixpoint repeat_m (k : nat) (m : M Proc unit) : M Proc unit :=
  match k with
  | O => ret tt
  | Datatypes.S k' => m;; repeat_m k' m
  end.

Definition timer_armed (p : Proc) : bool :=
  match _stop_timer (vbcc p) with
  | Some TimerAlive => true
  | _ => false
  end.

End Controller.

(** ** A small simulated host

    An executable instance of the binding, used to run the methods on
    concrete machines.  Handles are positions in the machine list; there is
    one session object, locked to at most one machine. *)

Module Sim.

Record VM : Type := {
  vm_name : option string;   (* [None]: the machine's data cannot be read *)
  vm_state : MachineState;
  vm_acpi : bool             (* the guest honours the power button *)
}.

Record World : Type := {
  vms : list VM;
  enumerations_left : nat;   (* [getArray] faults once this is used up *)
  connect_ok : bool;         (* [VirtualBoxManager()] succeeds *)
  locked : option nat        (* the machine the session is locked to *)
}.

Definition set_vms (l : list VM) (w : World) : World :=
  {| vms := l; enumerations_left := enumerations_left w;
     connect_ok := connect_ok w; locked := locked w |}.

Definition set_locked (x : option nat) (w : World) : World :=
  {| vms := vms w; enumerations_left := enumerations_left w;
     connect_ok := connect_ok w; locked := x |}.

Definition set_state (st : MachineState) (vm : VM) : VM :=
  {| vm_name := vm_name vm; vm_state := st; vm_acpi := vm_acpi vm |}.

Fixpoint update (h : nat) (f : VM -> VM) (l : list VM) : list VM :=
  match l, h with
  | [], _ => []
  | vm :: l', O => f vm :: l'
  | vm :: l', Datatypes.S h' => vm :: update h' f l'
  end.

Definition unavailable {A} : outcome A := Raise (ApiError "unavailable").

Definition sim_connect (w : World) : outcome unit * World :=
  if connect_ok w then (Ret tt, w) else (unavailable, w).

Definition sim_machines (w : World) : outcome (list nat) * World :=
  match enumerations_left w with
  | O => (unavailable, w)
  | Datatypes.S n =>
      (Ret (seq 0 (length (vms w))),
       {| vms := vms w; enumerations_left := n;
          connect_ok := connect_ok w; locked := locked w |})
  end.

Definition sim_name (h : nat) (w : World) : outcome string * World :=
  match nth_error (vms w) h with
  | Some {| vm_name := Some n |} => (Ret n, w)
  | _ => (unavailable, w)
  end.

Definition sim_state (h : nat) (w : World) : outcome MachineState * World :=
  match nth_error (vms w) h with
  | Some vm => (Ret (vm_state vm), w)
  | None => (unavailable, w)
  end.

Definition sim_lock (h : nat) (s : unit) (k : LockType) (w : World)
    : outcome unit * World :=
  match nth_error (vms w) h with
  | Some _ => (Ret tt, set_locked (Some h) w)
  | None => (unavailable, w)
  end.

Definition sim_session_machine (s : unit) (w : World) : outcome nat * World :=
  match locked w with
  | Some h => (Ret h, w)
  | None => (unavailable, w)
  end.

(** A command on the locked machine. *)
Definition on_locked (f : VM -> VM) (w : World) : outcome unit * World :=
  match locked w with
  | Some h => (Ret tt, set_vms (update h f (vms w)) w)
  | None => (unavailable, w)
  end.

Definition resume_vm (vm : VM) : VM :=
  if MachineState_eqb (vm_state vm) Paused then set_state Running vm else vm.

Definition power_button_vm (vm : VM) : VM :=
  if vm_acpi vm && MachineState_eqb (vm_state vm) Running
  then set_state PoweredOff vm else vm.

Definition save_vm (vm : VM) : VM :=
  if is_off (vm_state vm) then vm else set_state Saved vm.

#[global] Instance api : VBoxApi World nat unit := {|
  connect := sim_connect;
  deinit := fun w => (Ret tt, w);
  getArray_machines := sim_machines;
  machine_name := sim_name;
  machine_state := sim_state;
  getSessionObject := fun w => (Ret tt, w);
  lockMachine := sim_lock;
  session_machine := sim_session_machine;
  unlockMachine := fun _ w => (Ret tt, set_locked None w);
  console_resume := fun _ => on_locked resume_vm;
  console_PowerButton := fun _ => on_locked power_button_vm;
  saveState := fun h w => (Ret tt, set_vms (update h save_vm (vms w)) w);
  sleep := fun w => w
|}.

Definition vm (n : string) (st : MachineState) (acpi : bool) : VM :=
  {| vm_name := Some n; vm_state := st; vm_acpi := acpi |}.

(** A machine on a drive that is not attached. *)
Definition detached (st : MachineState) : VM :=
  {| vm_name := None; vm_state := st; vm_acpi := false |}.

Definition host (l : list VM) (enumerations : nat) (ok : bool) : World :=
  {| vms := l; enumerations_left := enumerations; connect_ok := ok;
     locked := None |}.

Definition fresh_env (w : World) : Env World :=
  {| world := w; api_calls := []; log := [] |}.

(** A context as [VBContext()] leaves it on a host with [vboxapi]. *)
Definition fresh_st (w : World) : St World :=
  {| self := {| _recursion_guard := RecursionGuard.__init__; VBM := true |};
     env := fresh_env w |}.

(** A process right after [VBCController()]. *)
Definition fresh_proc (w : World) : Proc (W := World) :=
  {| vbcc := VBCController__init__; outside := fresh_env w |}.

Definition vms_of (st : St World) : list VM := vms (world (env st)).

End Sim.

(** ** Vocabulary of the properties *)

(** A state read that reported an off-state. *)
Definition off_read (c : ApiCall) : bool :=
  match c with
  | GetState (Some st) => is_off st
  | _ => false
  end.

Definition saw_off (tr : list ApiCall) : bool := existsb off_read tr.

(** A command that changes the power state of a machine. *)
Definition power_command (c : ApiCall) : bool :=
  match c with
  | Resume | PowerButton | SaveState => true
  | _ => false
  end.

(** The calls [shutdown_machine] makes up to the first state read of its
    loop, when each of them succeeds. *)
Definition opening (st0 : MachineState) : list ApiCall :=
  [GetMachines; GetName; GetSessionObject; LockMachine Shared;
   SessionMachine; GetName; GetState (Some st0)].

(** The fault of [RecursionGuard.__enter__]. *)
Definition recursion_detected {A} : outcome A :=
  Raise (RuntimeError "Recursion detected!").

Section Vocabulary.

Context {W H S : Type} {api : VBoxApi W H S}.

(** What an enumeration is meant to produce, in the words of the
    specification: the machines are visited in order, each one whose
    data can be read at its turn yields a snapshot carrying its
    position, each other one is skipped. *)
Inductive enumerates : list H -> nat -> St W -> list Machine -> St W -> Prop :=
| enumerates_nil : forall i st,
    enumerates [] i st [] st
| enumerates_read : forall m ms i st mk st1 res st2,
    Machine__init__ i m st = (Ret mk, st1) ->
    enumerates ms (i + 1) st1 res st2 ->
    enumerates (m :: ms) i st (mk :: res) st2
| enumerates_skip : forall m ms i st exc st1 res st2,
    Machine__init__ i m st = (Raise exc, st1) ->
    enumerates ms (i + 1) st1 res st2 ->
    enumerates (m :: ms) i st res st2.

(** The state in which the loop of [machines] starts, and in which
    [resolve] ends: the enumeration has been asked for and has left the
    world at [w1]. *)
Definition enumerated (w1 : W) (s : St W) : St W :=
  set_env {| world := w1; api_calls := api_calls (env s) ++ [GetMachines];
             log := log (env s) |} s.

(** A method only adds to the record of calls. *)
Definition extends {A} (m : M (St W) A) : Prop :=
  forall s, exists tr,
    api_calls (env (snd (m s))) = api_calls (env s) ++ tr.

(** A method that, when it returns, returns [None] or [True], and
    [True] only if the calls it made satisfy [P]. *)
Definition traced (P : list ApiCall -> Prop) (m : M (St W) Value) : Prop :=
  forall s, exists tr,
    api_calls (env (snd (m s))) = api_calls (env s) ++ tr /\
    match fst (m s) with
    | Ret v => v = VNone \/ (v = VBool true /\ P tr)
    | Raise _ => True
    end.

(** A property of the calls made that is kept when calls are put in
    front of them and behind them. *)
Definition grows (P : list ApiCall -> Prop) : Prop :=
  forall t1 t2 t3, P t2 -> P (t1 ++ t2 ++ t3).

(** A method that never raises. *)
Definition total {A} (m : M (St W) A) : Prop :=
  forall s, exists a, fst (m s) = Ret a.

End Vocabulary.

(** The process right after [VBCController()]. *)
Definition new_process {W : Type} (e : Env W) : Proc :=
  {| vbcc := VBCController__init__; outside := e |}.

(** The context a worker starts with when the binding connects. *)
Definition new_context : VBContext :=
  {| _recursion_guard := RecursionGuard.__init__; VBM := true |}.

(** The surroundings after a successful [VBContext()]. *)
Definition connected {W : Type} (w1 : W) (e : Env W) : Env W :=
  {| world := w1; api_calls := api_calls e ++ [Connect];
     log := log e ++ [(DEBUG, "VBContext initialized"%string)] |}.

(** What [call] hands back when the worker has run the method: its result,
    or whatever [_call_result] held before if the method raised. *)
Definition handed_back (before : Value) (r : outcome Value) : Value :=
  match r with
  | Ret v => v
  | Raise _ => before
  end.

(** [_timer_stop] on the [_stop_timer] attribute. *)
Definition disarmed (t : option Timer) : option Timer :=
  match t with
  | Some TimerAlive => None
  | _ => t
  end.

(** ** Enum *)

Module Enum.

(** A Python [dict] as the list of its items in insertion order; every key
    occurs once. *)
Definition dict (K V : Type) : Type := list (K * V).

(** [d[k]]; [None] stands for the [KeyError] of a missing key. *)
Fixpoint get {K V} (eqb : K -> K -> bool) (k : K) (d : dict K V) : option V :=
  match d with
  | [] => None
  | (k', v) :: d' => if eqb k k' then Some v else get eqb k d'
  end.

(** [d[k] = v]: an existing key keeps its place and takes the new value, a
    new key goes to the end. *)
Fixpoint set {K V} (eqb : K -> K -> bool) (k : K) (v : V) (d : dict K V)
    : dict K V :=
  match d with
  | [] => [(k, v)]
  | (k', v') :: d' =>
      if eqb k k' then (k, v) :: d' else (k', v') :: set eqb k v d'
  end.

Record t : Type := {
  values : dict Z string;
  labels : dict string Z
}.

(** [{k: v for v, k in labels.items()}]. *)
Definition inverse (labels : dict string Z) : dict Z string :=
  fold_left (fun acc item => set Z.eqb (snd item) (fst item) acc) labels [].

Definition __init__ (labels : dict string Z) : t :=
  {| values := inverse labels; labels := labels |}.

(** [enum.name], for a name that is not an attribute of the object. *)
Definition __getattr__ (e : t) (name : string) : option Z :=
  get String.eqb name (labels e).

(** [enum[value]]. *)
Definition __getitem__ (e : t) (value : Z) : option string :=
  get Z.eqb value (values e).

End Enum.

(** ** Counting calls *)

Definition is_sleep (c : ApiCall) : bool :=
  match c with Sleep => true | _ => false end.

Definition is_save (c : ApiCall) : bool :=
  match c with SaveState => true | _ => false end.

(** The two commands of the ACPI shutdown. *)
Definition is_acpi (c : ApiCall) : bool :=
  match c with Resume | PowerButton => true | _ => false end.

Definition is_enumeration (c : ApiCall) : bool :=
  match c with GetMachines => true | _ => false end.

(** Anything other than enumerating and reading name or state. *)
Definition is_not_read (c : ApiCall) : bool :=
  match c with GetMachines | GetName | GetState _ => false | _ => true end.

Definition count (f : ApiCall -> bool) (tr : list ApiCall) : nat :=
  length (filter f tr).

(** The calls a method has added to the record, given the record before
    and after it. *)
Definition added (before after : list ApiCall) : list ApiCall :=
  skipn (length before) after.

Section Budgets.

Context {W : Type}.

(** A method that makes at most [n] of the calls that [f] counts. *)
Definition spends {A} (f : ApiCall -> bool) (n : nat) (m : M (St W) A) : Prop :=
  forall s, exists tr,
    api_calls (env (snd (m s))) = api_calls (env s) ++ tr /\
    count f tr <= n.

(** A method that leaves the context object as it found it. *)
Definition keeps_self {A} (m : M (St W) A) : Prop :=
  forall s, self (snd (m s)) = self s.

End Budgets.

Section Guarded_sequences.

Context {W H S : Type} {api : VBoxApi W H S}.

(** The two guarded methods of the context. *)
Inductive guarded_call : Type :=
| Shutdown (machine_surrogate : Machine)
| Save (machine_surrogate : Machine).

Definition run_guarded_call (c : guarded_call) : M (St W) Value :=
  match c with
  | Shutdown m => shutdown_machine m
  | Save m => save_machine m
  end.

(** Methods called one after the other on one context, each one after
    the one before has ended, whatever its outcome. *)
Fixpoint run_sequence (cs : list guarded_call) (s : St W)
    : list (outcome Value) * St W :=
  match cs with
  | [] => ([], s)
  | c :: cs' =>
      let (r, s1) := run_guarded_call c s in
      let (rs, s2) := run_sequence cs' s1 in
      (r :: rs, s2)
  end.

End Guarded_sequences.

(** The calls made contain a save-state command and, after it, a state
    read that reported an off-state. *)
Definition saved_then_off (tr : list ApiCall) : Prop :=
  exists t1 t2, tr = t1 ++ SaveState :: t2 /\ saw_off t2 = true.

(** ** Sequences of controller operations *)

Definition is_deinit (c : ApiCall) : bool :=
  match c with Deinit => true | _ => false end.

(** The surroundings after a successful [VBContext.deinit]. *)
Definition released {W : Type} (w1 : W) (e : Env W) : Env W :=
  {| world := w1; api_calls := api_calls e ++ [Deinit];
     log := log e ++ [(DEBUG, "VBContext released"%string)] |}.

Section Operations.

Context {W H S : Type} {api : VBoxApi W H S}.




(** Between operations no call is pending, a live worker is enabled and
    has its context, and a disabled controller has no live worker. *)
Definition steady (p : Proc (W := W)) : Prop :=
  _call_method (vbcc p) = None /\
  (_thread (vbcc p) = Some ThreadAlive ->
   _enabled (vbcc p) = true /\ ctx (vbcc p) <> None) /\
  (_enabled (vbcc p) = false -> _thread (vbcc p) <> Some ThreadAlive).

(** The state of the controller between operations: the idle timer is
    armed only while nothing is held, and the controller is steady. *)
Definition settled (p : Proc (W := W)) : Prop :=
  (timer_armed p = true -> (_acquire_cnt (vbcc p) <= 0)%Z) /\ steady p.

End Operations.

(** ** VirtualBoxAutoShutdownTray

    The handlers of the window that stop the machines: [stop_machine],
    [stop_machines], [on_queryendsession], [on_async_stop], [on_close] and
    [quit].  They run in the thread of the message loop and reach the
    binding only through [self.vbcc]. *)

Module Tray.

(** What a handler can raise: the exceptions of the controller and the
    context, and the [KeyError] of a failed dictionary look-up. *)
Inductive Exception : Type :=
| Exn (e : exn)
| KeyError.

(** How a handler ends for the thread of the message loop. *)
Inductive result (A : Type) : Type :=
| Done (a : A)
| Failed (e : Exception)
| Stuck.              (* inside a [call] that waits forever *)

Arguments Done {A} a.
Arguments Failed {A} e.
Arguments Stuck {A}.

(** The [win32gui] functions the handlers call.  [NIM_DELETE] is
    [Shell_NotifyIcon(NIM_DELETE, (hwnd, 0))]. *)
Inductive gui_call : Type :=
| DestroyWindow (hwnd : Z)
| NIM_DELETE (hwnd : Z)
| PostQuitMessage (nExitCode : Z)
| PostMessage (hwnd msg wparam lparam : Z).

(** [win32gui] over the state [G] of the desktop; a function of the module
    raises when the system call fails. *)
Class Win32Api (G : Type) : Type := {
  win32 : gui_call -> G -> outcome unit * G
}.

Definition WM_USER : Z := 1024.

(** [len(v)] and [iter(v)] on what [call] hands back. *)
Definition len (v : Value) : outcome nat :=
  match v with
  | VMachines ms => Ret (length ms)
  | _ => Raise TypeError
  end.

Definition iter (v : Value) : outcome (list Machine) :=
  match v with
  | VMachines ms => Ret ms
  | _ => Raise TypeError
  end.

Section Handlers.

Context {W H S : Type} {api : VBoxApi W H S}.
Context {G : Type} {gui : Win32Api G}.

(** [vbcc.ctx] and [vbcc._acquire_cnt] of a process. *)
Definition ctx_of (p : Proc (W := W)) : option VBContext := ctx (vbcc p).

Definition hold_count (p : Proc (W := W)) : Z := _acquire_cnt (vbcc p).

(** The attributes of the window object the handlers use, the desktop and
    the [win32gui] calls made so far, oldest first. *)
Record t : Type := {
  vbcc : Proc (W := W);
  hwnd : Z;
  shutdown_blocker : ShutdownBlocker.t;
  desk : G;
  gui_calls : list gui_call
}.

Definition set_vbcc (p : Proc (W := W)) (a : t) : t :=
  {| vbcc := p; hwnd := hwnd a; shutdown_blocker := shutdown_blocker a;
     desk := desk a; gui_calls := gui_calls a |}.

Definition set_shutdown_blocker (b : ShutdownBlocker.t) (a : t) : t :=
  {| vbcc := vbcc a; hwnd := hwnd a; shutdown_blocker := b;
     desk := desk a; gui_calls := gui_calls a |}.

(** A handler over the window object. *)
Definition T (A : Type) : Type := t -> result A * t.

Definition done {A} (a : A) : T A := fun s => (Done a, s).

Definition fail {A} (e : Exception) : T A := fun s => (Failed e, s).

Definition and_then {A B} (m : T A) (k : A -> T B) : T B :=
  fun s =>
    match m s with
    | (Done a, s1) => k a s1
    | (Failed e, s1) => (Failed e, s1)
    | (Stuck, s1) => (Stuck, s1)
    end.

(** [try: body  except Exception: handler]; a thread that is stuck in the
    body stays there. *)
Definition try_except_Exception {A} (body : T A) (handler : T A) : T A :=
  fun s =>
    match body s with
    | (Failed _, s1) => handler s1
    | r => r
    end.

(** [with cm: body] for the two context managers of the handlers, whose
    [__exit__] returns [None]. *)
Definition with_cm {A} (enter : T unit) (exit : T unit) (body : T A) : T A :=
  fun s =>
    match enter s with
    | (Done _, s1) =>
        match body s1 with
        | (Stuck, s2) => (Stuck, s2)
        | (r, s2) =>
            match exit s2 with
            | (Done _, s3) => (r, s3)
            | (Failed e, s3) => (Failed e, s3)
            | (Stuck, s3) => (Stuck, s3)
            end
        end
    | (Failed e, s1) => (Failed e, s1)
    | (Stuck, s1) => (Stuck, s1)
    end.

Definition of_outcome {A} (r : outcome A) : T A :=
  match r with
  | Ret a => done a
  | Raise e => fail (Exn e)
  end.

(** A method of the controller that returns or raises. *)
Definition on_controller {A} (m : M (Proc (W := W)) A) : T A :=
  fun a =>
    let (r, p) := m (vbcc a) in
    (match r with Ret v => Done v | Raise e => Failed (Exn e) end,
     set_vbcc p a).

(** [self.vbcc.call(method, ...)]. *)
Definition vbcc_call (context_method : M (St W) Value) : T Value :=
  fun a =>
    let (r, p) := call context_method (vbcc a) in
    (match r with
     | Returned v => Done v
     | Raised e => Failed (Exn e)
     | Blocked => Stuck
     end,
     set_vbcc p a).

Definition on_shutdown_blocker (f : ShutdownBlocker.t -> ShutdownBlocker.t)
    : T unit :=
  fun a => (Done tt, set_shutdown_blocker (f (shutdown_blocker a)) a).

Definition call_win32 (c : gui_call) : T unit :=
  fun a =>
    let (r, g) := win32 c (desk a) in
    (match r with Ret _ => Done tt | Raise e => Failed (Exn e) end,
     {| vbcc := vbcc a; hwnd := hwnd a;
        shutdown_blocker := shutdown_blocker a;
        desk := g; gui_calls := gui_calls a ++ [c] |}).

Definition get_hwnd : T Z := fun a => (Done (hwnd a), a).

(** [VBContext.machines_running] as the worker runs it for [call]. *)
Definition machines_running_method : M (St W) Value :=
  (ms <- machines_running;; ret (VMachines ms))%py.

(** [self.vbcc.ctx.MachineState[machine.state]], evaluated by the thread
    of the message loop.  A controller without a context has no such
    attribute.  The table of a context with [vboxapi] holds every state;
    the table of the stub is [{0: '?'}], and 0 is none of the states the
    script names. *)
Definition MachineState_label (machine : Machine) : T unit :=
  fun a =>
    match ctx_of (vbcc a) with
    | None => (Failed (Exn (AttributeError "MachineState")), a)
    | Some x =>
        if VBM x then (Done tt, a)
        else
          match state machine with
          | OtherState 0%Z => (Done tt, a)
          | _ => (Failed KeyError, a)
          end
    end.

Definition stop_machine (machine : Machine) : T unit :=
  try_except_Exception
    (and_then
       (with_cm (on_controller __enter__) (on_controller __exit__)
          (and_then (MachineState_label machine) (fun _ =>
           on_controller
             (on_outside
                (env_log INFO "Checking for machine `%s` (state: %s)")))))
       (fun _ =>
        and_then (vbcc_call (shutdown_machine machine)) (fun r =>
        if negb (truthy r)
        then and_then (vbcc_call (save_machine machine)) (fun _ => done tt)
        else done tt)))
    (done tt).

(** [for machine in ms: self.stop_machine(machine)]. *)
Fixpoint stop_each (ms : list Machine) : T unit :=
  match ms with
  | [] => done tt
  | machine :: ms' => and_then (stop_machine machine) (fun _ => stop_each ms')
  end.

Definition stop_machines : T unit :=
  and_then (vbcc_call machines_running_method) (fun v =>
  and_then (of_outcome (len v)) (fun n =>
  if 0 <? n then
    with_cm (on_shutdown_blocker ShutdownBlocker.enable)
            (on_shutdown_blocker ShutdownBlocker.disable)
      (and_then (vbcc_call machines_running_method) (fun v =>
       and_then (of_outcome (iter v)) (fun ms =>
       stop_each ms)))
  else done tt)).

Definition quit : T unit :=
  and_then get_hwnd (fun h =>
  and_then (call_win32 (DestroyWindow h)) (fun _ =>
  and_then (call_win32 (NIM_DELETE h)) (fun _ =>
  call_win32 (PostQuitMessage 0%Z)))).

Definition on_async_stop : T bool :=
  and_then stop_machines (fun _ =>
  and_then (on_shutdown_blocker ShutdownBlocker.disable) (fun _ =>
  done true)).

Definition on_queryendsession : T bool :=
  and_then (vbcc_call machines_running_method) (fun v =>
  and_then (of_outcome (len v)) (fun n =>
  and_then
    (if 0 <? n then
       and_then (on_shutdown_blocker ShutdownBlocker.enable) (fun _ =>
       and_then get_hwnd (fun h =>
       call_win32 (PostMessage h (WM_USER + 30) 0 0)%Z))
     else done tt)
    (fun _ => done true))).

Definition on_close : T unit :=
  and_then stop_machines (fun _ => quit).

(** A handler that touches nothing of the window object but the
    controller. *)
Definition only_controller {A} (m : T A) : Prop :=
  forall a,
    hwnd (snd (m a)) = hwnd a /\
    shutdown_blocker (snd (m a)) = shutdown_blocker a /\
    desk (snd (m a)) = desk a /\
    gui_calls (snd (m a)) = gui_calls a.

(** A handler that cannot raise. *)
Definition never_fails {A} (m : T A) : Prop :=
  forall a e, fst (m a) <> Failed e.

(** A handler that leaves the hold count of the controller as it was. *)
Definition keeps_hold_count {A} (m : T A) : Prop :=
  forall a, hold_count (vbcc (snd (m a))) = hold_count (vbcc a).

End Handlers.

End Tray.

(** A desktop on which every [win32gui] call succeeds, and the window
    object on a simulated host right after the controller is made. *)
Definition quiet_desktop : Tray.Win32Api unit :=
  {| Tray.win32 := fun _ g => (Ret tt, g) |}.

Definition fresh_tray (w : Sim.World) : Tray.t (W := Sim.World) (G := unit) :=
  {| Tray.vbcc := new_process (Sim.fresh_env w);
     Tray.hwnd := 1;
     Tray.shutdown_blocker :=
       ShutdownBlocker.__init__ 1 "Shutting down VirtualBox VMs...";
     Tray.desk := tt;
     Tray.gui_calls := [] |}.

(** * Properties *)

(** ** ShutdownBlocker *)

Module ShutdownBlockerFacts.

Import ShutdownBlocker.

Lemma veto_active_snoc (calls : list os_call) (c : os_call) :
  veto_active (calls ++ [c]) = veto_after (veto_active calls) c.
Proof. unfold veto_active. now rewrite fold_left_app. Qed.

Lemma well_paired_snoc (calls : list os_call) (c : os_call) :
  forall active,
    well_paired active (calls ++ [c]) =
    well_paired active calls &&
    match c with
    | ShutdownBlockReasonCreate _ _ => negb (fold_left veto_after calls active)
    | ShutdownBlockReasonDestroy _ => fold_left veto_after calls active
    end.
Proof.
  induction calls as [|c0 calls IH]; intros active; simpl.
  - destruct c; simpl; now rewrite andb_true_r.
  - destruct c0; simpl; rewrite IH, andb_assoc; reflexivity.
Qed.

Lemma count_create_snoc (calls : list os_call) (c : os_call) :
  count_create (calls ++ [c]) =
  count_create calls +
  match c with ShutdownBlockReasonCreate _ _ => 1 | _ => 0 end.
Proof.
  unfold count_create. rewrite filter_app, length_app.
  destruct c; reflexivity.
Qed.

Lemma count_destroy_snoc (calls : list os_call) (c : os_call) :
  count_destroy (calls ++ [c]) =
  count_destroy calls +
  match c with ShutdownBlockReasonDestroy _ => 1 | _ => 0 end.
Proof.
  unfold count_destroy. rewrite filter_app, length_app.
  destruct c; reflexivity.
Qed.

Lemma invariant_init hWnd sReason : invariant (__init__ hWnd sReason).
Proof. constructor; reflexivity. Qed.

Lemma invariant_enable b : invariant b -> invariant (enable b).
Proof.
  intros [Hn Hp Ha Hc]. unfold enable.
  destruct (Z.eqb_spec (counter b) 0) as [E|E]; simpl.
  - assert (Hv : veto_active (os_calls b) = false)
      by (rewrite Ha, E; reflexivity).
    constructor; simpl.
    + lia.
    + rewrite well_paired_snoc, Hp. unfold veto_active in Hv. now rewrite Hv.
    + rewrite veto_active_snoc. simpl. symmetry. apply Z.ltb_lt. lia.
    + rewrite count_create_snoc, count_destroy_snoc, veto_active_snoc, Hc, Hv.
      simpl. lia.
  - constructor; simpl; auto.
    + lia.
    + rewrite Ha. destruct (Z.ltb_spec 0 (counter b)); [|lia].
      symmetry. apply Z.ltb_lt. lia.
Qed.

Lemma invariant_disable b : invariant b -> invariant (disable b).
Proof.
  intros [Hn Hp Ha Hc]. unfold disable.
  destruct (Z.eqb_spec (counter b) 1) as [E|E]; simpl.
  - assert (Hv : veto_active (os_calls b) = true)
      by (rewrite Ha, E; reflexivity).
    rewrite E. simpl.
    constructor; simpl.
    + lia.
    + rewrite well_paired_snoc, Hp. unfold veto_active in Hv. now rewrite Hv.
    + now rewrite veto_active_snoc.
    + rewrite count_create_snoc, count_destroy_snoc, veto_active_snoc, Hc, Hv.
      simpl. lia.
  - destruct (0 <? counter b)%Z eqn:L.
    + apply Z.ltb_lt in L. constructor; simpl; auto.
      * lia.
      * rewrite Ha. symmetry. apply Z.ltb_lt. lia.
    + constructor; auto; congruence.
Qed.

Lemma invariant_run ops : forall b, invariant b -> invariant (run ops b).
Proof.
  unfold run. induction ops as [|o ops IH]; intros b Hb; simpl; auto.
  apply IH. destruct o; [apply invariant_enable | apply invariant_disable]; auto.
Qed.

End ShutdownBlockerFacts.

(** C5.  From a new blocker, [enable], [enable], [disable], [disable]
    issues exactly one registration followed by one removal and leaves no
    veto and a counter of zero.  After any sequence of [enable] and
    [disable] calls, also one with more [disable] than [enable], the
    counter is not negative, no removal was issued while no veto was
    registered (so never a second one in a row), removals do not outnumber
    registrations, and a veto is registered exactly when the counter is
    positive. *)
Theorem C5_shutdown_blocker_balanced :
  forall (hWnd : Z) (sReason : string),
    let b0 := ShutdownBlocker.__init__ hWnd sReason in
    (let b := ShutdownBlocker.run
                [ShutdownBlocker.Enable; ShutdownBlocker.Enable;
                 ShutdownBlocker.Disable; ShutdownBlocker.Disable] b0 in
     ShutdownBlocker.os_calls b =
       [ShutdownBlocker.ShutdownBlockReasonCreate hWnd sReason;
        ShutdownBlocker.ShutdownBlockReasonDestroy hWnd] /\
     ShutdownBlocker.veto_active (ShutdownBlocker.os_calls b) = false /\
     ShutdownBlocker.counter b = 0%Z) /\
    (forall ops : list ShutdownBlocker.op,
       let b := ShutdownBlocker.run ops b0 in
       (0 <= ShutdownBlocker.counter b)%Z /\
       ShutdownBlocker.well_paired false (ShutdownBlocker.os_calls b) = true /\
       ShutdownBlocker.count_destroy (ShutdownBlocker.os_calls b) <=
         ShutdownBlocker.count_create (ShutdownBlocker.os_calls b) /\
       ShutdownBlocker.veto_active (ShutdownBlocker.os_calls b) =
         (0 <? ShutdownBlocker.counter b)%Z).
Proof.
  intros hWnd sReason b0. split.
  - repeat split.
  - intros ops b.
    destruct (ShutdownBlockerFacts.invariant_run ops
                (ShutdownBlockerFacts.invariant_init hWnd sReason))
      as [Hn Hp Ha Hc].
    fold b0 in Hn, Hp, Ha, Hc. fold b in Hn, Hp, Ha, Hc.
    repeat split; auto. rewrite Hc. lia.
Qed.

(** ** Running the methods symbolically *)

(** The loops are unrolled one turn at a time, by their equations. *)
Arguments shutdown_loop : simpl never.
Arguments save_loop : simpl never.
Arguments machines_loop : simpl never.

(** Unfolds the control structure of a method down to the calls on the
    binding. *)
Ltac py_unfold :=
  cbv beta iota zeta delta
    [with_recursion_guard with_VBSession VBSession__init__
     VBSession__enter__ VBSession__exit__ with_stmt try_except bind ret
     raise resolve _machines get_VBM get_name get_state do_lockMachine
     get_session_machine do_unlockMachine do_resume do_PowerButton
     do_saveState time_sleep logging in_env lift env_call env_log
     env_sleep set_env set_guard guard_of seen
     RecursionGuard.__enter__ RecursionGuard.__exit__] in *;
  simpl in *.

(** Uses what is known about one call on the binding. *)
Ltac py_step H := rewrite H; py_unfold.

(** ** RecursionGuard *)

Section Guard_facts.

Context {W H S : Type} {api : VBoxApi W H S}.

(** Entering the guard at depth 1 (or more) raises; the body does not
    run, [__exit__] is not called, and the depth stays incremented. *)
Lemma guard_reentry_raises {A} (body : M (St W) A) (s : St W) :
  (1 <= guard_of s)%Z ->
  with_recursion_guard body s =
    (recursion_detected, set_guard (guard_of s + 1)%Z s).
Proof.
  intros Hg. unfold with_recursion_guard, with_stmt, lift,
    RecursionGuard.__enter__.
  destruct (Z.ltb_spec 1 (guard_of s + 1)); [reflexivity | lia].
Qed.

(** Entered at depth 0, a guarded operation runs its body at depth 1 and
    leaves the depth one below the depth the body ended with. *)
Lemma guard_entry_runs {A} (body : M (St W) A) (s : St W) :
  guard_of s = 0%Z ->
  with_recursion_guard body s =
    (fst (body (set_guard 1%Z s)),
     set_guard (guard_of (snd (body (set_guard 1%Z s))) - 1)%Z
               (snd (body (set_guard 1%Z s)))).
Proof.
  intros Hg. unfold with_recursion_guard, with_stmt, lift,
    RecursionGuard.__enter__, RecursionGuard.__exit__.
  rewrite Hg. simpl. destruct (body (set_guard 1%Z s)); reflexivity.
Qed.

End Guard_facts.

(** C3 (the code departs from it).  On a context whose guard is at rest, a
    guarded operation that invokes a guarded operation from its body meets
    the reentrancy fault, as claimed.  But [__exit__] is not run for the
    [__enter__] that raised, so the depth is left at 1 when the outer
    operation has ended, and every later, non-overlapping guarded
    invocation on that context faults too. *)
Theorem C3_guard_stuck_after_reentry :
  forall (W H S : Type) (api : VBoxApi W H S) (A B C : Type)
         (inner : M (St W) A) (later : M (St W) B) (s : St W),
    guard_of s = 0%Z ->
    let r := with_recursion_guard (with_recursion_guard inner) s in
    fst r = recursion_detected /\
    guard_of (snd r) = 1%Z /\
    fst (with_recursion_guard later (snd r)) = recursion_detected /\
    forall (again : M (St W) C),
      fst (with_recursion_guard again
             (snd (with_recursion_guard later (snd r)))) = recursion_detected.
Proof.
  intros W H S api A B C inner later s Hg r.
  assert (Hr : r = (recursion_detected (A := A), set_guard 1%Z s)).
  { unfold r. rewrite guard_entry_runs by assumption.
    rewrite guard_reentry_raises by (unfold guard_of; simpl; lia). reflexivity. }
  rewrite Hr. cbn [fst snd]. split; [reflexivity|]. split; [reflexivity|].
  rewrite (guard_reentry_raises later)
    by (unfold guard_of; simpl; lia).
  cbn [fst snd]. split; [reflexivity|]. intros again.
  rewrite guard_reentry_raises by (unfold guard_of; simpl; lia). reflexivity.
Qed.

(** On the simulated host: [save_machine] called from inside a guarded
    operation faults, and the next [shutdown_machine] and [save_machine]
    on the context fault as well. *)
Lemma C3_guard_stuck_after_reentry_witness :
  let m := {| index := 0; name := "a"; state := Running |} in
  let s := Sim.fresh_st (Sim.host [Sim.vm "a" Running true] 5 true) in
  guard_of s = 0%Z /\
  let r := with_recursion_guard (save_machine m) s in
  fst r = recursion_detected /\
  guard_of (snd r) = 1%Z /\
  fst (shutdown_machine m (snd r)) = recursion_detected /\
  forall again : M (St Sim.World) Value,
    fst (with_recursion_guard again (snd (shutdown_machine m (snd r)))) =
      recursion_detected.
Proof.
  intros m s. split; [reflexivity|].
  exact (@C3_guard_stuck_after_reentry _ _ _ Sim.api Value Value Value
           _ _ s eq_refl).
Defined.

(** ** save_machine on a machine that is already off *)

(** C1 (the code departs from it).  When the re-resolved machine reports an
    off-state, [save_machine] issues no command at all, as claimed: it
    enumerates, reads the name and reads the state once.  But the branch
    for that case has no [return], so the method falls off its end and
    the result is [None], which is not truthy; the polling loop of the
    same method and the same case of [shutdown_machine] return [True]. *)
Theorem C1_save_machine_off_returns_none :
  forall (W H S : Type) (api : VBoxApi W H S)
         (machine_surrogate : Machine) (s : St W)
         (ms : list H) (m : H) (n : string) (st : MachineState)
         (w1 w2 w3 : W),
    guard_of s = 0%Z ->
    VBM (self s) = true ->
    getArray_machines (world (env s)) = (Ret ms, w1) ->
    nth_error ms (index machine_surrogate) = Some m ->
    machine_name m w1 = (Ret n, w2) ->
    machine_state m w2 = (Ret st, w3) ->
    is_off st = true ->
    let r := save_machine machine_surrogate s in
    fst r = Ret VNone /\
    truthy VNone = false /\
    api_calls (env (snd r)) =
      api_calls (env s) ++ [GetMachines; GetName; GetState (Some st)] /\
    existsb power_command [GetMachines; GetName; GetState (Some st)] = false /\
    world (env (snd r)) = w3 /\
    guard_of (snd r) = 0%Z.
Proof.
  intros W H S api surrogate s ms m n st w1 w2 w3 Hg Hv Hms Hn Hname Hst Hoff.
  unfold save_machine. py_unfold.
  py_step Hg. py_step Hv. py_step Hms. py_step Hn. py_step Hname.
  py_step Hst. py_step Hoff.
  rewrite <- !app_assoc. simpl. repeat split.
Qed.

(** On the simulated host, for a powered-off machine. *)
Lemma C1_save_machine_off_returns_none_witness :
  let m := {| index := 1; name := "b"; state := Running |} in
  let s := Sim.fresh_st
             (Sim.host [Sim.vm "a" Running true; Sim.vm "b" PoweredOff true]
                       5 true) in
  let r := save_machine m s in
  fst r = Ret VNone /\
  truthy VNone = false /\
  api_calls (env (snd r)) =
    api_calls (env s) ++ [GetMachines; GetName; GetState (Some PoweredOff)] /\
  existsb power_command [GetMachines; GetName; GetState (Some PoweredOff)]
    = false /\
  world (env (snd r)) =
    Sim.host [Sim.vm "a" Running true; Sim.vm "b" PoweredOff true] 4 true /\
  guard_of (snd r) = 0%Z.
Proof.
  intros m s.
  exact (@C1_save_machine_off_returns_none _ _ _ Sim.api m s
           [0; 1] 1 "b"%string PoweredOff _ _ _
           eq_refl eq_refl eq_refl eq_refl eq_refl eq_refl eq_refl).
Defined.

(** ** What the methods leave in the record of calls *)

Section Trace_facts.

Context {W H S : Type} {api : VBoxApi W H S}.

Lemma extends_ret {A} (a : A) : extends (ret (S := St W) a).
Proof. intros s. exists []. simpl. now rewrite app_nil_r. Qed.

Lemma extends_raise {A} (e : exn) : extends (raise (S := St W) (A := A) e).
Proof. intros s. exists []. simpl. now rewrite app_nil_r. Qed.

Lemma extends_bind {A B} (m : M (St W) A) (k : A -> M (St W) B) :
  extends m -> (forall a, extends (k a)) -> extends (bind m k).
Proof.
  intros Hm Hk s. destruct (Hm s) as [t1 H1]. unfold bind.
  destruct (m s) as [[a|e] s1]; simpl in *.
  - destruct (Hk a s1) as [t2 H2]. exists (t1 ++ t2).
    now rewrite H2, H1, app_assoc.
  - now exists t1.
Qed.

Lemma extends_try_except {A} (body : M (St W) A) (handler : exn -> M (St W) A) :
  extends body -> (forall e, extends (handler e)) ->
  extends (try_except body handler).
Proof.
  intros Hb Hh s. destruct (Hb s) as [t1 H1]. unfold try_except.
  destruct (body s) as [[a|e] s1]; simpl in *.
  - now exists t1.
  - destruct (Hh e s1) as [t2 H2]. exists (t1 ++ t2).
    now rewrite H2, H1, app_assoc.
Qed.

Lemma extends_with_stmt {E A} (enter : M (St W) E) (exit : M (St W) unit)
    (body : E -> M (St W) A) :
  extends enter -> extends exit -> (forall v, extends (body v)) ->
  extends (with_stmt enter exit body).
Proof.
  intros He Hx Hb s. destruct (He s) as [t1 H1]. unfold with_stmt.
  destruct (enter s) as [[v|e] s1]; simpl in *.
  - destruct (Hb v s1) as [t2 H2]. destruct (body v s1) as [r s2].
    destruct (Hx s2) as [t3 H3]. simpl in *.
    exists (t1 ++ t2 ++ t3).
    destruct (exit s2) as [[u|e'] s3]; simpl in *;
      now rewrite H3, H2, H1, <- !app_assoc.
  - now exists t1.
Qed.

Lemma extends_env_call {A} (ev : outcome A -> ApiCall) (f : W -> outcome A * W) :
  extends (in_env (env_call ev f)).
Proof.
  intros s. unfold in_env, lift, env_call.
  destruct (f (world (env s))) as [r w]. simpl. now exists [ev r].
Qed.

Lemma extends_logging (l : level) (msg : string) :
  extends (logging (W := W) l msg).
Proof. intros s. exists []. simpl. now rewrite app_nil_r. Qed.

Lemma extends_time_sleep : extends time_sleep.
Proof. intros s. now exists [Sleep]. Qed.

Lemma extends_get_VBM : extends (get_VBM (W := W)).
Proof.
  intros s. exists []. unfold get_VBM.
  destruct (VBM (self s)); simpl; now rewrite app_nil_r.
Qed.

Lemma extends_guard (m : M RecursionGuard.t unit) :
  extends (lift (guard_of (W := W)) set_guard m).
Proof.
  intros s. exists []. unfold lift. destruct (m (guard_of s)).
  simpl. now rewrite app_nil_r.
Qed.

Lemma traced_extends P (m : M (St W) Value) : traced P m -> extends m.
Proof. intros Hm s. destruct (Hm s) as [tr [Htr _]]. now exists tr. Qed.

Lemma traced_ret_none P : traced P (ret (S := St W) VNone).
Proof.
  intros s. exists []. simpl. rewrite app_nil_r. auto.
Qed.

Lemma traced_ret_true (P : list ApiCall -> Prop) :
  P [] -> traced P (ret (S := St W) (VBool true)).
Proof.
  intros HP s. exists []. simpl. rewrite app_nil_r. auto.
Qed.

Lemma traced_raise P (e : exn) : traced P (raise (S := St W) e).
Proof.
  intros s. exists []. simpl. rewrite app_nil_r. auto.
Qed.

Lemma traced_bind {A} P (m : M (St W) A) (k : A -> M (St W) Value) :
  grows P -> extends m -> (forall a, traced P (k a)) ->
  traced P (bind m k).
Proof.
  intros HP Hm Hk s. destruct (Hm s) as [t1 H1]. unfold bind.
  destruct (m s) as [[a|e] s1]; simpl in *.
  - destruct (Hk a s1) as [t2 [H2 Hr]]. exists (t1 ++ t2). split.
    + now rewrite H2, H1, app_assoc.
    + destruct (fst (k a s1)); auto.
      destruct Hr as [Hr|[Hr Ht]]; auto.
      right. split; auto.
      specialize (HP t1 t2 [] Ht). now rewrite app_nil_r in HP.
  - exists t1. auto.
Qed.

Lemma traced_try_except P (body : M (St W) Value) handler :
  grows P -> traced P body -> (forall e, traced P (handler e)) ->
  traced P (try_except body handler).
Proof.
  intros HP Hb Hh s. destruct (Hb s) as [t1 [H1 Hr1]]. unfold try_except.
  destruct (body s) as [[a|e] s1]; simpl in *.
  - exists t1. auto.
  - destruct (Hh e s1) as [t2 [H2 Hr2]]. exists (t1 ++ t2). split.
    + now rewrite H2, H1, app_assoc.
    + destruct (fst (handler e s1)); auto.
      destruct Hr2 as [Hr2|[Hr2 Ht]]; auto.
      right. split; auto.
      specialize (HP t1 t2 [] Ht). now rewrite app_nil_r in HP.
Qed.

Lemma traced_with_stmt {E} P (enter : M (St W) E) (exit : M (St W) unit)
    (body : E -> M (St W) Value) :
  grows P -> extends enter -> extends exit -> (forall v, traced P (body v)) ->
  traced P (with_stmt enter exit body).
Proof.
  intros HP He Hx Hb s. destruct (He s) as [t1 H1]. unfold with_stmt.
  destruct (enter s) as [[v|e] s1]; simpl in *.
  - destruct (Hb v s1) as [t2 [H2 Hr]]. destruct (body v s1) as [r s2].
    destruct (Hx s2) as [t3 H3]. simpl in *.
    exists (t1 ++ t2 ++ t3).
    destruct (exit s2) as [[u|e'] s3]; simpl in *;
      (split; [now rewrite H3, H2, H1, <- !app_assoc|]); auto.
    destruct r; auto. destruct Hr as [Hr|[Hr Ht]]; auto.
  - exists t1. auto.
Qed.

Lemma traced_weaken (P Q : list ApiCall -> Prop) (m : M (St W) Value) :
  (forall tr, P tr -> Q tr) -> traced P m -> traced Q m.
Proof.
  intros HPQ Hm s. destruct (Hm s) as [tr [Htr Hr]]. exists tr.
  split; auto. destruct (fst (m s)); auto.
  destruct Hr as [Hr|[Hr Ht]]; auto.
Qed.

Lemma saw_off_app (t1 t2 : list ApiCall) :
  saw_off (t1 ++ t2) = saw_off t1 || saw_off t2.
Proof. apply existsb_app. Qed.

Lemma grows_saw_off : grows (fun tr => saw_off tr = true).
Proof.
  intros t1 t2 t3 Ht. rewrite !saw_off_app, Ht.
  now rewrite orb_true_r.
Qed.

Lemma grows_True : grows (fun _ => True).
Proof. intros t1 t2 t3 _. exact I. Qed.

(** Reading the state and going on: if the state read is an off-state,
    whatever follows may return [True]. *)
Lemma traced_get_state (m : H) (k : MachineState -> M (St W) Value) :
  (forall st, is_off st = false -> traced (fun tr => saw_off tr = true) (k st)) ->
  (forall st, is_off st = true -> traced (fun _ => True) (k st)) ->
  traced (fun tr => saw_off tr = true) (bind (get_state m) k).
Proof.
  intros Hrun Hoff s. unfold bind, get_state, in_env, lift, env_call.
  destruct (machine_state m (world (env s))) as [[st|e] w]; simpl.
  - destruct (is_off st) eqn:E.
    + destruct (Hoff st E
                 (set_env {| world := w;
                             api_calls := api_calls (env s) ++ [GetState (Some st)];
                             log := log (env s) |} s)) as [tr [Htr Hr]].
      exists (GetState (Some st) :: tr). simpl in *. split.
      * now rewrite Htr, <- app_assoc.
      * destruct (fst (k st _)); auto.
        destruct Hr as [Hr|[Hr _]]; auto.
        right. split; auto. rewrite E. reflexivity.
    + destruct (Hrun st E
                 (set_env {| world := w;
                             api_calls := api_calls (env s) ++ [GetState (Some st)];
                             log := log (env s) |} s)) as [tr [Htr Hr]].
      exists (GetState (Some st) :: tr). simpl in *. split.
      * now rewrite Htr, <- app_assoc.
      * destruct (fst (k st _)); auto.
        destruct Hr as [Hr|[Hr Ht]]; auto.
        right. split; auto. rewrite Ht. apply orb_true_r.
  - exists [GetState None]. auto.
Qed.

Lemma is_off_not_paused (st : MachineState) :
  is_off st = true -> MachineState_eqb st Paused = false.
Proof. destruct st; simpl; auto; discriminate. Qed.

Ltac unfold_calls :=
  unfold get_name, get_state, do_lockMachine, get_session_machine,
    do_unlockMachine, do_resume, do_PowerButton, do_saveState,
    with_VBSession, VBSession__init__, VBSession__enter__,
    VBSession__exit__, with_recursion_guard, resolve, _machines.

Ltac extends_auto :=
  unfold_calls;
  repeat first
    [ progress intros
    | assumption
    | match goal with
      | |- extends (shutdown_loop _ _ _) => fail 2
      | |- extends (save_loop _ _) => fail 2
      | |- extends (ret _) => apply extends_ret
      | |- extends (raise _) => apply extends_raise
      | |- extends (in_env (env_call _ _)) => apply extends_env_call
      | |- extends (logging _ _) => apply extends_logging
      | |- extends time_sleep => apply extends_time_sleep
      | |- extends get_VBM => apply extends_get_VBM
      | |- extends (lift guard_of set_guard _) => apply extends_guard
      | |- extends (bind _ _) => apply extends_bind
      | |- extends (try_except _ _) => apply extends_try_except
      | |- extends (with_stmt _ _ _) => apply extends_with_stmt
      | |- extends (if ?b then _ else _) => destruct b
      | |- extends (match ?x with _ => _ end) => destruct x
      | |- extends (let (_, _) := ?x in _) => destruct x
      end ].

Lemma shutdown_loop_extends (n : nat) (sess : S) (m : H) :
  extends (shutdown_loop n sess m).
Proof.
  induction n as [|n IH]; unfold shutdown_loop; fold shutdown_loop;
    extends_auto.
Qed.

Lemma save_loop_extends (n : nat) (m : H) : extends (save_loop n m).
Proof.
  induction n as [|n IH]; unfold save_loop; fold save_loop; extends_auto.
Qed.

Ltac traced_auto :=
  unfold_calls;
  repeat first
    [ progress intros
    | assumption
    | apply grows_saw_off | apply grows_True
    | match goal with
      | |- extends (shutdown_loop _ _ _) => apply shutdown_loop_extends
      | |- extends (save_loop _ _) => apply save_loop_extends
      | |- extends _ => extends_auto
      | |- traced _ (shutdown_loop _ _ _) => fail 2
      | |- traced _ (save_loop _ _) => fail 2
      | |- traced _ (ret VNone) => apply traced_ret_none
      | |- traced _ (ret (VBool true)) =>
          apply traced_ret_true; first [reflexivity | exact I]
      | |- traced _ (raise _) => apply traced_raise
      | |- traced _ (try_except _ _) => apply traced_try_except
      | |- traced _ (with_stmt _ _ _) => apply traced_with_stmt
      | |- traced _ (bind _ _) => apply traced_bind
      | |- traced _ (if ?b then _ else _) => destruct b
      | |- traced _ (match ?x with _ => _ end) => destruct x
      | |- traced _ (let (_, _) := ?x in _) => destruct x
      end ].

(** The polling loop of [shutdown_machine] returns [True] only after a
    state read that reported an off-state. *)
Lemma shutdown_loop_traced (n : nat) (sess : S) (m : H) :
  traced (fun tr => saw_off tr = true) (shutdown_loop n sess m).
Proof.
  induction n as [|n IH]; unfold shutdown_loop; fold shutdown_loop.
  - apply traced_ret_none.
  - assert (IH' : traced (fun _ => True) (shutdown_loop n sess m))
      by (revert IH; apply traced_weaken; auto).
    apply traced_bind; [apply grows_saw_off | extends_auto | intros _].
    apply traced_bind; [apply grows_saw_off | extends_auto | intros _].
    apply traced_bind; [apply grows_saw_off | extends_auto | intros _].
    apply traced_get_state; intros st Hst.
    + destruct (MachineState_eqb st Paused); [traced_auto|].
      apply traced_get_state; intros st' Hst'; rewrite Hst'; traced_auto.
    + rewrite (is_off_not_paused _ Hst). traced_auto.
Qed.

Lemma shutdown_machine_traced (machine_surrogate : Machine) :
  traced (fun tr => saw_off tr = true) (shutdown_machine machine_surrogate).
Proof.
  unfold shutdown_machine. traced_auto. apply shutdown_loop_traced.
Qed.

(** [shutdown_machine] entered with the guard at rest never raises: the
    guard lets it in, the outer handler catches what the body raises and
    cannot fail itself, and leaving the guard cannot fail. *)
Lemma shutdown_machine_returns (machine_surrogate : Machine) (s : St W) :
  guard_of s = 0%Z ->
  exists v, fst (shutdown_machine machine_surrogate s) = Ret v.
Proof.
  intros Hg. unfold shutdown_machine. rewrite guard_entry_runs by assumption.
  cbn [fst]. unfold try_except at 1.
  match goal with
  | |- context [let (_, _) := ?b ?s in _] => destruct (b s) as [[v|e] s1]
  end; [now exists v | now exists VNone].
Qed.

Lemma grows_saved_then_off : grows saved_then_off.
Proof.
  intros t1 t2 t3 [a [b [E Hoff]]]. subst t2.
  exists (t1 ++ a), (b ++ t3). split.
  - now rewrite <- !app_assoc.
  - now rewrite saw_off_app, Hoff.
Qed.

(** The polling loop of [save_machine] returns [True] only after a state
    read that reported an off-state. *)
Lemma save_loop_traced (n : nat) (m : H) :
  traced (fun tr => saw_off tr = true) (save_loop n m).
Proof.
  induction n as [|n IH]; unfold save_loop; fold save_loop.
  - traced_auto.
  - apply traced_bind; [apply grows_saw_off | extends_auto | intros _].
    apply traced_bind; [apply grows_saw_off | extends_auto | intros _].
    apply traced_bind; [apply grows_saw_off | extends_auto | intros _].
    apply traced_get_state; intros st Hst; rewrite Hst; traced_auto.
Qed.

(** Issuing the save command and going on. *)
Lemma traced_after_save (m : H) (k : M (St W) Value) :
  traced (fun tr => saw_off tr = true) k ->
  traced saved_then_off (bind (do_saveState m) (fun _ => k)).
Proof.
  intros Hk s. unfold bind, do_saveState, in_env, lift, env_call.
  destruct (saveState m (world (env s))) as [[u|e] w]; simpl.
  - match goal with
    | |- context [k ?st] => destruct (Hk st) as [tr [Htr Hr]]
    end.
    exists (SaveState :: tr). simpl in *. split.
    + now rewrite Htr, <- app_assoc.
    + destruct (fst (k _)); auto. destruct Hr as [Hr|[Hr Hoff]]; auto.
      right. split; auto. now exists [], tr.
  - exists [SaveState]. auto.
Qed.

Lemma save_machine_traced (machine_surrogate : Machine) :
  traced saved_then_off (save_machine machine_surrogate).
Proof.
  unfold save_machine.
  assert (G := grows_saved_then_off).
  unfold_calls.
  repeat first
    [ progress intros
    | assumption
    | match goal with
      | |- extends _ => extends_auto
      | |- traced _ (bind (in_env (env_call (fun _ => SaveState) _)) _) =>
          apply (traced_after_save _ (save_loop_traced _ _))
      | |- traced _ (ret VNone) => apply traced_ret_none
      | |- traced _ (raise _) => apply traced_raise
      | |- traced _ (try_except _ _) => apply traced_try_except
      | |- traced _ (with_stmt _ _ _) => apply traced_with_stmt
      | |- traced _ (bind _ _) => apply traced_bind
      | |- traced _ (if ?b then _ else _) => destruct b
      | |- traced _ (match ?x with _ => _ end) => destruct x
      | |- traced _ (let (_, _) := ?x in _) => destruct x
      end ].
Qed.

Lemma save_machine_returns (machine_surrogate : Machine) (s : St W) :
  guard_of s = 0%Z ->
  exists v, fst (save_machine machine_surrogate s) = Ret v.
Proof.
  intros Hg. unfold save_machine. rewrite guard_entry_runs by assumption.
  cbn [fst]. unfold try_except at 1.
  match goal with
  | |- context [let (_, _) := ?b ?s in _] => destruct (b s) as [[v|e] s1]
  end; [now exists v | now exists VNone].
Qed.

End Trace_facts.

(** ** The shutdown state machine *)

Section Shutdown_facts.

Context {W H S : Type} {api : VBoxApi W H S}.

Lemma shutdown_loop_S (n : nat) (sess : S) (machine : H) :
  shutdown_loop (Datatypes.S n) sess machine =
  (_ <- get_name machine;;
   _ <- get_state machine;;
   logging INFO "Machine `%s` is in state: %s";;
   st <- get_state machine;;
   if MachineState_eqb st Paused then
     do_resume sess;;
     time_sleep;;
     shutdown_loop n sess machine
   else
     st <- get_state machine;;
     if is_off st then
       _ <- get_name machine;;
       _ <- get_state machine;;
       logging INFO "Machine `%s` is in state: %s. Were done !";;
       ret (VBool true)
     else
       do_PowerButton sess;;
       time_sleep;;
       shutdown_loop n sess machine)%py.
Proof. reflexivity. Qed.

(** Splits on the outcome of the next call whose arguments are known;
    a remaining stretch of the loop is replaced by what it adds to the
    record of calls. *)
Ltac py_split x := destruct x as [[?|?] ?]; simpl in *.

Ltac py_case :=
  match goal with
  | |- context [shutdown_loop ?n ?a ?b ?st] =>
      let tr := fresh "tr" in
      let Htr := fresh "Htr" in
      destruct (shutdown_loop_extends n a b st) as [tr Htr];
      destruct (shutdown_loop n a b st) as [[?|?] ?]; simpl in *
  | |- context [console_resume ?a ?b] => py_split (console_resume a b)
  | |- context [console_PowerButton ?a ?b] =>
      py_split (console_PowerButton a b)
  | |- context [machine_name ?a ?b] => py_split (machine_name a b)
  | |- context [machine_state ?a ?b] => py_split (machine_state a b)
  | |- context [unlockMachine ?a ?b] => py_split (unlockMachine a b)
  end.

Section Session_open.

(** The binding answers every call up to the loop: the machine is
    re-resolved as [m], the session [sess] is locked and shows the
    machine as [lm]; the first turn of the loop reads name and state
    for its log line, leaving the world at [w7]. *)
Variables (machine_surrogate : Machine) (s : St W).
Variables (ms : list H) (m lm : H) (sess : S) (n n1 : string).
Variables (st0 : MachineState) (w1 w2 w3 w4 w5 w6 w7 : W).
Hypothesis Hguard : guard_of s = 0%Z.
Hypothesis Hvbm : VBM (self s) = true.
Hypothesis Hmachines : getArray_machines (world (env s)) = (Ret ms, w1).
Hypothesis Hindex : nth_error ms (index machine_surrogate) = Some m.
Hypothesis Hname : machine_name m w1 = (Ret n, w2).
Hypothesis Hsession : getSessionObject w2 = (Ret sess, w3).
Hypothesis Hlock : lockMachine m sess Shared w3 = (Ret tt, w4).
Hypothesis Hlocked : session_machine sess w4 = (Ret lm, w5).
Hypothesis Hname1 : machine_name lm w5 = (Ret n1, w6).
Hypothesis Hstate0 : machine_state lm w6 = (Ret st0, w7).

Ltac to_first_turn :=
  unfold shutdown_machine; change 20 with (Datatypes.S 19); py_unfold;
  py_step Hguard; py_step Hvbm; py_step Hmachines; py_step Hindex;
  py_step Hname; py_step Hsession; py_step Hlock; py_step Hlocked;
  rewrite shutdown_loop_S; py_unfold; py_step Hname1; py_step Hstate0.

(** A machine found [Paused] is resumed before anything else is done
    to it. *)
Lemma shutdown_paused_resumes (w8 : W) :
  machine_state lm w7 = (Ret Paused, w8) ->
  exists tr,
    api_calls (env (snd (shutdown_machine machine_surrogate s))) =
      api_calls (env s) ++ opening st0 ++
      [GetState (Some Paused); Resume] ++ tr.
Proof.
  intros Hp. to_first_turn. py_step Hp.
  repeat py_case;
    rewrite ?Htr; rewrite <- ?app_assoc; simpl; eexists; reflexivity.
Qed.

(** A machine found in an off-state: [True] at once, no command. *)
Lemma shutdown_off_returns_true
    (st1 st2 st3 : MachineState) (n2 : string) (w8 w9 w10 w11 : W) :
  machine_state lm w7 = (Ret st1, w8) -> is_off st1 = true ->
  machine_state lm w8 = (Ret st2, w9) -> is_off st2 = true ->
  machine_name lm w9 = (Ret n2, w10) ->
  machine_state lm w10 = (Ret st3, w11) ->
  fst (shutdown_machine machine_surrogate s) = Ret (VBool true) /\
  api_calls (env (snd (shutdown_machine machine_surrogate s))) =
    api_calls (env s) ++ opening st0 ++
    [GetState (Some st1); GetState (Some st2); GetName;
     GetState (Some st3); UnlockMachine].
Proof.
  intros H1 Hoff1 H2 Hoff2 Hn2 H3. to_first_turn.
  py_step H1. rewrite (is_off_not_paused _ Hoff1). py_unfold.
  py_step H2. py_step Hoff2. py_step Hn2. py_step H3.
  repeat py_case; rewrite <- ?app_assoc; simpl; split; reflexivity.
Qed.

End Session_open.

(** Whatever the binding does, [shutdown_machine] entered with the guard
    at rest returns, and returns [None] if no state read of the call
    reported an off-state. *)
Lemma shutdown_never_off_falsy (machine_surrogate : Machine) (s : St W) :
  guard_of s = 0%Z ->
  exists v,
    fst (shutdown_machine machine_surrogate s) = Ret v /\
    forall tr,
      api_calls (env (snd (shutdown_machine machine_surrogate s))) =
        api_calls (env s) ++ tr ->
      saw_off tr = false -> v = VNone.
Proof.
  intros Hg. destruct (shutdown_machine_returns machine_surrogate s Hg) as [v Hv].
  exists v. split; [assumption|]. intros tr Htr Hoff.
  destruct (shutdown_machine_traced machine_surrogate s) as [tr' [Htr' Hr]].
  rewrite Htr in Htr'. apply app_inv_head in Htr'. subst tr'.
  rewrite Hv in Hr. destruct Hr as [Hr|[_ Hr]]; [assumption | congruence].
Qed.

End Shutdown_facts.

(** C4.  [shutdown_machine] on a context whose guard is at rest.
    (1) Whatever the binding does, the call returns: no exception escapes;
    and if no state read made during the call reported an off-state, all
    20 turns included, the result is [None], which is falsy.
    When the machine is re-resolved and the session is opened on it:
    (2) if the machine is found [Paused] in the first turn, the first
    command issued is a resume, right after that state read;
    (3) if it is found in an off-state, the result is [True], the call ends
    in that first turn and neither a resume nor a power-button command nor
    a sleep was issued. *)
Theorem C4_shutdown_machine_state_machine :
  forall (W H S : Type) (api : VBoxApi W H S)
         (machine_surrogate : Machine) (s : St W),
    guard_of s = 0%Z ->
    let r := shutdown_machine machine_surrogate s in
    (exists v,
       fst r = Ret v /\
       forall tr,
         api_calls (env (snd r)) = api_calls (env s) ++ tr ->
         saw_off tr = false -> v = VNone /\ truthy v = false) /\
    (forall (ms : list H) (m lm : H) (sess : S) (n n1 : string)
            (st0 : MachineState) (w1 w2 w3 w4 w5 w6 w7 : W),
       VBM (self s) = true ->
       getArray_machines (world (env s)) = (Ret ms, w1) ->
       nth_error ms (index machine_surrogate) = Some m ->
       machine_name m w1 = (Ret n, w2) ->
       getSessionObject w2 = (Ret sess, w3) ->
       lockMachine m sess Shared w3 = (Ret tt, w4) ->
       session_machine sess w4 = (Ret lm, w5) ->
       machine_name lm w5 = (Ret n1, w6) ->
       machine_state lm w6 = (Ret st0, w7) ->
       (forall w8,
          machine_state lm w7 = (Ret Paused, w8) ->
          exists tr,
            api_calls (env (snd r)) =
              api_calls (env s) ++ opening st0 ++
              [GetState (Some Paused); Resume] ++ tr) /\
       (forall (st1 st2 st3 : MachineState) (n2 : string) (w8 w9 w10 w11 : W),
          machine_state lm w7 = (Ret st1, w8) -> is_off st1 = true ->
          machine_state lm w8 = (Ret st2, w9) -> is_off st2 = true ->
          machine_name lm w9 = (Ret n2, w10) ->
          machine_state lm w10 = (Ret st3, w11) ->
          fst r = Ret (VBool true) /\
          api_calls (env (snd r)) =
            api_calls (env s) ++ opening st0 ++
            [GetState (Some st1); GetState (Some st2); GetName;
             GetState (Some st3); UnlockMachine] /\
          existsb power_command
            (opening st0 ++
             [GetState (Some st1); GetState (Some st2); GetName;
              GetState (Some st3); UnlockMachine]) = false)).
Proof.
  intros W H S api surrogate s Hg r. split.
  - destruct (shutdown_never_off_falsy surrogate s Hg) as [v [Hv Hnone]].
    exists v. split; [exact Hv|]. intros tr Htr Hoff.
    rewrite (Hnone tr Htr Hoff). split; reflexivity.
  - intros ms m lm sess n n1 st0 w1 w2 w3 w4 w5 w6 w7
           Hv Hms Hi Hn Hso Hl Hsm Hn1 Hs0. split.
    + intros w8 Hp.
      exact (shutdown_paused_resumes surrogate s Hg Hv Hms Hi Hn Hso Hl Hsm
               Hn1 Hs0 Hp).
    + intros st1 st2 st3 n2 w8 w9 w10 w11 H1 Ho1 H2 Ho2 Hn2 H3.
      destruct (shutdown_off_returns_true surrogate s Hg Hv Hms Hi Hn Hso Hl
                  Hsm Hn1 Hs0 H1 Ho1 H2 Ho2 Hn2 H3) as [Hr Htr].
      repeat split; assumption || reflexivity.
Qed.


(** On the simulated host: a guest that ignores the power button is
    given up after 20 turns with [None]; a paused machine is resumed
    first; a powered-off machine gives [True] at once. *)
Lemma C4_shutdown_machine_state_machine_witness :
  let w := Sim.host [Sim.vm "a" Paused true; Sim.vm "b" PoweredOff true;
                     Sim.vm "c" Running false] 5 true in
  let s := Sim.fresh_st w in
  let snap i := {| index := i; name := "?"; state := Running |} in
  guard_of s = 0%Z /\
  fst (shutdown_machine (snap 2) s) = Ret VNone /\
  (exists tr,
     api_calls (env (snd (shutdown_machine (snap 0) s))) =
       api_calls (env s) ++ opening Paused ++
       [GetState (Some Paused); Resume] ++ tr) /\
  fst (shutdown_machine (snap 1) s) = Ret (VBool true).
Proof.
  intros w s snap. split; [reflexivity|].
  pose proof (@C4_shutdown_machine_state_machine _ _ _ Sim.api (snap 2) s eq_refl)
    as [[v [Hv Hnone]] _].
  pose proof (@C4_shutdown_machine_state_machine _ _ _ Sim.api (snap 0) s eq_refl)
    as [_ Hpaused].
  pose proof (@C4_shutdown_machine_state_machine _ _ _ Sim.api (snap 1) s eq_refl)
    as [_ Hoff].
  split; [|split].
  - assert (E1 : api_calls (env (snd (shutdown_machine (snap 2) s))) =
                 api_calls (env s) ++ api_calls (env (snd (shutdown_machine (snap 2) s))))
      by (vm_compute; reflexivity).
    assert (E2 : saw_off (api_calls (env (snd (shutdown_machine (snap 2) s)))) = false)
      by (vm_compute; reflexivity).
    exact (eq_trans Hv (f_equal Ret (proj1 (Hnone _ E1 E2)))).
  - destruct (Hpaused [0; 1; 2] 0 0 tt "a"%string "a"%string Paused
                _ _ _ _ _ _ _
                eq_refl eq_refl eq_refl eq_refl eq_refl eq_refl eq_refl
                eq_refl eq_refl) as [Hp _].
    exact (Hp _ eq_refl).
  - destruct (Hoff [0; 1; 2] 1 1 tt "b"%string "b"%string PoweredOff
                _ _ _ _ _ _ _
                eq_refl eq_refl eq_refl eq_refl eq_refl eq_refl eq_refl
                eq_refl eq_refl) as [_ Ho].
    destruct (Ho PoweredOff PoweredOff PoweredOff "b"%string _ _ _ _
                eq_refl eq_refl eq_refl eq_refl eq_refl eq_refl) as [Hr _].
    exact Hr.
Defined.

(** ** Enumeration *)

Section Enumeration_facts.

Context {W H S : Type} {api : VBoxApi W H S}.

Lemma machines_loop_cons (m : H) (ms : list H) (i : nat) (res : list Machine) :
  machines_loop (m :: ms) i res =
  (res <- try_except
            (mk <- Machine__init__ (i + 1 - 1) m;;
             ret (res ++ [mk]))
            (fun exc => ret res);;
   machines_loop ms (i + 1) res)%py.
Proof. reflexivity. Qed.

(** A surrogate carries the index it was built with. *)
Lemma Machine__init___index (i : nat) (m : H) (st st1 : St W) (mk : Machine) :
  Machine__init__ i m st = (Ret mk, st1) -> index mk = i.
Proof.
  unfold Machine__init__. py_unfold.
  destruct (machine_name m (world (env st))) as [[n|e] w]; simpl;
    [|discriminate].
  destruct (machine_state m w) as [[x|e] w']; simpl; [|discriminate].
  intros E. inversion E. reflexivity.
Qed.

(** Building a surrogate logs nothing, whether it succeeds or not. *)
Lemma Machine__init___log (i : nat) (m : H) (st : St W) :
  log (env (snd (Machine__init__ i m st))) = log (env st).
Proof.
  unfold Machine__init__. py_unfold.
  destruct (machine_name m (world (env st))) as [[n|e] w]; simpl;
    [|reflexivity].
  destruct (machine_state m w) as [[x|e] w']; reflexivity.
Qed.

(** The loop of [machines] does what [enumerates] describes, after the
    snapshots it already holds. *)
Lemma machines_loop_enumerates (ms : list H) :
  forall (i : nat) (res : list Machine) (st : St W),
  exists res' st',
    enumerates ms i st res' st' /\
    machines_loop ms i res st = (Ret (res ++ res'), st').
Proof.
  induction ms as [|m ms IH]; intros i res st.
  - exists [], st. split; [constructor|].
    unfold machines_loop, ret. now rewrite app_nil_r.
  - rewrite machines_loop_cons. rewrite Nat.add_sub.
    unfold bind at 1. unfold try_except, bind at 1, ret.
    destruct (Machine__init__ i m st) as [[mk|e] st1] eqn:E.
    + destruct (IH (i + 1) (res ++ [mk]) st1) as [res' [st' [He Hl]]].
      exists (mk :: res'), st'. split.
      * eapply enumerates_read; eassumption.
      * rewrite Hl, <- app_assoc. reflexivity.
    + destruct (IH (i + 1) res st1) as [res' [st' [He Hl]]].
      exists res', st'. split; [|assumption].
      eapply enumerates_skip; eassumption.
Qed.

Lemma enumerates_log (ms : list H) (i : nat) (st st' : St W) (res : list Machine) :
  enumerates ms i st res st' -> log (env st') = log (env st).
Proof.
  induction 1 as [| m ms i st mk st1 res st2 E _ IH
                  | m ms i st exc st1 res st2 E _ IH]; auto;
    rewrite IH; pose proof (Machine__init___log i m st) as L;
    rewrite E in L; exact L.
Qed.

(** Every snapshot of an enumeration from counter [i] sits, in the list
    enumerated, at its index less [i], and was read from the handle
    there. *)
Lemma enumerates_index (ms : list H) (i : nat) (st st' : St W) (res : list Machine) :
  enumerates ms i st res st' ->
  forall mk, In mk res ->
    i <= index mk /\
    exists h sa,
      nth_error ms (index mk - i) = Some h /\
      fst (Machine__init__ (index mk) h sa) = Ret mk.
Proof.
  induction 1 as [| m ms i st mk0 st1 res st2 E _ IH
                  | m ms i st exc st1 res st2 E _ IH]; intros mk Hin.
  - destruct Hin.
  - destruct Hin as [<-|Hin].
    + rewrite (Machine__init___index _ _ _ E). split; [lia|].
      exists m, st. rewrite Nat.sub_diag, E. auto.
    + destruct (IH mk Hin) as [Hle [h [sa [Hn Hi]]]]. split; [lia|].
      exists h, sa. split; [|assumption].
      replace (index mk - i) with (Datatypes.S (index mk - (i + 1))) by lia.
      exact Hn.
  - destruct (IH mk Hin) as [Hle [h [sa [Hn Hi]]]]. split; [lia|].
    exists h, sa. split; [|assumption].
    replace (index mk - i) with (Datatypes.S (index mk - (i + 1))) by lia.
    exact Hn.
Qed.

Lemma machines_run (s : St W) (hs : list H) (w1 : W) :
  VBM (self s) = true ->
  getArray_machines (world (env s)) = (Ret hs, w1) ->
  machines s = machines_loop hs 0 [] (enumerated w1 s).
Proof.
  intros Hv Hms. unfold machines. py_unfold. py_step Hv. py_step Hms.
  reflexivity.
Qed.

Lemma resolve_run (mk : Machine) (s : St W) (hs : list H) (w1 : W) (h : H) :
  VBM (self s) = true ->
  getArray_machines (world (env s)) = (Ret hs, w1) ->
  nth_error hs (index mk) = Some h ->
  resolve mk s = (Ret h, enumerated w1 s).
Proof.
  intros Hv Hms Hn. py_unfold. py_step Hv. py_step Hms. py_step Hn.
  reflexivity.
Qed.

End Enumeration_facts.

(** C9.  When the binding hands out the raw list [hs], every snapshot that
    [machines] returns carries as [index] the position in [hs] of the
    handle its name and state were read from, machines skipped before it
    included.  So the re-resolution that opens both [shutdown_machine] and
    [save_machine] ([resolve], the raw list indexed by the snapshot's
    index) yields that same handle whenever the raw list is [hs] again. *)
Theorem C9_snapshot_index_is_raw_position :
  forall (W H S : Type) (api : VBoxApi W H S)
         (s : St W) (hs : list H) (w1 : W),
    VBM (self s) = true ->
    getArray_machines (world (env s)) = (Ret hs, w1) ->
    exists res,
      fst (machines s) = Ret res /\
      forall mk, In mk res ->
        exists h,
          nth_error hs (index mk) = Some h /\
          (exists sa, fst (Machine__init__ (index mk) h sa) = Ret mk) /\
          forall (s2 : St W) (w2 : W),
            VBM (self s2) = true ->
            getArray_machines (world (env s2)) = (Ret hs, w2) ->
            fst (resolve mk s2) = Ret h.
Proof.
  intros W H S api s hs w1 Hv Hms.
  destruct (machines_loop_enumerates hs 0 [] (enumerated w1 s))
    as [res [st' [He Hl]]].
  exists res. split.
  - rewrite (machines_run s Hv Hms), Hl. reflexivity.
  - intros mk Hin.
    destruct (enumerates_index He mk Hin) as [_ [h [sa [Hn Hi]]]].
    rewrite Nat.sub_0_r in Hn. exists h. split; [assumption|].
    split; [now exists sa|]. intros s2 w2 Hv2 Hms2.
    rewrite (resolve_run mk s2 Hv2 Hms2 Hn). reflexivity.
Qed.

(** On the simulated host, with the second of three machines unreadable:
    the third machine's snapshot has index 2. *)
Lemma C9_snapshot_index_is_raw_position_witness :
  let w := Sim.host [Sim.vm "a" Running true; Sim.detached Running;
                     Sim.vm "c" PoweredOff true] 5 true in
  let s := Sim.fresh_st w in
  VBM (self s) = true /\
  getArray_machines (world (env s)) =
    (Ret [0; 1; 2],
     Sim.host [Sim.vm "a" Running true; Sim.detached Running;
               Sim.vm "c" PoweredOff true] 4 true) /\
  exists res,
    fst (machines s) = Ret res /\
    forall mk, In mk res ->
      exists h,
        nth_error [0; 1; 2] (index mk) = Some h /\
        (exists sa, fst (Machine__init__ (index mk) h sa) = Ret mk) /\
        forall (s2 : St Sim.World) (w2 : Sim.World),
          VBM (self s2) = true ->
          getArray_machines (world (env s2)) = (Ret [0; 1; 2], w2) ->
          fst (resolve mk s2) = Ret h.
Proof.
  intros w s. split; [reflexivity|]. split; [reflexivity|].
  exact (@C9_snapshot_index_is_raw_position _ _ _ Sim.api s [0; 1; 2] _
           eq_refl eq_refl).
Defined.

(** C7, as the code has it.  When the binding hands out the raw list,
    [machines] does not raise: it visits the machines in order, each
    machine whose name and state can be read at its turn yields a
    snapshot, each machine whose access faults is skipped and the
    enumeration goes on with the next one.  The faults are swallowed
    without a trace: the log is left as it was. *)
Theorem C7_machines_skips_faulting_silently :
  forall (W H S : Type) (api : VBoxApi W H S)
         (s : St W) (hs : list H) (w1 : W),
    VBM (self s) = true ->
    getArray_machines (world (env s)) = (Ret hs, w1) ->
    exists res st',
      machines s = (Ret res, st') /\
      enumerates hs 0 (enumerated w1 s) res st' /\
      log (env st') = log (env s).
Proof.
  intros W H S api s hs w1 Hv Hms.
  destruct (machines_loop_enumerates hs 0 [] (enumerated w1 s))
    as [res [st' [He Hl]]].
  exists res, st'. split; [|split].
  - rewrite (machines_run s Hv Hms), Hl. reflexivity.
  - assumption.
  - rewrite (enumerates_log He). reflexivity.
Qed.

(** On the simulated host, with the second of three machines unreadable. *)
Lemma C7_machines_skips_faulting_silently_witness :
  let w := Sim.host [Sim.vm "a" Running true; Sim.detached Running;
                     Sim.vm "c" PoweredOff true] 5 true in
  let s := Sim.fresh_st w in
  VBM (self s) = true /\
  exists res st',
    machines s = (Ret res, st') /\
    enumerates [0; 1; 2] 0
      (enumerated (Sim.host [Sim.vm "a" Running true; Sim.detached Running;
                             Sim.vm "c" PoweredOff true] 4 true) s)
      res st' /\
    log (env st') = log (env s).
Proof.
  intros w s. split; [reflexivity|].
  exact (@C7_machines_skips_faulting_silently _ _ _ Sim.api s [0; 1; 2] _
           eq_refl eq_refl).
Defined.

(** C7 as stated fails: on the simulated host the second machine cannot be
    read when its turn comes, [machines] skips it and returns the other
    two, and yet no record at all has been logged. *)
Lemma C7_counterexample_fault_not_logged :
  let w := Sim.host [Sim.vm "a" Running true; Sim.detached Running;
                     Sim.vm "c" PoweredOff true] 5 true in
  let s := Sim.fresh_st w in
  let r := machines s in
  (forall st : St Sim.World,
     Sim.vms_of st = Sim.vms w ->
     fst (Machine__init__ 1 1 st) = Raise (ApiError "unavailable")) /\
  fst r = Ret [{| index := 0; name := "a"; state := Running |};
               {| index := 2; name := "c"; state := PoweredOff |}] /\
  log (env (snd r)) = [] /\
  ~ (exists record, In record (log (env (snd r)))).
Proof.
  intros w s r. split; [|split; [reflexivity|split; [reflexivity|]]].
  - intros st Hst. unfold Machine__init__. py_unfold.
    unfold Sim.sim_name. unfold Sim.vms_of in Hst. rewrite Hst. reflexivity.
  - intros [record Hin]. exact Hin.
Qed.

(** ** VBCController *)

(** Unfolds the methods of the controller and the stretches of the worker
    down to the calls on the binding and the pending context method. *)
Ltac ctl_unfold :=
  cbv beta iota zeta delta
    [call __enter__ __exit__ _timer_start _timer_stop stop join _call_async
     _start notify run_worker _worker worker_turn worker_exit worker_serve
     on_vbcc on_outside VBContext__init__ VBContext_deinit on_timer
     bind ret raise lift in_env env_call env_log logging get_VBM set_env
     timer_armed] in *;
  simpl in *.

(** C10.  [stop] on a controller whose worker was never started returns
    without a fault and leaves the process as it was: [_enabled] is false,
    there is no thread (so the [join] was skipped) and [_ev_started] is
    clear.  A later [call], if the binding connects, starts a worker that
    stays alive on a new context, runs the method there and hands its
    result back ([None] if it raised). *)
Theorem C10_stop_before_start :
  forall (W H S : Type) (api : VBoxApi W H S) (e0 : Env W),
    let p := new_process e0 in
    stop p = (Ret tt, p) /\
    _enabled (vbcc (snd (stop p))) = false /\
    _thread (vbcc (snd (stop p))) = None /\
    _ev_started (vbcc (snd (stop p))) = false /\
    forall (context_method : M (St W) Value) (w1 : W),
      connect (world e0) = (Ret tt, w1) ->
      let ran := context_method {| self := new_context; env := connected w1 e0 |} in
      exists p',
        call context_method (snd (stop p)) =
          (Returned (handed_back VNone (fst ran)), p') /\
        _thread (vbcc p') = Some ThreadAlive /\
        _enabled (vbcc p') = true /\
        _ev_started (vbcc p') = true /\
        ctx (vbcc p') = Some (self (snd ran)).
Proof.
  intros W H S api e0 p. split; [reflexivity|]. repeat (split; [reflexivity|]).
  intros f w1 Hc ran. unfold ran. clear ran.
  ctl_unfold. rewrite Hc. simpl.
  unfold new_context, connected.
  destruct (f _) as [[v|e] st]; simpl; eexists; repeat split.
Qed.

(** On the simulated host: after [stop] on the new controller, a call of
    [machines_running] starts the worker and returns the running
    machines. *)
Lemma C10_stop_before_start_witness :
  let w := Sim.host [Sim.vm "a" Running true; Sim.vm "b" Saved true] 5 true in
  let p := new_process (Sim.fresh_env w) in
  let f : M (St Sim.World) Value :=
    (ms <- machines_running;; ret (VMachines ms))%py in
  connect (world (Sim.fresh_env w)) = (Ret tt, w) /\
  exists p',
    call f (snd (stop p)) =
      (Returned (VMachines [{| index := 0; name := "a"; state := Running |}]),
       p') /\
    _thread (vbcc p') = Some ThreadAlive /\
    _enabled (vbcc p') = true.
Proof.
  intros w p f. split; [reflexivity|].
  destruct (@C10_stop_before_start _ _ _ Sim.api (Sim.fresh_env w))
    as [_ [_ [_ [_ Hcall]]]].
  destruct (Hcall f w eq_refl) as [p' [Hc [Ht [He _]]]].
  exists p'. split; [exact Hc|]. split; assumption.
Defined.

(** C8 (the code departs from it).  A controller whose worker is not
    running and whose [_ev_result] is clear, as on a controller that was
    never started: when [VBContext()] faults in the new worker, the thread
    is dead by the time the call is submitted; [_call_async] logs the
    error, as claimed, but [call] goes on to wait for [_ev_result], which
    no thread is left to set, and never returns.  Only when an earlier
    call has left [_ev_result] set does the wait pass; [call] then hands
    back what [_call_result] held. *)
Theorem C8_call_blocks_on_dead_worker :
  forall (W H S : Type) (api : VBoxApi W H S) (p : Proc)
         (context_method : M (St W) Value) (exc : exn) (w1 : W),
    _enabled (vbcc p) = false ->
    connect (world (outside p)) = (Raise exc, w1) ->
    exc <> ImportError ->
    let r := call context_method p in
    _thread (vbcc (snd r)) = Some ThreadDead /\
    log (outside (snd r)) =
      log (outside p) ++ [(ERROR, "VBController thread is not running!"%string)] /\
    (_ev_result (vbcc p) = false -> fst r = Blocked) /\
    (_ev_result (vbcc p) = true -> fst r = Returned (_call_result (vbcc p))).
Proof.
  intros W H S api p f exc w1 He Hc Hexc r. unfold r. clear r.
  destruct p as [c e]. destruct c. simpl in *. subst.
  ctl_unfold.
  destruct _stop_timer0 as [[|]|]; simpl; rewrite Hc; simpl;
    destruct exc; try congruence; simpl;
    destruct _ev_result0; simpl;
    repeat split; intros; try congruence;
    destruct (0 <? _acquire_cnt0)%Z; reflexivity.
Qed.

(** On the simulated host with a binding that cannot connect: the first
    call on a new controller blocks. *)
Lemma C8_call_blocks_on_dead_worker_witness :
  let w := Sim.host [Sim.vm "a" Running true] 5 false in
  let p := new_process (Sim.fresh_env w) in
  let f : M (St Sim.World) Value :=
    (ms <- machines_running;; ret (VMachines ms))%py in
  fst (call f p) = Blocked /\
  log (outside (snd (call f p))) =
    [(ERROR, "VBController thread is not running!"%string)].
Proof.
  intros w p f.
  assert (Hne : ApiError "unavailable" <> ImportError) by discriminate.
  destruct (@C8_call_blocks_on_dead_worker _ _ _ Sim.api p f
              (ApiError "unavailable") w eq_refl eq_refl Hne)
    as [_ [Hlog [Hb _]]].
  split; [exact (Hb eq_refl) | exact Hlog].
Defined.

(** C2 (the code departs from it).  With the worker alive on its context,
    a call whose method raises is not re-raised to the caller and the
    fault is logged, as claimed.  But the worker leaves [_call_result]
    untouched in that case, so [call] hands back what it held before:
    [None] only if no call has returned a value since the worker started,
    and otherwise the result of the last call that did return. *)
Theorem C2_call_hands_back_stale_result :
  forall (W H S : Type) (api : VBoxApi W H S) (p : Proc)
         (context_method : M (St W) Value)
         (x : VBContext) (exc : exn) (st : St W),
    _thread (vbcc p) = Some ThreadAlive ->
    _enabled (vbcc p) = true ->
    ctx (vbcc p) = Some x ->
    context_method {| self := x; env := outside p |} = (Raise exc, st) ->
    let r := call context_method p in
    fst r = Returned (_call_result (vbcc p)) /\
    log (outside (snd r)) =
      log (env st) ++ [(ERROR, "Call to VB context failed: %s"%string)] /\
    _call_result (vbcc (snd r)) = _call_result (vbcc p) /\
    _thread (vbcc (snd r)) = Some ThreadAlive.
Proof.
  intros W H S api p f x exc st Ht He Hx Hf r. unfold r. clear r.
  destruct p as [c e]. destruct c. simpl in *. subst.
  ctl_unfold.
  destruct _stop_timer0 as [[|]|]; simpl; rewrite Hf; simpl;
    destruct (0 <? _acquire_cnt0)%Z; simpl; repeat split.
Qed.

(** On the simulated host, where enumeration works once and then faults:
    the first call of [machines] returns the snapshots, the second call
    raises inside the worker and hands the first call's snapshots back. *)
Lemma C2_call_hands_back_stale_result_witness :
  let w := Sim.host [Sim.vm "a" Running true] 1 true in
  let f : M (St Sim.World) Value := (ms <- machines;; ret (VMachines ms))%py in
  let first := call f (new_process (Sim.fresh_env w)) in
  let second := call f (snd first) in
  fst first = Returned (VMachines [{| index := 0; name := "a"; state := Running |}]) /\
  fst (f {| self := new_context; env := outside (snd first) |}) =
    Raise (ApiError "unavailable") /\
  fst second = Returned (VMachines [{| index := 0; name := "a"; state := Running |}]) /\
  In (ERROR, "Call to VB context failed: %s"%string) (log (outside (snd second))).
Proof.
  intros w f first second. split; [reflexivity|]. split; [reflexivity|].
  destruct (@C2_call_hands_back_stale_result _ _ _ Sim.api (snd first) f
              new_context (ApiError "unavailable")
              (snd (f {| self := new_context; env := outside (snd first) |}))
              eq_refl eq_refl eq_refl eq_refl)
    as [Hr [Hlog _]].
  split; [exact Hr|]. unfold second. rewrite Hlog.
  apply in_or_app. right. left. reflexivity.
Defined.

(** ** Holds and the idle timer *)

Section Hold_facts.

Context {W H S : Type} {api : VBoxApi W H S}.

(** Splits on what decides the next step: an attribute, the outcome of a
    call on the binding, the outcome of the pending context method. *)
Ltac split_all :=
  repeat match goal with
         | |- context [negb ?x] => is_var x; destruct x; simpl
         | |- context [connect ?w] =>
             destruct (connect w) as [[[]|[]] ?]; simpl
         | |- context [deinit ?w] =>
             destruct (deinit w) as [[[]|?] ?]; simpl
         | |- context [match ?x with _ => _ end] => is_var x; destruct x; simpl
         | |- context [if ?x then _ else _] => is_var x; destruct x; simpl
         | |- context [?f {| self := ?a; env := ?b |}] =>
             is_var f;
             destruct (f {| self := a; env := b |}) as [[?|?] ?]; simpl
         end.

(** Starting the worker touches neither the hold count nor the timer,
    and cannot fail in the calling thread. *)
Lemma _start_frame (p : Proc (W := W)) :
  fst (_start p) = Ret tt /\
  _acquire_cnt (vbcc (snd (_start p))) = _acquire_cnt (vbcc p) /\
  _stop_timer (vbcc (snd (_start p))) = _stop_timer (vbcc p).
Proof.
  destruct p as [c e]. destruct c. ctl_unfold.
  split_all; repeat split.
Qed.

Lemma enter_effect (p : Proc (W := W)) :
  fst (__enter__ p) = Ret tt /\
  _acquire_cnt (vbcc (snd (__enter__ p))) = (_acquire_cnt (vbcc p) + 1)%Z /\
  _stop_timer (vbcc (snd (__enter__ p))) = disarmed (_stop_timer (vbcc p)).
Proof.
  unfold __enter__. unfold bind at 1. unfold _timer_stop, on_vbcc.
  unfold bind.
  match goal with
  | |- context [_start ?q] =>
      destruct (_start_frame q) as [Hr [Hc Ht]];
      destruct (_start q) as [r q']
  end.
  simpl in *. subst r. rewrite Hc, Ht.
  destruct p as [c e]. destruct c. simpl.
  destruct _stop_timer0 as [[|]|]; repeat split.
Qed.

Lemma exit_effect (p : Proc (W := W)) :
  fst (__exit__ p) = Ret tt /\
  _acquire_cnt (vbcc (snd (__exit__ p))) = (_acquire_cnt (vbcc p) - 1)%Z /\
  _stop_timer (vbcc (snd (__exit__ p))) =
    if (_acquire_cnt (vbcc p) - 1 =? 0)%Z then Some TimerAlive
    else _stop_timer (vbcc p).
Proof.
  destruct p as [c e]. destruct c. ctl_unfold.
  destruct (Z.eqb_spec (_acquire_cnt0 - 1) 0) as [E|E].
  - rewrite E. simpl. destruct _stop_timer0 as [[|]|]; repeat split.
  - repeat split.
Qed.

Lemma repeat_m_S (k : nat) (m : M (Proc (W := W)) unit) :
  repeat_m (Datatypes.S k) m = (m;; repeat_m k m)%py.
Proof. reflexivity. Qed.

(** [k] acquisitions add [k] to the hold count and leave no timer
    armed. *)
Lemma enter_k (k : nat) :
  forall p : Proc (W := W),
    fst (repeat_m k __enter__ p) = Ret tt /\
    _acquire_cnt (vbcc (snd (repeat_m k __enter__ p))) =
      (_acquire_cnt (vbcc p) + Z.of_nat k)%Z /\
    _stop_timer (vbcc (snd (repeat_m k __enter__ p))) =
      match k with
      | O => _stop_timer (vbcc p)
      | _ => disarmed (_stop_timer (vbcc p))
      end.
Proof.
  induction k as [|k IH]; intros p.
  - simpl. repeat split. lia.
  - rewrite repeat_m_S. unfold bind.
    destruct (enter_effect p) as [Hr [Hc Ht]].
    destruct (__enter__ p) as [r q]. simpl in *. subst r.
    destruct (IH q) as [Hr' [Hc' Ht']]. rewrite Hr', Hc', Ht', Hc, Ht.
    repeat split; [lia|].
    destruct k; [reflexivity|].
    destruct (_stop_timer (vbcc p)) as [[|]|]; reflexivity.
Qed.

(** While the hold count stays above zero, releases only count down. *)
Lemma exit_j (j : nat) :
  forall p : Proc (W := W),
    (Z.of_nat j < _acquire_cnt (vbcc p))%Z ->
    fst (repeat_m j __exit__ p) = Ret tt /\
    _acquire_cnt (vbcc (snd (repeat_m j __exit__ p))) =
      (_acquire_cnt (vbcc p) - Z.of_nat j)%Z /\
    _stop_timer (vbcc (snd (repeat_m j __exit__ p))) = _stop_timer (vbcc p).
Proof.
  induction j as [|j IH]; intros p Hlt.
  - simpl. repeat split. lia.
  - rewrite repeat_m_S. unfold bind.
    destruct (exit_effect p) as [Hr [Hc Ht]].
    destruct (__exit__ p) as [r q]. simpl in *. subst r.
    destruct (IH q) as [Hr' [Hc' Ht']]; [lia|].
    rewrite Hr', Hc', Ht', Hc, Ht.
    destruct (Z.eqb_spec (_acquire_cnt (vbcc p) - 1) 0); [lia|].
    repeat split. lia.
Qed.

(** Releasing after [j] releases is releasing [j + 1] times. *)
Lemma repeat_m_snoc (j : nat) (m : M (Proc (W := W)) unit) :
  forall p : Proc (W := W),
    fst (repeat_m j m p) = Ret tt ->
    repeat_m (Datatypes.S j) m p = m (snd (repeat_m j m p)).
Proof.
  induction j as [|j IH]; intros p Hr.
  - rewrite repeat_m_S. unfold bind. simpl.
    destruct (m p) as [[[]|e] q]; reflexivity.
  - rewrite repeat_m_S. rewrite (repeat_m_S j) in *. unfold bind in *.
    destruct (m p) as [[[]|e] q]; simpl in *; [|discriminate].
    apply IH. exact Hr.
Qed.

End Hold_facts.

Lemma timer_armed_disarmed {W : Type} (p : Proc (W := W)) (t : option Timer) :
  _stop_timer (vbcc p) = disarmed t -> timer_armed p = false.
Proof.
  unfold timer_armed. intros ->. destruct t as [[|]|]; reflexivity.
Qed.

(** C6, as the code has it.  From any state with a hold count [c >= 0],
    [k >= 1] acquisitions followed by [k] releases all return, bring the
    hold count back to [c], and leave the idle timer armed exactly when
    [c] is zero: the timer is not armed while any of the holds is still
    in place, it is armed by the release that brings the count to zero,
    and no timer is armed when the count comes back to a positive [c].
    So the timer is as armed as before exactly for the states in which it
    was armed if and only if nothing was held; on a controller with
    nothing held and no timer armed (a new one, or one torn down by the
    timer) the pair of calls arms it. *)
Theorem C6_holds_rearm_timer_at_zero :
  forall (W H S : Type) (api : VBoxApi W H S) (k : nat) (p : Proc),
    1 <= k ->
    (0 <= _acquire_cnt (vbcc p))%Z ->
    let held := snd (repeat_m k __enter__ p) in
    let after := snd (repeat_m k __exit__ held) in
    fst (repeat_m k __enter__ p) = Ret tt /\
    fst (repeat_m k __exit__ held) = Ret tt /\
    _acquire_cnt (vbcc after) = _acquire_cnt (vbcc p) /\
    timer_armed after = (_acquire_cnt (vbcc p) =? 0)%Z /\
    (forall j, j < k -> timer_armed (snd (repeat_m j __exit__ held)) = false) /\
    (timer_armed p = (_acquire_cnt (vbcc p) =? 0)%Z ->
     timer_armed after = timer_armed p).
Proof.
  intros W H S api k p Hk Hc held after.
  destruct (enter_k k p) as [He [Hcnt Htimer]].
  fold held in Hcnt, Htimer.
  destruct k as [|k']; [lia|].
  assert (Hunarmed : forall j, j < Datatypes.S k' ->
            timer_armed (snd (repeat_m j __exit__ held)) = false).
  { intros j Hj. destruct (exit_j j held) as [_ [_ Ht]]; [lia|].
    apply timer_armed_disarmed with (t := _stop_timer (vbcc p)).
    now rewrite Ht. }
  destruct (exit_j k' held) as [Hr [Hcnt' Ht']]; [lia|].
  assert (Hafter : repeat_m (Datatypes.S k') __exit__ held =
                   __exit__ (snd (repeat_m k' __exit__ held)))
    by (apply repeat_m_snoc; exact Hr).
  destruct (exit_effect (snd (repeat_m k' __exit__ held))) as [Hx [Hxc Hxt]].
  assert (Hcount : _acquire_cnt (vbcc after) = _acquire_cnt (vbcc p)).
  { unfold after. rewrite Hafter, Hxc, Hcnt', Hcnt. lia. }
  assert (Harmed : timer_armed after = (_acquire_cnt (vbcc p) =? 0)%Z).
  { unfold after, timer_armed. rewrite Hafter, Hxt, Hcnt', Hcnt.
    replace (_acquire_cnt (vbcc p) + Z.of_nat (Datatypes.S k') - Z.of_nat k' - 1)%Z
      with (_acquire_cnt (vbcc p)) by lia.
    destruct (_acquire_cnt (vbcc p) =? 0)%Z; [reflexivity|].
    rewrite Ht', Htimer. destruct (_stop_timer (vbcc p)) as [[|]|]; reflexivity. }
  split; [exact He|]. split; [rewrite Hafter; exact Hx|].
  split; [exact Hcount|]. split; [exact Harmed|]. split; [exact Hunarmed|].
  intros Hinv. now rewrite Harmed, Hinv.
Qed.

(** On the simulated host, from a new controller: two acquisitions and two
    releases leave the hold count at zero and the timer armed. *)
Lemma C6_holds_rearm_timer_at_zero_witness :
  let p := new_process
             (Sim.fresh_env (Sim.host [Sim.vm "a" Running true] 5 true)) in
  let held := snd (repeat_m 2 __enter__ p) in
  let after := snd (repeat_m 2 __exit__ held) in
  1 <= 2 /\ (0 <= _acquire_cnt (vbcc p))%Z /\
  _acquire_cnt (vbcc after) = 0%Z /\
  timer_armed after = true /\
  timer_armed (snd (repeat_m 1 __exit__ held)) = false.
Proof.
  intros p held after.
  assert (H1 : 1 <= 2) by (apply le_S, le_n).
  assert (H0 : (0 <= _acquire_cnt (vbcc p))%Z) by (apply Z.le_refl).
  destruct (@C6_holds_rearm_timer_at_zero _ _ _ Sim.api 2 p H1 H0)
    as [_ [_ [Hc [Ha [Hj _]]]]].
  split; [exact H1|]. split; [exact H0|]. split; [exact Hc|].
  split; [exact Ha|]. apply Hj. apply le_n.
Defined.

(** C6 as stated fails: a new controller has no timer armed; after one
    acquisition and one release the timer is armed. *)
Lemma C6_counterexample_new_controller :
  let p := new_process
             (Sim.fresh_env (Sim.host [Sim.vm "a" Running true] 5 true)) in
  let after := snd (repeat_m 1 __exit__ (snd (repeat_m 1 __enter__ p))) in
  timer_armed p = false /\
  timer_armed after = true /\
  timer_armed after <> timer_armed p.
Proof.
  intros p after. split; [reflexivity|]. split; [reflexivity|]. discriminate.
Qed.

(** * Further properties of the script *)

(** ** Enum *)

Module EnumFacts.

Import Enum.

Lemma get_set_same {V} (k : Z) (v : V) (d : dict Z V) :
  get Z.eqb k (set Z.eqb k v d) = Some v.
Proof.
  induction d as [|[k' v'] d IH]; simpl.
  - now rewrite Z.eqb_refl.
  - destruct (Z.eqb_spec k k') as [E|E]; simpl.
    + now rewrite Z.eqb_refl.
    + destruct (Z.eqb_spec k k'); [contradiction | exact IH].
Qed.

Lemma get_set_other {V} (k k0 : Z) (v : V) (d : dict Z V) :
  k0 <> k -> get Z.eqb k0 (set Z.eqb k v d) = get Z.eqb k0 d.
Proof.
  intros Hne. induction d as [|[k' v'] d IH]; simpl.
  - destruct (Z.eqb_spec k0 k); [contradiction | reflexivity].
  - destruct (Z.eqb_spec k k') as [E|E]; simpl.
    + subst k'. destruct (Z.eqb_spec k0 k); [contradiction | reflexivity].
    + destruct (Z.eqb_spec k0 k'); [reflexivity | exact IH].
Qed.

Lemma inverse_snoc (items : dict string Z) (name : string) (value : Z) :
  inverse (items ++ [(name, value)]) = set Z.eqb value name (inverse items).
Proof. unfold inverse. now rewrite fold_left_app. Qed.

(** Looking up a value finds the last label that carries it. *)
Lemma get_inverse_snoc (items : dict string Z) (name : string) (value v : Z) :
  get Z.eqb v (inverse (items ++ [(name, value)])) =
  if (v =? value)%Z then Some name else get Z.eqb v (inverse items).
Proof.
  rewrite inverse_snoc. destruct (Z.eqb_spec v value) as [->|Hne].
  - apply get_set_same.
  - now apply get_set_other.
Qed.

Lemma get_inverse_In (items : dict string Z) (v : Z) (name : string) :
  get Z.eqb v (inverse items) = Some name -> In (name, v) items.
Proof.
  induction items as [|[n0 v0] items IH] using rev_ind; [discriminate|].
  rewrite get_inverse_snoc. destruct (Z.eqb_spec v v0) as [->|Hne].
  - intros E. inversion E. subst. apply in_or_app. right. now left.
  - intros E. apply in_or_app. left. auto.
Qed.

Lemma get_inverse_None (items : dict string Z) (v : Z) :
  get Z.eqb v (inverse items) = None <-> ~ In v (map snd items).
Proof.
  induction items as [|[n0 v0] items IH] using rev_ind.
  - simpl. tauto.
  - rewrite get_inverse_snoc, map_app, in_app_iff. simpl.
    destruct (Z.eqb_spec v v0) as [->|Hne].
    + split; [discriminate|]. intros Hn. exfalso. apply Hn. auto.
    + rewrite IH. split.
      * intros Hn [H|[H|[]]]; [auto | congruence].
      * intros Hn H. apply Hn. now left.
Qed.


Lemma In_get_labels (items : dict string Z) (name : string) (v : Z) :
  NoDup (map fst items) -> In (name, v) items ->
  get String.eqb name items = Some v.
Proof.
  induction items as [|[n0 v0] items IH]; simpl; [tauto|].
  intros Hnd [E|Hin].
  - inversion E. subst. now rewrite String.eqb_refl.
  - inversion Hnd as [|? ? Hnotin Hnd']. subst.
    destruct (String.eqb_spec name n0) as [->|Hne].
    + exfalso. apply Hnotin. change n0 with (fst (n0, v)). now apply in_map.
    + auto.
Qed.


End EnumFacts.

(** X1.  For an [Enum] built from a dict of labels: [enum[value]] fails
    (the [KeyError]) exactly for the values that no label carries, and a
    label it yields leads back to the value, [enum.label = value]. *)
Theorem X1_enum_value_label_value :
  forall (labels : Enum.dict string Z),
    NoDup (map fst labels) ->
    let e := Enum.__init__ labels in
    forall value : Z,
      (Enum.__getitem__ e value = None <-> ~ In value (map snd labels)) /\
      (forall name,
         Enum.__getitem__ e value = Some name ->
         Enum.__getattr__ e name = Some value).
Proof.
  intros labels Hnd e value. split.
  - apply EnumFacts.get_inverse_None.
  - intros name Hget. apply EnumFacts.In_get_labels; [assumption|].
    now apply EnumFacts.get_inverse_In.
Qed.

(** With part of the [MachineState] table of the binding. *)
Lemma X1_enum_value_label_value_witness :
  let labels := [("PoweredOff"%string, 1%Z); ("Saved"%string, 2%Z);
                 ("Running"%string, 5%Z); ("Paused"%string, 6%Z)] in
  NoDup (map fst labels) /\
  (Enum.__getitem__ (Enum.__init__ labels) 7%Z = None <->
   ~ In 7%Z (map snd labels)) /\
  Enum.__getattr__ (Enum.__init__ labels) "Paused" = Some 6%Z.
Proof.
  intros labels.
  assert (Hnd : NoDup (map fst labels)).
  { repeat constructor; simpl; intuition discriminate. }
  split; [exact Hnd|].
  destruct (X1_enum_value_label_value labels Hnd 7%Z) as [Hnone _].
  destruct (X1_enum_value_label_value labels Hnd 6%Z) as [_ Hback].
  split; [exact Hnone | exact (Hback "Paused"%string eq_refl)].
Defined.



(** ** How many calls a method makes *)

Lemma count_app (f : ApiCall -> bool) (t1 t2 : list ApiCall) :
  count f (t1 ++ t2) = count f t1 + count f t2.
Proof. unfold count. now rewrite filter_app, length_app. Qed.

Lemma added_app (before tr : list ApiCall) : added before (before ++ tr) = tr.
Proof.
  unfold added. induction before as [|c before IH]; simpl; auto.
Qed.

Section Budget_facts.

Context {W H S : Type} {api : VBoxApi W H S}.

Lemma spends_extends {A} f n (m : M (St W) A) : spends f n m -> extends m.
Proof. intros Hm s. destruct (Hm s) as [tr [Htr _]]. now exists tr. Qed.

Lemma spends_weaken {A} f n n' (m : M (St W) A) :
  n <= n' -> spends f n m -> spends f n' m.
Proof.
  intros Hle Hm s. destruct (Hm s) as [tr [Htr Hc]]. exists tr.
  split; [assumption | lia].
Qed.

Lemma spends_ret {A} f n (a : A) : spends f n (ret (S := St W) a).
Proof.
  intros s. exists []. simpl. rewrite app_nil_r. split; [reflexivity | apply Nat.le_0_l].
Qed.

Lemma spends_raise {A} f n (e : exn) :
  spends f n (raise (S := St W) (A := A) e).
Proof.
  intros s. exists []. simpl. rewrite app_nil_r. split; [reflexivity | apply Nat.le_0_l].
Qed.

Lemma spends_bind {A B} f a b n (m : M (St W) A) (k : A -> M (St W) B) :
  spends f a m -> (forall x, spends f b (k x)) -> a + b <= n ->
  spends f n (bind m k).
Proof.
  intros Hm Hk Hle s. destruct (Hm s) as [t1 [H1 C1]]. unfold bind.
  destruct (m s) as [[x|e] s1]; simpl in *.
  - destruct (Hk x s1) as [t2 [H2 C2]]. exists (t1 ++ t2). split.
    + now rewrite H2, H1, app_assoc.
    + rewrite count_app. lia.
  - exists t1. split; [assumption | lia].
Qed.

Lemma spends_try_except {A} f a b n (body : M (St W) A) handler :
  spends f a body -> (forall e, spends f b (handler e)) -> a + b <= n ->
  spends f n (try_except body handler).
Proof.
  intros Hb Hh Hle s. destruct (Hb s) as [t1 [H1 C1]]. unfold try_except.
  destruct (body s) as [[x|e] s1]; simpl in *.
  - exists t1. split; [assumption | lia].
  - destruct (Hh e s1) as [t2 [H2 C2]]. exists (t1 ++ t2). split.
    + now rewrite H2, H1, app_assoc.
    + rewrite count_app. lia.
Qed.

Lemma spends_with_stmt {E A} f a b c n (enter : M (St W) E)
    (exit : M (St W) unit) (body : E -> M (St W) A) :
  spends f a enter -> spends f c exit -> (forall v, spends f b (body v)) ->
  a + b + c <= n ->
  spends f n (with_stmt enter exit body).
Proof.
  intros He Hx Hb Hle s. destruct (He s) as [t1 [H1 C1]]. unfold with_stmt.
  destruct (enter s) as [[v|e] s1]; simpl in *.
  - destruct (Hb v s1) as [t2 [H2 C2]]. destruct (body v s1) as [r s2].
    destruct (Hx s2) as [t3 [H3 C3]]. simpl in *.
    exists (t1 ++ t2 ++ t3).
    destruct (exit s2) as [[u|e'] s3]; simpl in *;
      (split; [now rewrite H3, H2, H1, <- !app_assoc
              | rewrite !count_app; lia]).
  - exists t1. split; [assumption | lia].
Qed.

Lemma spends_env_call {A} f n (ev : outcome A -> ApiCall)
    (g : W -> outcome A * W) :
  (forall r, count f [ev r] <= n) -> spends f n (in_env (env_call ev g)).
Proof.
  intros Hc s. unfold in_env, lift, env_call.
  destruct (g (world (env s))) as [r w]. simpl. exists [ev r]. auto.
Qed.

Lemma spends_logging f n (l : level) (msg : string) :
  spends f n (logging (W := W) l msg).
Proof.
  intros s. exists []. simpl. rewrite app_nil_r. split; [reflexivity | apply Nat.le_0_l].
Qed.

Lemma spends_time_sleep f n :
  count f [Sleep] <= n -> spends f n time_sleep.
Proof. intros Hc s. now exists [Sleep]. Qed.

Lemma spends_get_VBM f n : spends f n (get_VBM (W := W)).
Proof.
  intros s. exists []. unfold get_VBM.
  destruct (VBM (self s)); simpl; rewrite app_nil_r;
    (split; [reflexivity | apply Nat.le_0_l]).
Qed.

Lemma spends_guard f n (m : M RecursionGuard.t unit) :
  spends f n (lift (guard_of (W := W)) set_guard m).
Proof.
  intros s. exists []. unfold lift. destruct (m (guard_of s)).
  simpl. rewrite app_nil_r. split; [reflexivity | apply Nat.le_0_l].
Qed.

Ltac unfold_calls :=
  unfold with_VBSession, VBSession__init__, VBSession__enter__,
    VBSession__exit__, with_recursion_guard, resolve, _machines,
    Machine__init__;
  unfold get_name, get_state, do_lockMachine, get_session_machine,
    do_unlockMachine, do_resume, do_PowerButton, do_saveState.

(** Proves a budget by following the method: a step that takes nothing
    from the budget leaves it whole for what comes after, a step that
    takes one leaves one less. *)
Ltac spends_auto :=
  unfold_calls;
  repeat first
    [ progress intros
    | assumption
    | match goal with
      | |- spends _ _ (shutdown_loop _ _ _) => fail 2
      | |- spends _ _ (save_loop _ _) => fail 2
      | |- spends _ _ (machines_loop _ _ _) => fail 2
      | |- spends _ _ (ret _) => apply spends_ret
      | |- spends _ _ (raise _) => apply spends_raise
      | |- spends _ _ (in_env (env_call _ _)) =>
          apply spends_env_call; intros; unfold count; simpl; lia
      | |- spends _ _ (logging _ _) => apply spends_logging
      | |- spends _ _ time_sleep =>
          apply spends_time_sleep; unfold count; simpl; lia
      | |- spends _ _ get_VBM => apply spends_get_VBM
      | |- spends _ _ (lift guard_of set_guard _) => apply spends_guard
      | |- spends _ ?n (bind _ _) =>
          first
            [ apply spends_bind with (a := 0) (b := n);
              [solve [spends_auto] | | lia]
            | match n with
              | Datatypes.S ?n' =>
                  apply spends_bind with (a := 1) (b := n');
                  [solve [spends_auto] | | lia]
              end ]
      | |- spends _ ?n (try_except _ _) =>
          apply spends_try_except with (a := n) (b := 0); [ | | lia]
      | |- spends _ ?n (with_stmt _ _ _) =>
          apply spends_with_stmt with (a := 0) (b := n) (c := 0);
          [ | | | lia]
      | |- spends _ _ (if ?b then _ else _) => destruct b
      | |- spends _ _ (match ?x with _ => _ end) => destruct x
      | |- spends _ _ (let (_, _) := ?x in _) => destruct x
      end ].

(** The loop of [shutdown_machine] sleeps at most once a turn. *)
Lemma shutdown_loop_sleeps (n : nat) (sess : S) (m : H) :
  spends is_sleep n (shutdown_loop n sess m).
Proof.
  induction n as [|n IH]; [apply spends_ret|].
  rewrite shutdown_loop_S. spends_auto.
  all: try (apply spends_weaken with (n := n); [lia | exact IH]).
Qed.

(** ... and issues at most one command a turn. *)
Lemma shutdown_loop_commands (n : nat) (sess : S) (m : H) :
  spends is_acpi n (shutdown_loop n sess m).
Proof.
  induction n as [|n IH]; [apply spends_ret|].
  rewrite shutdown_loop_S. spends_auto.
  all: try (apply spends_weaken with (n := n); [lia | exact IH]).
Qed.

Lemma shutdown_loop_no_save (n : nat) (sess : S) (m : H) :
  spends is_save 0 (shutdown_loop n sess m).
Proof.
  induction n as [|n IH]; [apply spends_ret|].
  rewrite shutdown_loop_S. spends_auto.
Qed.

Lemma save_loop_S (n : nat) (machine : H) :
  save_loop (Datatypes.S n) machine =
  (_ <- get_name machine;;
   _ <- get_state machine;;
   logging INFO "Machine `%s` is in state: %s";;
   st <- get_state machine;;
   if is_off st then ret (VBool true)
   else
     time_sleep;;
     save_loop n machine)%py.
Proof. reflexivity. Qed.

Lemma save_loop_O (machine : H) :
  save_loop 0 machine =
  (_ <- get_name machine;;
   logging ERROR "Failed to save `%s`: Took too much time to save !";;
   ret VNone)%py.
Proof. reflexivity. Qed.

Lemma save_loop_sleeps (n : nat) (m : H) : spends is_sleep n (save_loop n m).
Proof.
  induction n as [|n IH]; [rewrite save_loop_O; spends_auto|].
  rewrite save_loop_S. spends_auto.
Qed.

(** The polling loop only reads. *)
Lemma save_loop_only_reads (n : nat) (m : H) :
  spends (fun c => is_not_read c && negb (is_sleep c)) 0 (save_loop n m).
Proof.
  induction n as [|n IH]; [rewrite save_loop_O; spends_auto|].
  rewrite save_loop_S. spends_auto.
Qed.

Lemma save_loop_no_save (n : nat) (m : H) : spends is_save 0 (save_loop n m).
Proof.
  induction n as [|n IH]; [rewrite save_loop_O; spends_auto|].
  rewrite save_loop_S. spends_auto.
Qed.

Lemma save_loop_no_acpi (n : nat) (m : H) : spends is_acpi 0 (save_loop n m).
Proof.
  induction n as [|n IH]; [rewrite save_loop_O; spends_auto|].
  rewrite save_loop_S. spends_auto.
Qed.

Lemma shutdown_machine_sleeps (machine_surrogate : Machine) :
  spends is_sleep 20 (shutdown_machine machine_surrogate).
Proof.
  unfold shutdown_machine. spends_auto. apply shutdown_loop_sleeps.
Qed.

Lemma shutdown_machine_commands (machine_surrogate : Machine) :
  spends is_acpi 20 (shutdown_machine machine_surrogate).
Proof.
  unfold shutdown_machine. spends_auto. apply shutdown_loop_commands.
Qed.

Lemma shutdown_machine_no_save (machine_surrogate : Machine) :
  spends is_save 0 (shutdown_machine machine_surrogate).
Proof.
  unfold shutdown_machine. spends_auto. apply shutdown_loop_no_save.
Qed.

Lemma save_machine_sleeps (machine_surrogate : Machine) :
  spends is_sleep 20 (save_machine machine_surrogate).
Proof.
  unfold save_machine. spends_auto. apply save_loop_sleeps.
Qed.

Lemma save_machine_saves_once (machine_surrogate : Machine) :
  spends is_save 1 (save_machine machine_surrogate).
Proof.
  unfold save_machine. spends_auto. apply save_loop_no_save.
Qed.

Lemma save_machine_no_acpi (machine_surrogate : Machine) :
  spends is_acpi 0 (save_machine machine_surrogate).
Proof.
  unfold save_machine. spends_auto. apply save_loop_no_acpi.
Qed.

(** What a budget says about the calls added to the record. *)
Lemma spends_added {A} f n (m : M (St W) A) (s : St W) :
  spends f n m ->
  count f (added (api_calls (env s)) (api_calls (env (snd (m s))))) <= n.
Proof.
  intros Hm. destruct (Hm s) as [tr [Htr Hc]]. now rewrite Htr, added_app.
Qed.

Lemma extends_added {A} (m : M (St W) A) (s : St W) :
  extends m ->
  api_calls (env (snd (m s))) =
  api_calls (env s) ++ added (api_calls (env s)) (api_calls (env (snd (m s)))).
Proof.
  intros Hm. destruct (Hm s) as [tr Htr]. now rewrite Htr, added_app.
Qed.

Lemma machines_loop_only_reads (ms : list H) :
  forall i res, spends is_not_read 0 (machines_loop ms i res).
Proof.
  induction ms as [|m ms IH]; intros i res.
  - apply spends_ret.
  - rewrite machines_loop_cons. spends_auto. apply IH.
Qed.

Lemma machines_loop_no_enumeration (ms : list H) :
  forall i res, spends is_enumeration 0 (machines_loop ms i res).
Proof.
  induction ms as [|m ms IH]; intros i res.
  - apply spends_ret.
  - rewrite machines_loop_cons. spends_auto. apply IH.
Qed.

Lemma machines_only_reads : spends is_not_read 0 machines.
Proof. unfold machines. spends_auto. apply machines_loop_only_reads. Qed.

Lemma machines_enumerates_once : spends is_enumeration 1 machines.
Proof.
  unfold machines. unfold _machines.
  apply spends_bind with (a := 1) (b := 0); [| |lia].
  - spends_auto.
  - intros ms. apply machines_loop_no_enumeration.
Qed.

Lemma machines_running_only_reads : spends is_not_read 0 machines_running.
Proof.
  unfold machines_running.
  apply spends_bind with (a := 0) (b := 0); [apply machines_only_reads| |lia].
  intros ms. apply spends_ret.
Qed.

Lemma machines_running_enumerates_once :
  spends is_enumeration 1 machines_running.
Proof.
  unfold machines_running.
  apply spends_bind with (a := 1) (b := 0);
    [apply machines_enumerates_once| |lia].
  intros ms. apply spends_ret.
Qed.

End Budget_facts.

(** X3.  Whatever the binding does, one call of [shutdown_machine] sleeps
    at most 20 times, issues at most 20 resume or power-button commands,
    and never issues a save-state command. *)
Theorem X3_shutdown_machine_bounded :
  forall (W H S : Type) (api : VBoxApi W H S)
         (machine_surrogate : Machine) (s : St W),
    let after := api_calls (env (snd (shutdown_machine machine_surrogate s))) in
    let tr := added (api_calls (env s)) after in
    after = api_calls (env s) ++ tr /\
    count is_sleep tr <= 20 /\
    count is_acpi tr <= 20 /\
    count is_save tr = 0.
Proof.
  intros W H S api m s after tr. unfold tr, after. split; [|split; [|split]].
  - apply extends_added.
    apply (spends_extends (shutdown_machine_sleeps (api := api) m)).
  - apply spends_added, shutdown_machine_sleeps.
  - apply spends_added, shutdown_machine_commands.
  - apply Nat.le_0_r, spends_added, shutdown_machine_no_save.
Qed.

(** X4.  Whatever the binding does, one call of [save_machine] issues the
    save-state command at most once, sleeps at most 20 times, and never
    issues a resume or a power-button command. *)
Theorem X4_save_machine_bounded :
  forall (W H S : Type) (api : VBoxApi W H S)
         (machine_surrogate : Machine) (s : St W),
    let after := api_calls (env (snd (save_machine machine_surrogate s))) in
    let tr := added (api_calls (env s)) after in
    after = api_calls (env s) ++ tr /\
    count is_save tr <= 1 /\
    count is_sleep tr <= 20 /\
    count is_acpi tr = 0.
Proof.
  intros W H S api m s after tr. unfold tr, after. split; [|split; [|split]].
  - apply extends_added.
    apply (spends_extends (save_machine_sleeps (api := api) m)).
  - apply spends_added, save_machine_saves_once.
  - apply spends_added, save_machine_sleeps.
  - apply Nat.le_0_r, spends_added, save_machine_no_acpi.
Qed.



(** ** The guard between calls *)

Section Self_facts.

Context {W H S : Type} {api : VBoxApi W H S}.

Lemma keeps_ret {A} (a : A) : keeps_self (ret (S := St W) a).
Proof. intros s. reflexivity. Qed.

Lemma keeps_raise {A} (e : exn) : keeps_self (raise (S := St W) (A := A) e).
Proof. intros s. reflexivity. Qed.

Lemma keeps_bind {A B} (m : M (St W) A) (k : A -> M (St W) B) :
  keeps_self m -> (forall a, keeps_self (k a)) -> keeps_self (bind m k).
Proof.
  intros Hm Hk s. specialize (Hm s). unfold bind.
  destruct (m s) as [[a|e] s1]; simpl in *; [|assumption].
  now rewrite Hk.
Qed.

Lemma keeps_try_except {A} (body : M (St W) A) handler :
  keeps_self body -> (forall e, keeps_self (handler e)) ->
  keeps_self (try_except body handler).
Proof.
  intros Hb Hh s. specialize (Hb s). unfold try_except.
  destruct (body s) as [[a|e] s1]; simpl in *; [assumption|].
  now rewrite Hh.
Qed.

Lemma keeps_with_stmt {E A} (enter : M (St W) E) (exit : M (St W) unit)
    (body : E -> M (St W) A) :
  keeps_self enter -> keeps_self exit -> (forall v, keeps_self (body v)) ->
  keeps_self (with_stmt enter exit body).
Proof.
  intros He Hx Hb s. specialize (He s). unfold with_stmt.
  destruct (enter s) as [[v|e] s1]; simpl in *; [|assumption].
  specialize (Hb v s1). destruct (body v s1) as [r s2].
  specialize (Hx s2). destruct (exit s2) as [[u|e'] s3]; simpl in *;
    congruence.
Qed.

Lemma keeps_in_env {A} (m : M (Env W) A) : keeps_self (in_env m).
Proof.
  intros s. unfold in_env, lift. destruct (m (env s)). reflexivity.
Qed.

Lemma keeps_get_VBM : keeps_self (get_VBM (W := W)).
Proof. intros s. unfold get_VBM. destruct (VBM (self s)); reflexivity. Qed.

Ltac keeps_auto :=
  unfold with_VBSession, VBSession__init__, VBSession__enter__,
    VBSession__exit__, resolve, _machines, Machine__init__;
  unfold get_name, get_state, do_lockMachine, get_session_machine,
    do_unlockMachine, do_resume, do_PowerButton, do_saveState, time_sleep,
    logging;
  repeat first
    [ progress intros
    | assumption
    | match goal with
      | |- keeps_self (ret _) => apply keeps_ret
      | |- keeps_self (raise _) => apply keeps_raise
      | |- keeps_self (in_env _) => apply keeps_in_env
      | |- keeps_self get_VBM => apply keeps_get_VBM
      | |- keeps_self (bind _ _) => apply keeps_bind
      | |- keeps_self (try_except _ _) => apply keeps_try_except
      | |- keeps_self (with_stmt _ _ _) => apply keeps_with_stmt
      | |- keeps_self (if ?b then _ else _) => destruct b
      | |- keeps_self (match ?x with _ => _ end) => destruct x
      | |- keeps_self (let (_, _) := ?x in _) => destruct x
      end ].

Lemma shutdown_loop_keeps (n : nat) (sess : S) (m : H) :
  keeps_self (shutdown_loop n sess m).
Proof.
  induction n as [|n IH]; [apply keeps_ret|].
  rewrite shutdown_loop_S. keeps_auto.
Qed.

Lemma save_loop_keeps (n : nat) (m : H) : keeps_self (save_loop n m).
Proof.
  induction n as [|n IH]; [rewrite save_loop_O | rewrite save_loop_S];
    keeps_auto.
Qed.

(** A guarded method whose body leaves the context object alone, entered
    with the guard at rest, leaves the guard at rest. *)
Lemma guarded_keeps {A} (body : M (St W) A) (s : St W) :
  keeps_self body -> guard_of s = 0%Z ->
  self (snd (with_recursion_guard body s)) = self s.
Proof.
  intros Hb Hg. rewrite guard_entry_runs by assumption. cbn [snd].
  pose proof (Hb (set_guard 1%Z s)) as Hs.
  destruct (snd (body (set_guard 1%Z s))) as [x e1].
  destruct s as [[g v] e]. unfold guard_of, set_guard in *. simpl in *.
  subst x g. reflexivity.
Qed.

Lemma run_guarded_call_keeps (c : guarded_call) (s : St W) :
  guard_of s = 0%Z ->
  self (snd (run_guarded_call c s)) = self s /\
  exists v, fst (run_guarded_call c s) = Ret v /\
            (v = VNone \/ v = VBool true).
Proof.
  intros Hg. destruct c as [m|m]; simpl.
  - split.
    + unfold shutdown_machine. apply guarded_keeps; [|assumption].
      keeps_auto. apply shutdown_loop_keeps.
    + destruct (shutdown_machine_returns m s Hg) as [v Hv]. exists v.
      split; [assumption|].
      destruct (shutdown_machine_traced m s) as [tr [_ Hr]].
      rewrite Hv in Hr. tauto.
  - split.
    + unfold save_machine. apply guarded_keeps; [|assumption].
      keeps_auto. apply save_loop_keeps.
    + destruct (save_machine_returns m s Hg) as [v Hv]. exists v.
      split; [assumption|].
      destruct (save_machine_traced m s) as [tr [_ Hr]].
      rewrite Hv in Hr. tauto.
Qed.

Lemma machines_loop_keeps (ms : list H) :
  forall i res, keeps_self (machines_loop ms i res).
Proof.
  induction ms as [|m ms IH]; intros i res.
  - apply keeps_ret.
  - rewrite machines_loop_cons. keeps_auto. apply IH.
Qed.

Lemma machines_keeps : keeps_self machines.
Proof. unfold machines. keeps_auto. apply machines_loop_keeps. Qed.

Lemma machines_running_keeps : keeps_self machines_running.
Proof.
  unfold machines_running. apply keeps_bind; [apply machines_keeps|].
  intros ms. apply keeps_ret.
Qed.

End Self_facts.

(** X6.  On a context whose guard is at rest, any number of
    [shutdown_machine] and [save_machine] calls made one after the other,
    whatever the binding does in each: none of them raises (so none meets
    the reentrancy fault), each returns [None] or [True], and the context
    object, its guard included, is afterwards as it was before. *)
Theorem X6_sequential_guarded_calls_never_fault :
  forall (W H S : Type) (api : VBoxApi W H S)
         (calls : list guarded_call) (s : St W),
    guard_of s = 0%Z ->
    let r := run_sequence calls s in
    length (fst r) = length calls /\
    Forall (fun o => o = Ret VNone \/ o = Ret (VBool true)) (fst r) /\
    self (snd r) = self s /\
    guard_of (snd r) = 0%Z.
Proof.
  intros W H S api calls. induction calls as [|c calls IH]; intros s Hg r.
  - repeat split; auto.
  - unfold r. simpl.
    destruct (run_guarded_call_keeps c s Hg) as [Hself [v [Hv Hval]]].
    destruct (run_guarded_call c s) as [o s1]. simpl in *.
    assert (Hg1 : guard_of s1 = 0%Z)
      by (unfold guard_of in *; now rewrite Hself).
    destruct (IH s1 Hg1) as [Hlen [Hall [Hs Hg2]]].
    destruct (run_sequence calls s1) as [rs s2]. simpl in *.
    repeat split.
    + now rewrite Hlen.
    + constructor; [|assumption]. subst o. destruct Hval; subst; auto.
    + congruence.
    + assumption.
Qed.

(** On the simulated host: shutdown, save and shutdown again. *)
Lemma X6_sequential_guarded_calls_never_fault_witness :
  let m := {| index := 0; name := "a"; state := Running |} in
  let s := Sim.fresh_st (Sim.host [Sim.vm "a" Running false] 5 true) in
  let r := run_sequence [Shutdown m; Save m; Shutdown m] s in
  guard_of s = 0%Z /\
  length (fst r) = 3 /\
  Forall (fun o => o = Ret VNone \/ o = Ret (VBool true)) (fst r) /\
  guard_of (snd r) = 0%Z.
Proof.
  intros m s r.
  destruct (@X6_sequential_guarded_calls_never_fault _ _ _ Sim.api
              [Shutdown m; Save m; Shutdown m] s eq_refl)
    as [Hlen [Hall [_ Hg]]].
  split; [reflexivity|]. split; [exact Hlen|]. split; [exact Hall | exact Hg].
Defined.

(** ** VBSession *)



(** ** More on enumeration *)

Section Enumeration_order.

Context {W H S : Type} {api : VBoxApi W H S}.

Lemma enumerates_sorted (ms : list H) (i : nat) (st st' : St W)
    (res : list Machine) :
  enumerates ms i st res st' ->
  StronglySorted (fun a b => index a < index b) res.
Proof.
  intros He. pose proof (enumerates_index He) as Hidx. revert Hidx.
  induction He as [| m ms i st mk st1 res st2 E He IH
                   | m ms i st exc st1 res st2 E He IH]; intros Hidx.
  - constructor.
  - constructor.
    + apply IH. apply (enumerates_index He).
    + rewrite (Machine__init___index _ _ _ E).
      apply Forall_forall. intros mk' Hin.
      destruct (enumerates_index He mk' Hin) as [Hle _]. lia.
  - apply IH. apply (enumerates_index He).
Qed.

Lemma enumerates_length (ms : list H) (i : nat) (st st' : St W)
    (res : list Machine) :
  enumerates ms i st res st' -> length res <= length ms.
Proof. induction 1; simpl; lia. Qed.

Lemma enumerates_bound (ms : list H) (i : nat) (st st' : St W)
    (res : list Machine) :
  enumerates ms i st res st' ->
  Forall (fun mk => index mk < i + length ms) res.
Proof.
  intros He. apply Forall_forall. intros mk Hin.
  destruct (enumerates_index He mk Hin) as [Hle [h [sa [Hn _]]]].
  assert (index mk - i < length ms) by (apply nth_error_Some; congruence).
  lia.
Qed.

End Enumeration_order.

Lemma machines_sorted {W H S : Type} {api : VBoxApi W H S}
    (s : St W) (hs : list H) (w1 : W) :
  VBM (self s) = true ->
  getArray_machines (world (env s)) = (Ret hs, w1) ->
  exists res,
    fst (machines s) = Ret res /\
    StronglySorted (fun a b => index a < index b) res.
Proof.
  intros Hv Hms.
  destruct (machines_loop_enumerates hs 0 [] (enumerated w1 s))
    as [res [st' [He Hl]]].
  exists res. split.
  - rewrite (machines_run s Hv Hms), Hl. reflexivity.
  - exact (enumerates_sorted He).
Qed.

(** X8.  When the binding hands out the raw list, the snapshots that
    [machines] returns come in strictly increasing order of [index] (so no
    two of them share an index), every index is a position of the raw
    list, and there are at most as many snapshots as raw machines. *)
Theorem X8_machines_indices_increase :
  forall (W H S : Type) (api : VBoxApi W H S)
         (s : St W) (hs : list H) (w1 : W),
    VBM (self s) = true ->
    getArray_machines (world (env s)) = (Ret hs, w1) ->
    exists res,
      fst (machines s) = Ret res /\
      StronglySorted (fun a b => index a < index b) res /\
      Forall (fun mk => index mk < length hs) res /\
      length res <= length hs.
Proof.
  intros W H S api s hs w1 Hv Hms.
  destruct (machines_loop_enumerates hs 0 [] (enumerated w1 s))
    as [res [st' [He Hl]]].
  exists res. split; [|split; [|split]].
  - rewrite (machines_run s Hv Hms), Hl. reflexivity.
  - exact (enumerates_sorted He).
  - exact (enumerates_bound He).
  - exact (enumerates_length He).
Qed.

Lemma X8_machines_indices_increase_witness :
  let w := Sim.host [Sim.vm "a" Running true; Sim.detached Running;
                     Sim.vm "c" PoweredOff true] 5 true in
  let s := Sim.fresh_st w in
  VBM (self s) = true /\
  exists res,
    fst (machines s) = Ret res /\
    StronglySorted (fun a b => index a < index b) res /\
    Forall (fun mk => index mk < 3) res /\
    length res <= 3.
Proof.
  intros w s. split; [reflexivity|].
  exact (@X8_machines_indices_increase _ _ _ Sim.api s [0; 1; 2] _
           eq_refl eq_refl).
Defined.


(** X9.  Whatever the binding does, [machines_running] only looks: it asks
    for the machine list at most once, every other call it makes reads a
    name or a state (no lock, no command, no sleep), and it leaves the
    context object, its recursion guard included, as it found it. *)
Theorem X9_machines_running_only_reads :
  forall (W H S : Type) (api : VBoxApi W H S) (s : St W),
    let after := api_calls (env (snd (machines_running s))) in
    let tr := added (api_calls (env s)) after in
    after = api_calls (env s) ++ tr /\
    count is_not_read tr = 0 /\
    count is_enumeration tr <= 1 /\
    self (snd (machines_running s)) = self s.
Proof.
  intros W H S api s after tr. unfold tr, after. split; [|split; [|split]].
  - apply extends_added.
    apply (spends_extends (machines_running_only_reads (api := api))).
  - apply Nat.le_0_r, spends_added, machines_running_only_reads.
  - apply spends_added, machines_running_enumerates_once.
  - apply machines_running_keeps.
Qed.

Lemma StronglySorted_filter {A} (R : A -> A -> Prop) (f : A -> bool)
    (l : list A) :
  StronglySorted R l -> StronglySorted R (filter f l).
Proof.
  induction 1 as [|a l Hs IH Hf]; simpl; [constructor|].
  destruct (f a); [|exact IH].
  constructor; [exact IH|].
  apply Forall_forall. intros x Hx. apply filter_In in Hx.
  rewrite Forall_forall in Hf. apply Hf, Hx.
Qed.

(** X10.  When the binding hands out the raw list, [machines_running]
    returns exactly the snapshots of [machines] whose state is not an
    off-state: none of the returned snapshots is off, every snapshot of the
    enumeration that is not off is returned, and the order of increasing
    [index] is kept. *)
Theorem X10_machines_running_are_the_running :
  forall (W H S : Type) (api : VBoxApi W H S)
         (s : St W) (hs : list H) (w1 : W),
    VBM (self s) = true ->
    getArray_machines (world (env s)) = (Ret hs, w1) ->
    exists all res,
      fst (machines s) = Ret all /\
      fst (machines_running s) = Ret res /\
      Forall (fun mk => is_off (state mk) = false) res /\
      (forall mk, In mk res <-> In mk all /\ is_off (state mk) = false) /\
      StronglySorted (fun a b => index a < index b) res /\
      snd (machines_running s) = snd (machines s).
Proof.
  intros W H S api s hs w1 Hv Hms.
  destruct (@machines_sorted W H S api s hs w1 Hv Hms) as [all [Ha Hs]].
  exists all, (filter (fun m => negb (is_off (state m))) all).
  unfold machines_running, bind.
  destruct (machines s) as [[x|e] s1] eqn:E; simpl in Ha; [|discriminate].
  injection Ha as ->. simpl.
  split; [reflexivity|]. split; [reflexivity|].
  split; [|split; [|split; [|reflexivity]]].
  - apply Forall_forall. intros mk Hin. apply filter_In in Hin.
    destruct Hin as [_ Hn]. now apply negb_true_iff.
  - intros mk. rewrite filter_In, negb_true_iff. reflexivity.
  - apply StronglySorted_filter, Hs.
Qed.

Lemma X10_machines_running_are_the_running_witness :
  let w := Sim.host [Sim.vm "a" Running true; Sim.detached Running;
                     Sim.vm "c" PoweredOff true; Sim.vm "d" Paused false]
             5 true in
  let s := Sim.fresh_st w in
  VBM (self s) = true /\
  exists all res,
    fst (machines s) = Ret all /\
    fst (machines_running s) = Ret res /\
    Forall (fun mk => is_off (state mk) = false) res /\
    (forall mk, In mk res <-> In mk all /\ is_off (state mk) = false) /\
    StronglySorted (fun a b => index a < index b) res /\
    snd (machines_running s) = snd (machines s).
Proof.
  intros w s. split; [reflexivity|].
  exact (@X10_machines_running_are_the_running _ _ _ Sim.api s [0; 1; 2; 3] _
           eq_refl eq_refl).
Defined.


(** ** More on the controller *)

Section Call_facts.

Context {W H S : Type} {api : VBoxApi W H S}.

Ltac split_all :=
  repeat match goal with
         | |- context [VBM ?x] => is_var x; destruct x; simpl
         | |- context [negb ?x] => is_var x; destruct x; simpl
         | |- context [connect ?w] =>
             destruct (connect w) as [[[]|[]] ?]; simpl
         | |- context [deinit ?w] =>
             destruct (deinit w) as [[[]|?] ?]; simpl
         | |- context [match ?x with _ => _ end] => is_var x; destruct x; simpl
         | |- context [if ?x then _ else _] => is_var x; destruct x; simpl
         | |- context [?f {| self := ?a; env := ?b |}] =>
             is_var f;
             destruct (f {| self := a; env := b |}) as [[?|?] ?]; simpl
         end.

(** Submitting a call touches neither the hold count nor the timer and
    cannot fail in the calling thread. *)
Lemma _call_async_frame (f : M (St W) Value) (p : Proc (W := W)) :
  fst (_call_async f p) = Ret tt /\
  _acquire_cnt (vbcc (snd (_call_async f p))) = _acquire_cnt (vbcc p) /\
  _stop_timer (vbcc (snd (_call_async f p))) = _stop_timer (vbcc p).
Proof.
  destruct p as [c e]. destruct c. ctl_unfold.
  split_all; repeat split.
Qed.

Lemma _timer_start_effect (p : Proc (W := W)) :
  fst (_timer_start p) = Ret tt /\
  _acquire_cnt (vbcc (snd (_timer_start p))) = _acquire_cnt (vbcc p) /\
  timer_armed (snd (_timer_start p)) =
    (timer_armed p || negb (0 <? _acquire_cnt (vbcc p))%Z).
Proof.
  destruct p as [c e]. destruct c. ctl_unfold.
  destruct (0 <? _acquire_cnt0)%Z; simpl.
  - rewrite orb_false_r. repeat split.
  - destruct _stop_timer0 as [[|]|]; repeat split.
Qed.

Lemma call_frame (f : M (St W) Value) (p : Proc (W := W)) :
  (forall exc, fst (call f p) <> Raised exc) /\
  _acquire_cnt (vbcc (snd (call f p))) = _acquire_cnt (vbcc p) /\
  timer_armed (snd (call f p)) =
    match fst (call f p) with
    | Returned _ => negb (0 <? _acquire_cnt (vbcc p))%Z
    | _ => false
    end.
Proof.
  unfold call, bind, _timer_stop, on_vbcc.
  match goal with
  | |- context [_start ?q] =>
      destruct (_start_frame q) as [Hr [Hc Ht]];
      destruct (_start q) as [r q']
  end.
  simpl in Hr. subst r.
  assert (Ht0 : timer_armed q' = false).
  { unfold timer_armed. change (snd (Ret tt, q')) with q' in Ht.
    rewrite Ht. destruct p as [c e]. destruct c. simpl.
    destruct _stop_timer0 as [[|]|]; reflexivity. }
  assert (Hc0 : _acquire_cnt (vbcc q') = _acquire_cnt (vbcc p)).
  { change (snd (Ret tt, q')) with q' in Hc.
    rewrite Hc. destruct p as [c e]. destruct c. simpl.
    destruct _stop_timer0 as [[|]|]; reflexivity. }
  clear Hc Ht. simpl.
  destruct (_call_async_frame f q') as [Hr' [Hc' Ht']].
  destruct (_call_async f q') as [r' q''].
  simpl in Hr', Hc', Ht'. subst r'.
  assert (Hd : timer_armed q'' = false).
  { unfold timer_armed in *. rewrite Ht'. exact Ht0. }
  assert (Hcnt : _acquire_cnt (vbcc q'') = _acquire_cnt (vbcc p)).
  { rewrite Hc', Hc0. reflexivity. }
  destruct (_ev_result (vbcc q'')).
  - destruct (_timer_start_effect q'') as [Hs [Hsc Hst]].
    destruct (_timer_start q'') as [r3 q3]. simpl in Hs, Hsc, Hst. subst r3.
    simpl. rewrite Hsc, Hst, Hd, Hcnt. repeat split. discriminate.
  - simpl. repeat split; [discriminate|assumption|assumption].
Qed.

End Call_facts.

(** X11.  [call] never raises into the calling thread: whatever the
    controller's state, the binding and the context method do, it either
    returns a value or waits forever.  It leaves the hold count as it was;
    when it returns, the idle timer is armed exactly if nothing is held,
    and when it waits forever no timer is left armed. *)
Theorem X11_call_never_raises :
  forall (W H S : Type) (api : VBoxApi W H S)
         (context_method : M (St W) Value) (p : Proc),
    let r := call context_method p in
    (forall exc, fst r <> Raised exc) /\
    _acquire_cnt (vbcc (snd r)) = _acquire_cnt (vbcc p) /\
    timer_armed (snd r) =
      match fst r with
      | Returned _ => negb (0 <? _acquire_cnt (vbcc p))%Z
      | _ => false
      end.
Proof.
  intros W H S api f p r. unfold r. apply call_frame.
Qed.


Section Stop_facts.

Context {W H S : Type} {api : VBoxApi W H S}.

Ltac split_all :=
  repeat match goal with
         | |- context [VBM ?x] => is_var x; destruct x; simpl
         | |- context [negb ?x] => is_var x; destruct x; simpl
         | |- context [connect ?w] =>
             destruct (connect w) as [[[]|[]] ?]; simpl
         | |- context [deinit ?w] =>
             destruct (deinit w) as [[[]|?] ?]; simpl
         | |- context [match ?x with _ => _ end] => is_var x; destruct x; simpl
         | |- context [if ?x then _ else _] => is_var x; destruct x; simpl
         | |- context [?f {| self := ?a; env := ?b |}] =>
             is_var f;
             destruct (f {| self := a; env := b |}) as [[?|?] ?]; simpl
         end.

Lemma added_same (l : list ApiCall) : added l l = [].
Proof.
  rewrite <- (app_nil_r l) at 2. apply added_app.
Qed.

(** [stop] cannot fail in the calling thread; it touches neither the hold
    count nor the timer, and the worker, if it was alive, has ended. *)
Lemma stop_effect (p : Proc (W := W)) :
  fst (stop p) = Ret tt /\
  _enabled (vbcc (snd (stop p))) = false /\
  _thread (vbcc (snd (stop p))) <> Some ThreadAlive /\
  _ev_started (vbcc (snd (stop p))) = false /\
  _acquire_cnt (vbcc (snd (stop p))) = _acquire_cnt (vbcc p) /\
  _stop_timer (vbcc (snd (stop p))) = _stop_timer (vbcc p) /\
  _call_method (vbcc (snd (stop p))) =
    match _thread (vbcc p) with
    | Some ThreadAlive => None
    | _ => _call_method (vbcc p)
    end /\
  exists tr,
    api_calls (outside (snd (stop p))) = api_calls (outside p) ++ tr /\
    (tr = [] \/ tr = [Deinit]).
Proof.
  destruct p as [c e]. destruct c. ctl_unfold.
  split_all; repeat split; try discriminate;
    first [ exists []; rewrite app_nil_r; split; [reflexivity|now left]
          | exists [Deinit]; split; [reflexivity|now right] ].
Qed.

(** On a controller that is already stopped, [stop] changes nothing. *)
Lemma stop_stopped (p : Proc (W := W)) :
  _enabled (vbcc p) = false ->
  _thread (vbcc p) <> Some ThreadAlive ->
  _ev_started (vbcc p) = false ->
  stop p = (Ret tt, p).
Proof.
  destruct p as [c e]. destruct c. simpl. intros -> Ht ->. ctl_unfold.
  destruct _thread0 as [[|]|]; simpl; [congruence|reflexivity|reflexivity].
Qed.

End Stop_facts.

(** X12.  [stop] never fails in the calling thread, whatever the state of
    the controller and whatever the binding does.  Afterwards the
    controller is disabled, its worker is not alive and [_ev_started] is
    clear; the hold count and the timer are untouched; the only call it can
    cause on the binding is one [deinit]; and a second [stop] changes
    nothing. *)
Theorem X12_stop_never_faults :
  forall (W H S : Type) (api : VBoxApi W H S) (p : Proc),
    let q := snd (stop p) in
    let tr := added (api_calls (outside p)) (api_calls (outside q)) in
    fst (stop p) = Ret tt /\
    _enabled (vbcc q) = false /\
    _thread (vbcc q) <> Some ThreadAlive /\
    _ev_started (vbcc q) = false /\
    _acquire_cnt (vbcc q) = _acquire_cnt (vbcc p) /\
    _stop_timer (vbcc q) = _stop_timer (vbcc p) /\
    api_calls (outside q) = api_calls (outside p) ++ tr /\
    (tr = [] \/ tr = [Deinit]) /\
    stop q = (Ret tt, q).
Proof.
  intros W H S api p q tr. unfold tr, q. clear tr q.
  destruct (stop_effect p) as [Hr [He [Ht [Hs [Hc [Hti [_ [tr [Htr Hcases]]]]]]]]].
  repeat (split; [assumption|]).
  rewrite Htr, added_app.
  split; [reflexivity|]. split; [assumption|].
  apply stop_stopped; assumption.
Qed.


Section Settled_facts.

Context {W H S : Type} {api : VBoxApi W H S}.

Ltac split_all :=
  repeat match goal with
         | |- context [VBM ?x] => is_var x; destruct x; simpl
         | |- context [negb ?x] => is_var x; destruct x; simpl
         | |- context [connect ?w] =>
             destruct (connect w) as [[[]|[]] ?]; simpl
         | |- context [deinit ?w] =>
             destruct (deinit w) as [[[]|?] ?]; simpl
         | |- context [match ?x with _ => _ end] => is_var x; destruct x; simpl
         | |- context [if ?x then _ else _] => is_var x; destruct x; simpl
         | |- context [?f {| self := ?a; env := ?b |}] =>
             is_var f;
             destruct (f {| self := a; env := b |}) as [[?|?] ?]; simpl
         end.


Ltac steady_open :=
  let c := fresh "c" in
  let e := fresh "e" in
  intros [c e]; destruct c; unfold steady; simpl;
  intros [Hm [Ha Hd]]; subst.

Lemma steady_timer (p : Proc (W := W)) (t : option Timer) :
  steady p ->
  steady {| vbcc := set_stop_timer t (vbcc p); outside := outside p |}.
Proof. revert p. steady_open. simpl. split; [reflexivity | split; assumption]. Qed.














Lemma settled_new (e : Env W) : settled (new_process e).
Proof.
  split; [discriminate|].
  split; [reflexivity|]. split; [discriminate|]. intros _. discriminate.
Qed.

End Settled_facts.





(** X14.  When the idle timer expires on a live worker and the binding
    lets go, the context is released with one [deinit] and dropped, the
    worker ends and the controller is disabled.  The next [call], if the
    binding connects, starts a new worker on a new context whose recursion
    guard is clear, whatever state the guard of the old context was in,
    runs the method there and hands back its result ([None] if it
    raised). *)
Theorem X14_idle_teardown_then_fresh_context :
  forall (W H S : Type) (api : VBoxApi W H S) (p : Proc)
         (x : VBContext) (w1 w2 : W),
    _thread (vbcc p) = Some ThreadAlive ->
    ctx (vbcc p) = Some x ->
    VBM x = true ->
    deinit (world (outside p)) = (Ret tt, w1) ->
    connect w1 = (Ret tt, w2) ->
    let q := snd (on_timer p) in
    fst (on_timer p) = Ret tt /\
    ctx (vbcc q) = None /\
    _thread (vbcc q) = Some ThreadDead /\
    _enabled (vbcc q) = false /\
    timer_armed q = false /\
    outside q = released w1 (outside p) /\
    forall context_method : M (St W) Value,
      let ran := context_method
                   {| self := new_context;
                      env := connected w2 (released w1 (outside p)) |} in
      exists p',
        call context_method q =
          (Returned (handed_back VNone (fst ran)), p') /\
        _thread (vbcc p') = Some ThreadAlive /\
        ctx (vbcc p') = Some (self (snd ran)).
Proof.
  intros W H S api p x w1 w2 Ht Hx Hv Hd Hc q. unfold q. clear q.
  destruct p as [c e]. destruct c. destruct x as [g v]. simpl in *. subst.
  ctl_unfold.
  destruct _stop_timer0 as [[|]|]; simpl; rewrite Hd; simpl;
    (repeat (split; [reflexivity|]));
    intros f; rewrite Hc; simpl;
    unfold new_context, connected, released; simpl;
    destruct (f _) as [[r|exc] st]; simpl;
    destruct (0 <? _acquire_cnt0)%Z; simpl; eexists; repeat split.
Qed.

Lemma X14_idle_teardown_then_fresh_context_witness :
  let w := Sim.host [Sim.vm "a" Running true] 5 true in
  let f : M (St Sim.World) Value :=
    (ms <- machines_running;; ret (VMachines ms))%py in
  let p := snd (call f (new_process (Sim.fresh_env w))) in
  let q := snd (on_timer p) in
  _thread (vbcc p) = Some ThreadAlive /\
  ctx (vbcc q) = None /\
  exists p',
    call f q =
      (Returned (handed_back VNone
         (fst (f {| self := new_context;
                    env := connected (world (outside p))
                             (released (world (outside p)) (outside p)) |}))),
       p').
Proof.
  intros w f p q.
  assert (Ht : _thread (vbcc p) = Some ThreadAlive) by (vm_compute; reflexivity).
  assert (Hx : ctx (vbcc p) = Some new_context) by (vm_compute; reflexivity).
  assert (Hd : deinit (world (outside p)) = (Ret tt, world (outside p)))
    by reflexivity.
  assert (Hc : connect (world (outside p)) = (Ret tt, world (outside p)))
    by (vm_compute; reflexivity).
  destruct (@X14_idle_teardown_then_fresh_context _ _ _ Sim.api p new_context
              _ _ Ht Hx eq_refl Hd Hc) as [_ [Hq [_ [_ [_ [_ Hcall]]]]]].
  split; [exact Ht|]. split; [exact Hq|].
  destruct (Hcall f) as [p' [Hp' _]]. exists p'. exact Hp'.
Defined.

(** X15.  A worker that has ended while the controller is still enabled,
    as after a failed connection, is not started again by [call]: the
    call logs the error, makes no call on the binding and leaves the
    world, the thread and the context as they were; it waits forever
    unless an earlier call left [_ev_result] set, in which case it hands
    back that call's result. *)
Theorem X15_call_does_not_restart_dead_worker :
  forall (W H S : Type) (api : VBoxApi W H S) (p : Proc)
         (context_method : M (St W) Value),
    _enabled (vbcc p) = true ->
    _thread (vbcc p) <> Some ThreadAlive ->
    let r := call context_method p in
    fst r = (if _ev_result (vbcc p)
             then Returned (_call_result (vbcc p)) else Blocked) /\
    world (outside (snd r)) = world (outside p) /\
    api_calls (outside (snd r)) = api_calls (outside p) /\
    log (outside (snd r)) =
      log (outside p) ++ [(ERROR, "VBController thread is not running!"%string)] /\
    _thread (vbcc (snd r)) = _thread (vbcc p) /\
    _enabled (vbcc (snd r)) = true /\
    ctx (vbcc (snd r)) = ctx (vbcc p).
Proof.
  intros W H S api p f He Ht r. unfold r. clear r.
  destruct p as [c e]. destruct c. simpl in *. subst.
  ctl_unfold.
  destruct _thread0 as [[|]|]; [congruence| |];
    destruct _stop_timer0 as [[|]|]; simpl;
    destruct _ev_result0; simpl;
    destruct (0 <? _acquire_cnt0)%Z; simpl; repeat split.
Qed.

Lemma X15_call_does_not_restart_dead_worker_witness :
  let w := Sim.host [Sim.vm "a" Running true] 5 false in
  let f : M (St Sim.World) Value :=
    (ms <- machines_running;; ret (VMachines ms))%py in
  let p := snd (call f (new_process (Sim.fresh_env w))) in
  _enabled (vbcc p) = true /\
  _thread (vbcc p) = Some ThreadDead /\
  fst (call f p) = Blocked /\
  api_calls (outside (snd (call f p))) = api_calls (outside p).
Proof.
  intros w f p.
  assert (He : _enabled (vbcc p) = true) by (vm_compute; reflexivity).
  assert (Hd : _thread (vbcc p) = Some ThreadDead) by (vm_compute; reflexivity).
  assert (Ht : _thread (vbcc p) <> Some ThreadAlive)
    by (rewrite Hd; discriminate).
  assert (Hr : _ev_result (vbcc p) = false) by (vm_compute; reflexivity).
  destruct (@X15_call_does_not_restart_dead_worker _ _ _ Sim.api p f He Ht)
    as [Hf [_ [Ha _]]].
  split; [exact He|]. split; [exact Hd|].
  split; [|exact Ha].
  exact (eq_trans Hf (f_equal (fun b : bool =>
           if b then Returned (_call_result (vbcc p)) else Blocked) Hr)).
Defined.


(** ** The handlers of the tray window *)

Section Tray_facts.

Context {W H S : Type} {api : VBoxApi W H S}.
Context {G : Type} {gui : Tray.Win32Api G}.

(** Runs a handler symbolically in the equation [E] of its result.  Of a
    method of the controller only what it returns and what it does to the
    hold count is used. *)
Ltac tray_run E :=
  repeat first
    [ match type of E with
      | context [__enter__ ?p] =>
          let Hr := fresh "Hr" in
          let Hc := fresh "Hc" in
          let r := fresh "r" in
          let q := fresh "q" in
          destruct (enter_effect p) as [Hr [Hc _]];
          destruct (__enter__ p) as [r q]; simpl in Hr, Hc; subst r;
          simpl in E
      | context [__exit__ ?p] =>
          let Hr := fresh "Hr" in
          let Hc := fresh "Hc" in
          let r := fresh "r" in
          let q := fresh "q" in
          destruct (exit_effect p) as [Hr [Hc _]];
          destruct (__exit__ p) as [r q]; simpl in Hr, Hc; subst r;
          simpl in E
      | context [call ?f ?p] =>
          let Hn := fresh "Hn" in
          let Hc := fresh "Hc" in
          let v := fresh "v" in
          let e := fresh "e" in
          let q := fresh "q" in
          destruct (call_frame f p) as [Hn [Hc _]];
          destruct (call f p) as [[v|e|] q]; simpl in Hn, Hc;
          [ | exfalso; exact (Hn e eq_refl) | ]; simpl in E
      | context [Tray.ctx_of ?p] =>
          let x := fresh "x" in
          destruct (Tray.ctx_of p) as [x|]; simpl in E
      | context [VBM ?x] => destruct (VBM x); simpl in E
      | context [state ?m] =>
          destruct (state m) as [| | | | | |[| |]]; simpl in E
      | context [truthy ?v] => destruct (truthy v); simpl in E
      end ].

(** Closes a case of the run: the result and the state are read off [E]. *)
Ltac tray_done E :=
  injection E as <- <-; unfold Tray.hold_count in *; simpl in *;
  repeat match goal with |- _ /\ _ => split end;
  solve [ reflexivity | assumption | congruence | lia
        | intros; discriminate | intros; congruence
        | left; congruence | right; congruence ].

Lemma stop_machine_effect (machine : Machine) (a : Tray.t (W := W) (G := G)) :
  (forall e, fst (Tray.stop_machine machine a) <> Tray.Failed e) /\
  Tray.hwnd (snd (Tray.stop_machine machine a)) = Tray.hwnd a /\
  Tray.shutdown_blocker (snd (Tray.stop_machine machine a)) =
    Tray.shutdown_blocker a /\
  Tray.desk (snd (Tray.stop_machine machine a)) = Tray.desk a /\
  Tray.gui_calls (snd (Tray.stop_machine machine a)) = Tray.gui_calls a /\
  Tray.hold_count (Tray.vbcc (snd (Tray.stop_machine machine a))) =
    Tray.hold_count (Tray.vbcc a).
Proof.
  destruct (Tray.stop_machine machine a) as [res a'] eqn:E.
  destruct a as [p h b g calls].
  unfold Tray.stop_machine, Tray.try_except_Exception, Tray.and_then,
    Tray.with_cm, Tray.on_controller, Tray.vbcc_call, Tray.MachineState_label,
    Tray.done, Tray.set_vbcc, on_outside, lift, env_log in E.
  simpl in E.
  tray_run E;
    injection E as <- <-; unfold Tray.hold_count; simpl;
    (split; [intros; discriminate|]);
    repeat (split; [reflexivity|]); lia.
Qed.

Lemma stop_each_effect (ms : list Machine) :
  forall a : Tray.t (W := W) (G := G),
    (forall e, fst (Tray.stop_each ms a) <> Tray.Failed e) /\
    Tray.hwnd (snd (Tray.stop_each ms a)) = Tray.hwnd a /\
    Tray.shutdown_blocker (snd (Tray.stop_each ms a)) =
      Tray.shutdown_blocker a /\
    Tray.desk (snd (Tray.stop_each ms a)) = Tray.desk a /\
    Tray.gui_calls (snd (Tray.stop_each ms a)) = Tray.gui_calls a /\
    Tray.hold_count (Tray.vbcc (snd (Tray.stop_each ms a))) =
      Tray.hold_count (Tray.vbcc a).
Proof.
  induction ms as [|machine ms IH]; intros a.
  - simpl. split; [intros; discriminate|]. repeat split.
  - simpl. unfold Tray.and_then.
    destruct (stop_machine_effect machine a) as [Hn [Hh [Hb [Hd [Hg Hc]]]]].
    destruct (Tray.stop_machine machine a) as [[[]|e|] a1]; simpl in *.
    + destruct (IH a1) as [Hn' [Hh' [Hb' [Hd' [Hg' Hc']]]]].
      split; [exact Hn'|]. repeat split; congruence.
    + exfalso. exact (Hn e eq_refl).
    + split; [intros; discriminate|]. repeat split; assumption.
Qed.

Lemma disable_enable (b : ShutdownBlocker.t) :
  (0 <= ShutdownBlocker.counter b)%Z ->
  ShutdownBlocker.counter (ShutdownBlocker.disable (ShutdownBlocker.enable b)) =
    ShutdownBlocker.counter b.
Proof.
  intros Hb. destruct b as [h r c calls]. simpl in Hb.
  unfold ShutdownBlocker.enable, ShutdownBlocker.disable. simpl.
  destruct (Z.eqb_spec c 0) as [E|E]; simpl.
  - subst c. reflexivity.
  - destruct (Z.eqb_spec (c + 1) 1) as [E1|E1]; [lia|]. simpl.
    destruct (Z.ltb_spec 0 (c + 1)); simpl; lia.
Qed.

Lemma stop_machines_effect (a : Tray.t (W := W) (G := G)) :
  let r := Tray.stop_machines a in
  let b := Tray.shutdown_blocker a in
  Tray.hwnd (snd r) = Tray.hwnd a /\
  Tray.desk (snd r) = Tray.desk a /\
  Tray.gui_calls (snd r) = Tray.gui_calls a /\
  Tray.hold_count (Tray.vbcc (snd r)) = Tray.hold_count (Tray.vbcc a) /\
  (forall e, fst r = Tray.Failed e -> e = Tray.Exn TypeError) /\
  match fst r with
  | Tray.Stuck =>
      Tray.shutdown_blocker (snd r) = b \/
      Tray.shutdown_blocker (snd r) = ShutdownBlocker.enable b
  | _ =>
      Tray.shutdown_blocker (snd r) = b \/
      Tray.shutdown_blocker (snd r) =
        ShutdownBlocker.disable (ShutdownBlocker.enable b)
  end.
Proof.
  intros r b. unfold r, b. clear r b.
  destruct (Tray.stop_machines a) as [res a'] eqn:E.
  destruct a as [p h b g calls].
  unfold Tray.stop_machines, Tray.and_then, Tray.with_cm, Tray.vbcc_call,
    Tray.on_shutdown_blocker, Tray.of_outcome, Tray.done, Tray.fail,
    Tray.set_vbcc, Tray.set_shutdown_blocker in E.
  simpl in E.
  tray_run E.
  - destruct v as [|flag|ms]; simpl in E; try solve [tray_done E].
    destruct (0 <? length ms) eqn:El; simpl in E; [|tray_done E].
    tray_run E; [|tray_done E].
    destruct v as [|flag'|ms']; simpl in E; try solve [tray_done E].
    match type of E with
    | context [Tray.stop_each ?l ?s] =>
        destruct (stop_each_effect l s) as [Hn' [Hh [Hb [Hd [Hg Hk]]]]];
        destruct (Tray.stop_each l s) as [[[]|e|] a1]
    end; simpl in Hn', Hh, Hb, Hd, Hg, Hk, E.
    + tray_done E.
    + exfalso. exact (Hn' e eq_refl).
    + tray_done E.
  - tray_done E.
Qed.

Lemma on_queryendsession_effect (a : Tray.t (W := W) (G := G)) :
  let r := Tray.on_queryendsession a in
  Tray.hwnd (snd r) = Tray.hwnd a /\
  Tray.hold_count (Tray.vbcc (snd r)) = Tray.hold_count (Tray.vbcc a) /\
  (forall e, fst r = Tray.Failed e ->
     Tray.gui_calls (snd r) = Tray.gui_calls a ->
     e = Tray.Exn TypeError /\
     Tray.shutdown_blocker (snd r) = Tray.shutdown_blocker a) /\
  (forall flag, fst r = Tray.Done flag ->
     flag = true /\
     ((Tray.gui_calls (snd r) = Tray.gui_calls a /\
       Tray.shutdown_blocker (snd r) = Tray.shutdown_blocker a) \/
      (Tray.gui_calls (snd r) =
         Tray.gui_calls a ++
         [Tray.PostMessage (Tray.hwnd a) (Tray.WM_USER + 30) 0 0] /\
       Tray.shutdown_blocker (snd r) =
         ShutdownBlocker.enable (Tray.shutdown_blocker a)))).
Proof.
  intros r. unfold r. clear r.
  destruct (Tray.on_queryendsession a) as [res a'] eqn:E.
  destruct a as [p h b g calls].
  unfold Tray.on_queryendsession, Tray.and_then, Tray.vbcc_call,
    Tray.on_shutdown_blocker, Tray.of_outcome, Tray.done, Tray.fail,
    Tray.set_vbcc, Tray.set_shutdown_blocker, Tray.get_hwnd,
    Tray.call_win32 in E.
  simpl in E.
  tray_run E.
  - destruct v as [|flag|ms]; simpl in E.
    + injection E as <- <-. unfold Tray.hold_count. simpl.
      split; [reflexivity|]. split; [assumption|].
      split; [intros e0 He0 _; split; congruence | intros; discriminate].
    + injection E as <- <-. unfold Tray.hold_count. simpl.
      split; [reflexivity|]. split; [assumption|].
      split; [intros e0 He0 _; split; congruence | intros; discriminate].
    + destruct (0 <? length ms) eqn:El; simpl in E.
      * destruct (Tray.win32 _ g) as [[[]|e0] g']; simpl in E;
          injection E as <- <-; unfold Tray.hold_count; simpl;
          (split; [reflexivity|]); (split; [assumption|]); split.
        -- intros; discriminate.
        -- intros flag Hf. split; [congruence|]. right. split; reflexivity.
        -- intros e1 _ Hg. exfalso.
           apply (f_equal (@length _)) in Hg. rewrite length_app in Hg.
           simpl in Hg. lia.
        -- intros; discriminate.
      * injection E as <- <-. unfold Tray.hold_count. simpl.
        split; [reflexivity|]. split; [assumption|]. split.
        -- intros; discriminate.
        -- intros flag Hf. split; [congruence|]. left. split; reflexivity.
  - injection E as <- <-. unfold Tray.hold_count. simpl.
    split; [reflexivity|]. split; [assumption|].
    split; intros; discriminate.
Qed.

Lemma quit_effect (a : Tray.t (W := W) (G := G)) :
  let r := Tray.quit a in
  let h := Tray.hwnd a in
  Tray.vbcc (snd r) = Tray.vbcc a /\
  Tray.shutdown_blocker (snd r) = Tray.shutdown_blocker a /\
  fst r <> Tray.Stuck /\
  exists tr,
    Tray.gui_calls (snd r) = Tray.gui_calls a ++ tr /\
    (tr = [Tray.DestroyWindow h] \/
     tr = [Tray.DestroyWindow h; Tray.NIM_DELETE h] \/
     tr = [Tray.DestroyWindow h; Tray.NIM_DELETE h; Tray.PostQuitMessage 0]) /\
    (fst r = Tray.Done tt ->
     tr = [Tray.DestroyWindow h; Tray.NIM_DELETE h; Tray.PostQuitMessage 0]).
Proof.
  intros r h. unfold r, h. clear r h.
  destruct a as [p h b g calls].
  unfold Tray.quit, Tray.and_then, Tray.get_hwnd, Tray.call_win32. simpl.
  destruct (Tray.win32 (Tray.DestroyWindow h) g) as [[[]|e0] g0]; simpl.
  - destruct (Tray.win32 (Tray.NIM_DELETE h) g0) as [[[]|e1] g1]; simpl.
    + destruct (Tray.win32 (Tray.PostQuitMessage 0) g1) as [[[]|e2] g2]; simpl;
        (repeat (split; [first [reflexivity | discriminate]|]));
        exists [Tray.DestroyWindow h; Tray.NIM_DELETE h; Tray.PostQuitMessage 0];
        rewrite <- !app_assoc; simpl; repeat split; auto.
    + repeat (split; [first [reflexivity | discriminate]|]).
      exists [Tray.DestroyWindow h; Tray.NIM_DELETE h].
      rewrite <- !app_assoc. simpl. split; [reflexivity|].
      split; [auto | intros; discriminate].
  - repeat (split; [first [reflexivity | discriminate]|]).
    exists [Tray.DestroyWindow h].
    split; [reflexivity|]. split; [auto | intros; discriminate].
Qed.

End Tray_facts.

(** X16.  [stop_machine] never raises into the message loop: it returns,
    or it is stuck in a [call] that waits forever.  Either way it leaves
    the hold count of the controller as it was, and it touches neither
    the window handle, the shutdown blocker nor the desktop. *)
Theorem X16_stop_machine_never_raises :
  forall (W H S : Type) (api : VBoxApi W H S)
         (G : Type)
         (machine : Machine) (a : Tray.t (W := W) (G := G)),
    let r := Tray.stop_machine machine a in
    (forall e, fst r <> Tray.Failed e) /\
    Tray.hwnd (snd r) = Tray.hwnd a /\
    Tray.shutdown_blocker (snd r) = Tray.shutdown_blocker a /\
    Tray.desk (snd r) = Tray.desk a /\
    Tray.gui_calls (snd r) = Tray.gui_calls a /\
    _acquire_cnt (vbcc (Tray.vbcc (snd r))) = _acquire_cnt (vbcc (Tray.vbcc a)).
Proof.
  intros W H S api G machine a r. unfold r.
  exact (stop_machine_effect machine a).
Qed.

(** X17.  On a controller that is not started and has no context, when
    the binding cannot connect: [stop_machine] returns at once.  The
    worker it starts dies, the look-up for the log line fails on the
    missing context and the exception is swallowed, so neither
    [shutdown_machine] nor [save_machine] is tried, nothing is logged, and
    the handler does not get stuck. *)
Theorem X17_stop_machine_without_context_gives_up :
  forall (W H S : Type) (api : VBoxApi W H S)
         (G : Type)
         (machine : Machine) (a : Tray.t (W := W) (G := G))
         (exc : exn) (w1 : W),
    _enabled (vbcc (Tray.vbcc a)) = false ->
    ctx (vbcc (Tray.vbcc a)) = None ->
    connect (world (outside (Tray.vbcc a))) = (Raise exc, w1) ->
    exc <> ImportError ->
    let r := Tray.stop_machine machine a in
    fst r = Tray.Done tt /\
    api_calls (outside (Tray.vbcc (snd r))) =
      api_calls (outside (Tray.vbcc a)) ++ [Connect] /\
    log (outside (Tray.vbcc (snd r))) = log (outside (Tray.vbcc a)) /\
    _thread (vbcc (Tray.vbcc (snd r))) = Some ThreadDead /\
    ctx (vbcc (Tray.vbcc (snd r))) = None.
Proof.
  intros W H S api G machine a exc w1 He Hx Hc Hexc r. unfold r. clear r.
  destruct a as [p h b g calls]. destruct p as [c e]. destruct c.
  simpl in *. subst.
  unfold Tray.stop_machine, Tray.try_except_Exception, Tray.and_then,
    Tray.with_cm, Tray.on_controller, Tray.vbcc_call, Tray.MachineState_label,
    Tray.done, Tray.set_vbcc, Tray.ctx_of.
  ctl_unfold.
  destruct _stop_timer0 as [[|]|]; simpl; rewrite Hc; simpl;
    destruct exc; try congruence; simpl;
    destruct (_acquire_cnt0 + 1 - 1 =? 0)%Z; simpl;
    try destruct (0 <? _acquire_cnt0 + 1 - 1)%Z; simpl;
    repeat split.
Qed.

Lemma X17_stop_machine_without_context_gives_up_witness :
  let w := Sim.host [Sim.vm "a" Running true] 5 false in
  let a := fresh_tray w in
  let m := {| index := 0; name := "a"; state := Running |} in
  fst (Tray.stop_machine m a) = Tray.Done tt /\
  api_calls (outside (Tray.vbcc (snd (Tray.stop_machine m a)))) =
    [Connect].
Proof.
  intros w a m.
  assert (Hexc : ApiError "unavailable" <> ImportError) by discriminate.
  destruct (@X17_stop_machine_without_context_gives_up _ _ _ Sim.api
              _ m a (ApiError "unavailable") w
              eq_refl eq_refl eq_refl Hexc) as [Hr [Ha _]].
  split; [exact Hr | exact Ha].
Defined.

(** X18.  [stop_machines] keeps the shutdown blocker balanced.  From a
    blocker in a consistent state, whenever the handler returns or raises,
    the counter and the veto are as before; the only exception it can
    raise is the [TypeError] of a [call] that handed back something other
    than a list.  It makes no [win32gui] call and leaves the hold count as
    it was. *)
Theorem X18_stop_machines_balances_blocker :
  forall (W H S : Type) (api : VBoxApi W H S)
         (G : Type)
         (a : Tray.t (W := W) (G := G)),
    ShutdownBlocker.invariant (Tray.shutdown_blocker a) ->
    let r := Tray.stop_machines a in
    let b := Tray.shutdown_blocker a in
    let b' := Tray.shutdown_blocker (snd r) in
    Tray.gui_calls (snd r) = Tray.gui_calls a /\
    _acquire_cnt (vbcc (Tray.vbcc (snd r))) = _acquire_cnt (vbcc (Tray.vbcc a)) /\
    (forall e, fst r = Tray.Failed e -> e = Tray.Exn TypeError) /\
    ShutdownBlocker.invariant b' /\
    (fst r <> Tray.Stuck ->
     ShutdownBlocker.counter b' = ShutdownBlocker.counter b /\
     ShutdownBlocker.veto_active (ShutdownBlocker.os_calls b') =
       ShutdownBlocker.veto_active (ShutdownBlocker.os_calls b)).
Proof.
  intros W H S api G a Hinv r b b'. unfold b', b, r. clear b' b r.
  destruct (stop_machines_effect a) as [_ [_ [Hg [Hc [Hf Hb]]]]].
  simpl in Hg, Hc, Hf, Hb.
  split; [exact Hg|]. split; [exact Hc|]. split; [exact Hf|].
  pose proof (ShutdownBlockerFacts.invariant_enable Hinv) as Hen.
  pose proof (ShutdownBlockerFacts.invariant_disable Hen) as Hde.
  pose proof (disable_enable (Tray.shutdown_blocker a)
                (ShutdownBlocker.inv_nonneg Hinv)) as Hcnt.
  assert (Hrest :
    forall b1,
      b1 = Tray.shutdown_blocker a \/
      b1 = ShutdownBlocker.disable
             (ShutdownBlocker.enable (Tray.shutdown_blocker a)) ->
      ShutdownBlocker.invariant b1 /\
      ShutdownBlocker.counter b1 =
        ShutdownBlocker.counter (Tray.shutdown_blocker a) /\
      ShutdownBlocker.veto_active (ShutdownBlocker.os_calls b1) =
        ShutdownBlocker.veto_active
          (ShutdownBlocker.os_calls (Tray.shutdown_blocker a))).
  { intros b1 [->| ->].
    - split; [exact Hinv|]. split; reflexivity.
    - split; [exact Hde|]. split; [exact Hcnt|].
      rewrite (ShutdownBlocker.inv_active Hde),
        (ShutdownBlocker.inv_active Hinv), Hcnt. reflexivity. }
  destruct (fst (Tray.stop_machines a)).
  - destruct (Hrest _ Hb) as [Hi [H1 H2]]. split; [exact Hi|]. intros _.
    split; assumption.
  - destruct (Hrest _ Hb) as [Hi [H1 H2]]. split; [exact Hi|]. intros _.
    split; assumption.
  - split; [|intros Hs; congruence].
    destruct Hb as [->| ->]; assumption.
Qed.

Lemma X18_stop_machines_balances_blocker_witness :
  let w := Sim.host [Sim.vm "a" Running true; Sim.vm "b" Saved true] 9 true in
  let a := fresh_tray w in
  let r := Tray.stop_machines a in
  ShutdownBlocker.invariant (Tray.shutdown_blocker a) /\
  fst r = Tray.Done tt /\
  ShutdownBlocker.counter (Tray.shutdown_blocker (snd r)) = 0%Z /\
  ShutdownBlocker.veto_active
    (ShutdownBlocker.os_calls (Tray.shutdown_blocker (snd r))) = false.
Proof.
  intros w a r.
  assert (Hinv : ShutdownBlocker.invariant (Tray.shutdown_blocker a))
    by (constructor; reflexivity).
  assert (Hr : fst r = Tray.Done tt) by (vm_compute; reflexivity).
  assert (Hs : fst r <> Tray.Stuck) by (rewrite Hr; discriminate).
  destruct (@X18_stop_machines_balances_blocker _ _ _ Sim.api _
              a Hinv) as [_ [_ [_ [_ Hbal]]]].
  destruct (Hbal Hs) as [Hc Hv].
  split; [exact Hinv|]. split; [exact Hr|]. split; [exact Hc | exact Hv].
Defined.

(** X19.  The two steps of a system shutdown.  From a blocker with nothing
    vetoed: when [on_queryendsession] returns, it returns [True]; either
    it found no running machine and neither vetoed nor posted anything,
    or it registered the veto and posted the message [WM_USER+30] to its
    own window.  In the second case, when the handler of that message,
    [on_async_stop], returns, the veto is gone again: over the two
    handlers the blocker made exactly one [ShutdownBlockReasonCreate] and
    then one [ShutdownBlockReasonDestroy], the second one only after the
    machines were dealt with. *)
Theorem X19_shutdown_veto_is_created_then_destroyed :
  forall (W H S : Type) (api : VBoxApi W H S)
         (G : Type) (gui : Tray.Win32Api G)
         (a : Tray.t (W := W) (G := G)) (flag : bool),
    ShutdownBlocker.counter (Tray.shutdown_blocker a) = 0%Z ->
    fst (Tray.on_queryendsession a) = Tray.Done flag ->
    let b := Tray.shutdown_blocker a in
    let a1 := snd (Tray.on_queryendsession a) in
    flag = true /\
    ((Tray.gui_calls a1 = Tray.gui_calls a /\ Tray.shutdown_blocker a1 = b) \/
     (Tray.gui_calls a1 =
        Tray.gui_calls a ++
        [Tray.PostMessage (Tray.hwnd a) (Tray.WM_USER + 30) 0 0] /\
      ShutdownBlocker.os_calls (Tray.shutdown_blocker a1) =
        ShutdownBlocker.os_calls b ++
        [ShutdownBlocker.ShutdownBlockReasonCreate
           (ShutdownBlocker.hWnd b) (ShutdownBlocker.sReason b)] /\
      forall flag2,
        fst (Tray.on_async_stop a1) = Tray.Done flag2 ->
        let b2 := Tray.shutdown_blocker (snd (Tray.on_async_stop a1)) in
        flag2 = true /\
        ShutdownBlocker.counter b2 = 0%Z /\
        ShutdownBlocker.os_calls b2 =
          ShutdownBlocker.os_calls b ++
          [ShutdownBlocker.ShutdownBlockReasonCreate
             (ShutdownBlocker.hWnd b) (ShutdownBlocker.sReason b);
           ShutdownBlocker.ShutdownBlockReasonDestroy
             (ShutdownBlocker.hWnd b)])).
Proof.
  intros W H S api G gui a flag Hc0 Hq b a1. unfold b, a1. clear b a1.
  destruct (on_queryendsession_effect a) as [_ [_ [_ Hdone]]].
  simpl in Hdone. destruct (Hdone flag Hq) as [Hflag [[Hg Hb]|[Hg Hb]]].
  - split; [exact Hflag|]. left. split; assumption.
  - split; [exact Hflag|]. right. split; [exact Hg|].
    destruct (snd (Tray.on_queryendsession a)) as [p1 h1 b1 g1 calls1].
    simpl in Hb. subst b1.
    destruct (Tray.shutdown_blocker a) as [h r c calls]. simpl in Hc0.
    subst c. split; [reflexivity|].
    intros flag2 Ha.
    match type of Ha with
    | fst (Tray.on_async_stop ?s) = _ =>
        destruct (stop_machines_effect s) as [_ [_ [_ [_ [_ Hb]]]]];
        unfold Tray.on_async_stop, Tray.and_then, Tray.on_shutdown_blocker,
          Tray.done, Tray.set_shutdown_blocker in Ha |- *;
        destruct (Tray.stop_machines s) as [[[]|e|] a2]
    end; simpl in Ha, Hb |- *; try discriminate.
    injection Ha as <-. split; [reflexivity|].
    destruct Hb as [-> | ->]; (split; [reflexivity|]);
      unfold ShutdownBlocker.disable, ShutdownBlocker.enable; simpl;
      rewrite <- app_assoc; reflexivity.
Qed.

Lemma X19_shutdown_veto_is_created_then_destroyed_witness :
  let w := Sim.host [Sim.vm "a" Running true] 9 true in
  let a := fresh_tray w in
  let a1 := snd (Tray.on_queryendsession (gui := quiet_desktop) a) in
  let a2 := snd (Tray.on_async_stop a1) in
  ShutdownBlocker.counter (Tray.shutdown_blocker a) = 0%Z /\
  Tray.gui_calls a1 = [Tray.PostMessage 1 (Tray.WM_USER + 30) 0 0] /\
  ShutdownBlocker.os_calls (Tray.shutdown_blocker a2) =
    [ShutdownBlocker.ShutdownBlockReasonCreate 1
       "Shutting down VirtualBox VMs...";
     ShutdownBlocker.ShutdownBlockReasonDestroy 1].
Proof.
  intros w a a1 a2.
  assert (Hq : fst (Tray.on_queryendsession (gui := quiet_desktop) a) =
               Tray.Done true) by (vm_compute; reflexivity).
  assert (Hg : Tray.gui_calls a1 <> Tray.gui_calls a)
    by (vm_compute; discriminate).
  assert (Hs : fst (Tray.on_async_stop a1) = Tray.Done true)
    by (vm_compute; reflexivity).
  destruct (@X19_shutdown_veto_is_created_then_destroyed _ _ _ Sim.api
              _ quiet_desktop a true eq_refl Hq) as [_ [[Hsame _]|[Hp [_ Hd]]]].
  - exfalso. exact (Hg Hsame).
  - destruct (Hd true Hs) as [_ [_ Ho]].
    split; [reflexivity|]. split; [exact Hp | exact Ho].
Defined.

(** X20.  On a host without the [vboxapi] package the window cannot be
    closed by a close request.  The worker of a controller that is not
    started ends up on the stub context; there [machines_running] faults,
    [call] hands back [None], and [len(None)] raises [TypeError] in
    [stop_machines]: [on_close] raises before it reaches [quit], so no
    window is destroyed and no quit message is posted, and
    [on_queryendsession] raises the same way without registering a
    veto. *)
Theorem X20_close_fails_without_vboxapi :
  forall (W H S : Type) (api : VBoxApi W H S)
         (G : Type) (gui : Tray.Win32Api G)
         (a : Tray.t (W := W) (G := G)) (w1 : W),
    _enabled (vbcc (Tray.vbcc a)) = false ->
    _call_method (vbcc (Tray.vbcc a)) = None ->
    _call_result (vbcc (Tray.vbcc a)) = VNone ->
    connect (world (outside (Tray.vbcc a))) = (Raise ImportError, w1) ->
    fst (Tray.on_close a) = Tray.Failed (Tray.Exn TypeError) /\
    Tray.gui_calls (snd (Tray.on_close a)) = Tray.gui_calls a /\
    fst (Tray.on_queryendsession a) = Tray.Failed (Tray.Exn TypeError) /\
    Tray.gui_calls (snd (Tray.on_queryendsession a)) = Tray.gui_calls a /\
    Tray.shutdown_blocker (snd (Tray.on_queryendsession a)) =
      Tray.shutdown_blocker a.
Proof.
  intros W H S api G gui a w1 He Hm Hr Hc.
  destruct a as [p h b g calls]. destruct p as [c e]. destruct c.
  simpl in *. subst.
  assert (Hcall :
    exists p',
      call Tray.machines_running_method
        {| vbcc := {| ctx := ctx0; _enabled := false;
                      _acquire_cnt := _acquire_cnt0;
                      _ev_result := _ev_result0;
                      _ev_started := _ev_started0;
                      _stop_timer := _stop_timer0; _thread := _thread0;
                      _call_method := None; _call_result := VNone |};
           outside := e |} = (Returned VNone, p')).
  { unfold Tray.machines_running_method, machines_running, machines,
      _machines.
    ctl_unfold.
    destruct _stop_timer0 as [[|]|]; simpl; rewrite Hc; simpl;
      destruct (0 <? _acquire_cnt0)%Z; simpl; eexists; reflexivity. }
  destruct Hcall as [p' Hcall].
  unfold Tray.on_close, Tray.stop_machines, Tray.on_queryendsession,
    Tray.and_then, Tray.vbcc_call. simpl.
  rewrite Hcall. simpl. repeat split.
Qed.

Lemma X20_close_fails_without_vboxapi_witness :
  let a := fresh_tray (Sim.host [Sim.vm "a" Running true] 9 true) in
  let missing : VBoxApi Sim.World nat unit :=
    {| connect := fun w => (Raise ImportError, w);
       deinit := deinit (VBoxApi := Sim.api);
       getArray_machines := getArray_machines (VBoxApi := Sim.api);
       machine_name := machine_name (VBoxApi := Sim.api);
       machine_state := machine_state (VBoxApi := Sim.api);
       getSessionObject := getSessionObject (VBoxApi := Sim.api);
       lockMachine := lockMachine (VBoxApi := Sim.api);
       session_machine := session_machine (VBoxApi := Sim.api);
       unlockMachine := unlockMachine (VBoxApi := Sim.api);
       console_resume := console_resume (VBoxApi := Sim.api);
       console_PowerButton := console_PowerButton (VBoxApi := Sim.api);
       saveState := saveState (VBoxApi := Sim.api);
       sleep := sleep (VBoxApi := Sim.api) |} in
  fst (Tray.on_close (api := missing) (gui := quiet_desktop) a) =
    Tray.Failed (Tray.Exn TypeError) /\
  Tray.gui_calls (snd (Tray.on_close (api := missing) (gui := quiet_desktop) a)) = [].
Proof.
  intros a missing.
  destruct (@X20_close_fails_without_vboxapi _ _ _ missing _ quiet_desktop a
              (Sim.host [Sim.vm "a" Running true] 9 true)
              eq_refl eq_refl eq_refl eq_refl) as [Hf [Hg _]].
  split; [exact Hf | exact Hg].
Defined.

(** X21.  [on_close] reaches [quit] only after [stop_machines] has
    returned.  When [stop_machines] raises or is stuck, no [win32gui] call
    is made and [on_close] ends the same way.  Otherwise the calls are
    [DestroyWindow], the removal of the tray icon and [PostQuitMessage(0)],
    in this order and up to the first that fails; when [on_close] returns,
    all three were made. *)
Theorem X21_on_close_quits_only_after_stop :
  forall (W H S : Type) (api : VBoxApi W H S)
         (G : Type) (gui : Tray.Win32Api G)
         (a : Tray.t (W := W) (G := G)),
    let r := Tray.on_close a in
    let h := Tray.hwnd a in
    let quitting :=
      [Tray.DestroyWindow h; Tray.NIM_DELETE h; Tray.PostQuitMessage 0] in
    exists tr,
      Tray.gui_calls (snd r) = Tray.gui_calls a ++ tr /\
      (exists n, tr = firstn n quitting) /\
      (fst (Tray.stop_machines a) <> Tray.Done tt ->
       tr = [] /\ fst r = fst (Tray.stop_machines a)) /\
      (fst (Tray.stop_machines a) = Tray.Done tt -> tr <> []) /\
      (fst r = Tray.Done tt -> tr = quitting).
Proof.
  intros W H S api G gui a r h quitting. unfold quitting, r, h.
  clear quitting r h.
  destruct (stop_machines_effect a) as [Hh [_ [Hg _]]]. simpl in Hh, Hg.
  unfold Tray.on_close, Tray.and_then.
  destruct (Tray.stop_machines a) as [[[]|e|] a1]; simpl in *.
  - destruct (quit_effect a1) as [_ [_ [_ [tr [Htr [Hcases Hdone]]]]]].
    simpl in Htr, Hcases, Hdone. rewrite Hh in Hcases, Hdone.
    exists tr. rewrite Htr, Hg. split; [reflexivity|]. split.
    + destruct Hcases as [->|[->| ->]];
        [exists 1 | exists 2 | exists 3]; reflexivity.
    + split; [intros Hn; congruence|].
      split; [|exact Hdone].
      intros _. destruct Hcases as [->|[->| ->]]; discriminate.
  - exists []. rewrite app_nil_r. split; [assumption|].
    split; [exists 0; reflexivity|].
    split; [intros _; split; reflexivity|].
    split; intros; discriminate.
  - exists []. rewrite app_nil_r. split; [assumption|].
    split; [exists 0; reflexivity|].
    split; [intros _; split; reflexivity|].
    split; intros; discriminate.
Qed.

Lemma X21_on_close_quits_only_after_stop_witness :
  let a := fresh_tray (Sim.host [Sim.vm "a" Running true] 9 true) in
  let r := Tray.on_close (gui := quiet_desktop) a in
  fst r = Tray.Done tt /\
  Tray.gui_calls (snd r) =
    [Tray.DestroyWindow 1; Tray.NIM_DELETE 1; Tray.PostQuitMessage 0].
Proof.
  intros a r.
  assert (Hr : fst r = Tray.Done tt) by (vm_compute; reflexivity).
  destruct (@X21_on_close_quits_only_after_stop _ _ _ Sim.api _ quiet_desktop a)
    as [tr [Htr [_ [_ [_ Hdone]]]]].
  split; [exact Hr|].
  exact (eq_trans Htr (f_equal (app (Tray.gui_calls a)) (Hdone Hr))).
Defined.
